(** * Farm Analytics: the analysis and report pipeline of [modsac_1.py]

    A shallow embedding of the pure part of the Streamlit application:
    [fetch_flood], the inline construction of [weather_df] / [forecast_df],
    [analyze_extremes] and [generate_report].

    Conventions of the embedding.
    - A Python exception is a value of [exn]; code that may raise lives in
      the error monad [result].
    - A decoded JSON document ([resp.json()]) is a [json]; Python's [None]
      is [JNull], a [dict] is a finite map from strings.
    - Numbers are as Python has them.  An int is an integer of any size.  A
      float is NaN, an infinity, or a finite float, which is given by its
      value, an exact rational; the two zeros are not told apart.
      Comparisons, the arithmetic of ints, the conversion of an int to a
      float, true division and the format [:.1f] are computed on these
      values, with the rounding and the [OverflowError] of Python.
    - The sums of floats round in an order that depends on the versions of
      Python, numpy and pandas: the builtin [sum] once a float is among its
      items, and the [sum] and [mean] of a column.  They are the operations
      of the class [Floats], of which only the exact cases are stated.
    - A data frame is a number of rows (its index) and named columns.  The
      frames the analysis reads have float columns, whose cells are a finite
      number or NaN. *)

From Stdlib Require Import QArith Qabs Qpower ZArith String Ascii DecimalString Lqa.
From Stdlib Require Qcanon.
From stdpp Require Import base option list gmap strings.

Set Warnings "-register-all".

Local Open Scope string_scope.
Local Open Scope list_scope.

(** ** Exceptions and the error monad *)

Inductive exn : Type :=
  | KeyError (key : string)
  | TypeError (msg : string)
  | ValueError (msg : string)
  | ZeroDivisionError
  | OverflowError (msg : string)
  | RequestException (msg : string)
  | HTTPError (msg : string)
  | JSONDecodeError (msg : string).

Inductive result (A : Type) : Type :=
  | Ok (a : A)
  | Raise (e : exn).

Arguments Ok {A} a.
Arguments Raise {A} e.

#[export] Instance result_ret : MRet result := λ A a, Ok a.

#[export] Instance result_bind : MBind result := λ A B f m,
  match m with
  | Ok a => f a
  | Raise e => Raise e
  end.

(** [try: body / except Exception as e: handler e]. *)
Definition try_except {A : Type} (body : result A) (handler : exn → result A)
  : result A :=
  match body with
  | Ok a => Ok a
  | Raise e => handler e
  end.

(** [str(e)]: the message of an exception ([KeyError] shows the repr of
    its key). *)
Definition str_exn (e : exn) : string :=
  match e with
  | KeyError k => "'" +:+ k +:+ "'"
  | TypeError m | ValueError m | OverflowError m | RequestException m
  | HTTPError m | JSONDecodeError m => m
  | ZeroDivisionError => "division by zero"
  end.

(** ** Numbers *)

Definition Qltb (x y : Q) : bool := negb (Qle_bool y x).

(** [str(n)] for an integer. *)
Definition str_Z (z : Z) : string := NilZero.string_of_int (Z.to_int z).

(** The nearest integer, ties to the even one. *)
Definition round_half_even (q : Q) : Z :=
  let n := Qnum q in
  let d := Z.pos (Qden q) in
  let f := (n / d)%Z in
  let r := (n mod d)%Z in
  if (2 * r <? d)%Z then f
  else if (d <? 2 * r)%Z then (f + 1)%Z
  else if Z.even f then f else (f + 1)%Z.

(** *** Floats *)

Inductive float64 : Type :=
  | Finite (q : Q)
  | NaN
  | Inf (negative : bool).

(** A number of Python: an [int] or a [float]. *)
Inductive number : Type :=
  | Int (z : Z)
  | Float (x : float64).

Definition pow2 (k : Z) : Q :=
  if (0 <=? k)%Z then inject_Z (2 ^ k) else (/ inject_Z (2 ^ (- k)))%Q.

(** The binary exponent [e] of a positive rational [a]:
    [2^e <= a < 2^(e+1)]. *)
Definition exponent (a : Q) : Z :=
  let e := (Z.log2 (Qnum a) - Z.log2 (Z.pos (Qden a)))%Z in
  if Qle_bool (pow2 e) a then e else (e - 1)%Z.

(** The nearest to a positive rational among the multiples of its unit in
    the last place, ties to the even multiple: 53 bits, with the exponents
    of the subnormal floats at the low end. *)
Definition round_positive (a : Q) : Q :=
  let ulp := pow2 (Z.max (exponent a - 52) (-1074)) in
  Qred (inject_Z (round_half_even (a / ulp)) * ulp).

(** The float nearest to a rational: an infinity from [2^1024] on. *)
Definition round_binary64 (q : Q) : float64 :=
  let q := Qred q in
  if Qeq_bool q 0 then Finite 0
  else
    let r := round_positive (Qabs q) in
    if Qle_bool (pow2 1024) r then Inf (Qltb q 0)
    else Finite (if Qltb q 0 then (- r)%Q else r).

(** [x / n] for a float [x] and a length [n] other than 0. *)
Definition float_div (x : float64) (n : nat) : float64 :=
  match x with
  | Finite q => round_binary64 (q / inject_Z (Z.of_nat n))
  | NaN => NaN
  | Inf negative => Inf negative
  end.

(** [x < y] on floats: false as soon as one of them is NaN. *)
Definition float_lt (x y : float64) : bool :=
  match x, y with
  | Finite a, Finite b => Qltb a b
  | Finite _, Inf negative => negb negative
  | Inf negative, Finite _ => negative
  | Inf a, Inf b => a && negb b
  | NaN, _ | _, NaN => false
  end.

(** The format specification [:.1f] for a finite float of value [q]: one
    digit after the point. *)
Definition format_1f (q : Q) : string :=
  let t := Z.abs (round_half_even (q * 10)) in
  (if Qltb q 0 then "-" else "") +:+ str_Z (t / 10) +:+ "." +:+ str_Z (t mod 10).

Definition format_float_1f (x : float64) : string :=
  match x with
  | Finite q => format_1f q
  | NaN => "nan"
  | Inf false => "inf"
  | Inf true => "-inf"
  end.

(** *** Ints and floats together *)

(** [float(z)]. *)
Definition float_of_int (z : Z) : result float64 :=
  match round_binary64 (inject_Z z) with
  | Inf _ => Raise (OverflowError "int too large to convert to float")
  | x => Ok x
  end.

(** The value of a number, for the comparisons: an int is compared with a
    float by its exact value. *)
Definition exact (x : number) : float64 :=
  match x with
  | Int z => Finite (inject_Z z)
  | Float f => f
  end.

(** [x < y] on numbers. *)
Definition number_lt (x y : number) : bool := float_lt (exact x) (exact y).

(** The format specification [:.1f] on a number: an int is converted to a
    float first. *)
Definition format_number_1f (x : number) : result string :=
  match x with
  | Int z => f ← float_of_int z; Ok (format_float_1f f)
  | Float f => Ok (format_float_1f f)
  end.

(** *** The sums of floats *)

(** A cell of a float column: a finite number, or NaN. *)
Definition cell : Type := option Q.

(** The sum of a list of integers, and of their magnitudes. *)
Definition Zsum (zs : list Z) : Z := foldr Z.add 0%Z zs.

Definition Zsum_abs (zs : list Z) : Z := foldr (λ z total, Z.abs z + total)%Z 0%Z zs.

(** [series_sum] and [series_mean] are [sum()] and [mean()] on a float
    column: NaN is skipped.  [float_sum] is the value of the builtin [sum]
    on a list of numbers that holds a float.

    The exact cases.  When the numbers of a column are whole and their
    magnitudes add up to less than [2^52], every partial sum is a float, in
    whatever order the sum is taken: the sum is exact, and the mean is the
    float nearest to the quotient of the sum by the count.  A column
    without any number has the mean NaN. *)
Class Floats : Type := {
  series_sum : list cell → float64;
  series_mean : list cell → float64;
  float_sum : list number → float64;
  series_sum_whole (s : list cell) (zs : list Z) :
    omap id s = inject_Z <$> zs → (Zsum_abs zs < 2 ^ 52)%Z →
    series_sum s = Finite (inject_Z (Zsum zs));
  series_mean_whole (s : list cell) (zs : list Z) :
    omap id s = inject_Z <$> zs → zs ≠ [] → (Zsum_abs zs < 2 ^ 52)%Z →
    series_mean s
    = round_binary64 (inject_Z (Zsum zs) / inject_Z (Z.of_nat (length zs)));
  series_mean_no_number (s : list cell) : omap id s = [] → series_mean s = NaN
}.

(** ** JSON documents *)

(** [JInt] is an int; [JNum] is a finite float, by its value; [JNaN] and
    [JInf] are the floats that the decoder makes of the literals [NaN],
    [Infinity] and [-Infinity], and of a number with a fraction or an
    exponent that is beyond the floats. *)
Inductive json : Type :=
  | JNull
  | JBool (b : bool)
  | JInt (z : Z)
  | JNum (q : Q)
  | JNaN
  | JInf (negative : bool)
  | JStr (s : string)
  | JArr (l : list json)
  | JObj (kv : gmap string json).

(** Truth value of an object in a condition. *)
Definition truthy (j : json) : bool :=
  match j with
  | JNull => false
  | JBool b => b
  | JInt z => negb (z =? 0)%Z
  | JNum q => negb (Qeq_bool q 0)
  | JNaN | JInf _ => true
  | JStr s => negb (String.eqb s "")
  | JArr l => negb (bool_decide (l = []))
  | JObj kv => negb (bool_decide (kv = ∅))
  end.

(** [key in j] for a string [key]: membership of a key in a dict, of an
    element in a list, of a substring in a string; a [TypeError] on
    anything else. *)
Definition contains (key : string) (j : json) : result bool :=
  match j with
  | JObj kv => Ok (bool_decide (is_Some (kv !! key)))
  | JArr l =>
      Ok (existsb (λ x, match x with JStr s => String.eqb s key | _ => false end) l)
  | JStr s => Ok (bool_decide (is_Some (String.index 0 key s)))
  | JNull | JBool _ | JInt _ | JNum _ | JNaN | JInf _ =>
      Raise (TypeError "argument is not iterable")
  end.

(** [j[key]] for a string [key]. *)
Definition getitem (j : json) (key : string) : result json :=
  match j with
  | JObj kv =>
      match kv !! key with
      | Some v => Ok v
      | None => Raise (KeyError key)
      end
  | JArr _ => Raise (TypeError "list indices must be integers or slices, not str")
  | JStr _ => Raise (TypeError "string indices must be integers, not 'str'")
  | JNull | JBool _ | JInt _ | JNum _ | JNaN | JInf _ =>
      Raise (TypeError "object is not subscriptable")
  end.

(** A value as a number: [bool] is a subclass of [int]. *)
Definition as_number (j : json) : option number :=
  match j with
  | JBool b => Some (Int (Z.b2z b))
  | JInt z => Some (Int z)
  | JNum q => Some (Float (Finite q))
  | JNaN => Some (Float NaN)
  | JInf negative => Some (Float (Inf negative))
  | _ => None
  end.

(** The numbers that iterating over [j] yields: a [TypeError] on the first
    item that is not a number, and iterating a string or a dict yields
    strings. *)
Fixpoint numbers_of_list (l : list json) : result (list number) :=
  match l with
  | [] => Ok []
  | x :: l' =>
      match as_number x with
      | Some n => ns ← numbers_of_list l'; Ok (n :: ns)
      | None => Raise (TypeError "unsupported operand type(s) for +")
      end
  end.

Definition iter_numbers (j : json) : result (list number) :=
  match j with
  | JArr l => numbers_of_list l
  | JStr s =>
      if String.eqb s "" then Ok []
      else Raise (TypeError "unsupported operand type(s) for +: 'int' and 'str'")
  | JObj kv =>
      if bool_decide (kv = ∅) then Ok []
      else Raise (TypeError "unsupported operand type(s) for +: 'int' and 'str'")
  | JNull | JBool _ | JInt _ | JNum _ | JNaN | JInf _ =>
      Raise (TypeError "object is not iterable")
  end.

(** The additions of [sum], item by item.  The total is an int, [Some z],
    until a float is added to it; from then on it is a float, [None], and
    its value is not followed here.  Adding an int and a float converts the
    int, which raises [OverflowError] beyond the range of the floats; adding
    anything but a number raises [TypeError]. *)
Fixpoint sum_items (total : option Z) (items : list json) : result (option Z) :=
  match items with
  | [] => Ok total
  | x :: items' =>
      match as_number x, total with
      | None, _ => Raise (TypeError "unsupported operand type(s) for +")
      | Some (Int z'), Some z => sum_items (Some (z + z')%Z) items'
      | Some (Int z'), None => _ ← float_of_int z'; sum_items None items'
      | Some (Float _), Some z => _ ← float_of_int z; sum_items None items'
      | Some (Float _), None => sum_items None items'
      end
  end.

(** [sum(j)]: the additions start from the int 0. *)
Definition py_sum {F : Floats} (j : json) : result number :=
  match j with
  | JArr l =>
      total ← sum_items (Some 0%Z) l;
      match total with
      | Some z => Ok (Int z)
      | None => Ok (Float (float_sum (omap as_number l)))
      end
  | JStr s =>
      if String.eqb s "" then Ok (Int 0)
      else Raise (TypeError "unsupported operand type(s) for +: 'int' and 'str'")
  | JObj kv =>
      if bool_decide (kv = ∅) then Ok (Int 0)
      else Raise (TypeError "unsupported operand type(s) for +: 'int' and 'str'")
  | JNull | JBool _ | JInt _ | JNum _ | JNaN | JInf _ =>
      Raise (TypeError "object is not iterable")
  end.

(** [len(j)].  The program takes it after [sum(j)] has returned, so of a
    string only when it is empty; other strings are measured in bytes. *)
Definition py_len (j : json) : result nat :=
  match j with
  | JArr l => Ok (length l)
  | JStr s => Ok (String.length s)
  | JObj kv => Ok (size kv)
  | JNull | JBool _ | JInt _ | JNum _ | JNaN | JInf _ =>
      Raise (TypeError "object has no len()")
  end.

(** [x / n] for a length [n]: the quotient of two ints is the float
    nearest to it, and an [OverflowError] when that is beyond the floats. *)
Definition py_div (x : number) (n : nat) : result float64 :=
  match n with
  | O => Raise ZeroDivisionError
  | S _ =>
      match x with
      | Int z =>
          match round_binary64 (inject_Z z / inject_Z (Z.of_nat n)) with
          | Inf _ => Raise (OverflowError "integer division result too large for a float")
          | q => Ok q
          end
      | Float f => Ok (float_div f n)
      end
  end.

(** [max] goes through the items and replaces the one it holds by an item
    that compares greater: it keeps the first of the largest items, and an
    item that follows a NaN is never greater. *)
Definition max_list (x : number) (l : list number) : number :=
  foldl (λ m y, if number_lt m y then y else m) x l.

(** [max(j)] on the iterables of numbers; [sum(j)] is evaluated before it in
    the program and has raised on every other iterable but the empty ones. *)
Definition py_max (j : json) : result number :=
  ns ← iter_numbers j;
  match ns with
  | [] => Raise (ValueError "max() arg is an empty sequence")
  | x :: l => Ok (max_list x l)
  end.

(** ** Data frames *)

(** A frame: the number of rows of its index and its columns by name. *)
Record DataFrame (A : Type) : Type := mkDataFrame {
  index : nat;
  columns : gmap string (list A)
}.

Arguments mkDataFrame {A} index columns.
Arguments index {A} d.
Arguments columns {A} d.

(** Every column has one cell per row of the index. *)
Definition wf_frame {A : Type} (df : DataFrame A) : Prop :=
  map_Forall (λ (_ : string) (col : list A), length col = index df) (columns df).

(** [df.empty]: no row or no column. *)
Definition empty {A : Type} (df : DataFrame A) : bool :=
  (index df =? 0)%nat || bool_decide (columns df = ∅).

(** [name in df.columns]. *)
Definition has_column {A : Type} (name : string) (df : DataFrame A) : bool :=
  bool_decide (is_Some (columns df !! name)).

(** [df[name]]. *)
Definition column {A : Type} (df : DataFrame A) (name : string) : result (list A) :=
  match columns df !! name with
  | Some col => Ok col
  | None => Raise (KeyError name)
  end.

(** [series > x] and [series < x], cell by cell; NaN compares false. *)
Definition series_gt (s : list cell) (x : Q) : list bool :=
  map (λ c : cell, match c with Some q => Qltb x q | None => false end) s.

Definition series_lt (s : list cell) (x : Q) : list bool :=
  map (λ c : cell, match c with Some q => Qltb q x | None => false end) s.

(** [int(mask.sum())]: the number of [True] in a boolean series. *)
Definition mask_sum (mask : list bool) : Z :=
  foldr (λ (b : bool) (n : Z), (Z.b2z b + n)%Z) 0%Z mask.

(** [x > y] for a float [x] and a threshold [y] of the program. *)
Definition float_gt (x : float64) (y : Q) : bool := float_lt (Finite y) x.

(** ** ANALYSIS FUNCTIONS *)

Definition analyze_extremes (df : option (DataFrame cell)) : result (gmap string Z) :=
  let events : gmap string Z := ∅ in
  match df with
  | Some d =>
      if negb (empty d) && has_column "tmax" d && has_column "rain" d then
        tmax ← column d "tmax";
        let events := <["heatwave_days" := mask_sum (series_gt tmax 40)]> events in
        rain ← column d "rain";
        let events := <["drought_days" := mask_sum (series_lt rain 1)]> events in
        rain ← column d "rain";
        let events := <["flood_days" := mask_sum (series_gt rain 100)]> events in
        Ok events
      else
        let events := <["heatwave_days" := 0%Z]> events in
        let events := <["drought_days" := 0%Z]> events in
        let events := <["flood_days" := 0%Z]> events in
        Ok events
  | None =>
      let events := <["heatwave_days" := 0%Z]> events in
      let events := <["drought_days" := 0%Z]> events in
      let events := <["flood_days" := 0%Z]> events in
      Ok events
  end.

(** The dict that [analyze_extremes] returns, by its three counts. *)
Definition events_dict (heatwave drought flood : Z) : gmap string Z :=
  <["flood_days" := flood]> (<["drought_days" := drought]> (<["heatwave_days" := heatwave]> ∅)).

(** *** The events of the specification *)

(** A cell holds a number above, respectively below, the threshold [x]. *)
Definition exceeds (x : Q) (c : cell) : Prop :=
  match c with
  | Some q => (x < q)%Q
  | None => False
  end.

Definition below (x : Q) (c : cell) : Prop :=
  match c with
  | Some q => (q < x)%Q
  | None => False
  end.

#[export] Instance exceeds_dec (x : Q) (c : cell) : Decision (exceeds x c).
Proof.
  destruct c as [q|]; simpl.
  - destruct (Qlt_le_dec x q) as [H|H]; [left; exact H | right; apply Qle_not_lt, H].
  - right; intros [].
Defined.

#[export] Instance below_dec (x : Q) (c : cell) : Decision (below x c).
Proof.
  destruct c as [q|]; simpl.
  - destruct (Qlt_le_dec q x) as [H|H]; [left; exact H | right; apply Qle_not_lt, H].
  - right; intros [].
Defined.

(** The number of rows of a column whose cell satisfies [P]. *)
Definition count_rows (P : cell → Prop) `{∀ c, Decision (P c)} (col : list cell) : Z :=
  Z.of_nat (length (filter P col)).

Definition heatwave_row : cell → Prop := exceeds 40.
Definition drought_row : cell → Prop := below 1.
Definition heavy_rain_row : cell → Prop := exceeds 100.

(** The inputs that carry no usable table: no frame at all, an empty frame,
    or a frame without a tmax or without a rain column. *)
Definition no_usable_table (df : option (DataFrame cell)) : Prop :=
  match df with
  | None => True
  | Some d => empty d = true ∨ columns d !! "tmax" = None ∨ columns d !! "rain" = None
  end.

(** ** The farmer report *)

Definition nl : string := String (ascii_of_nat 10) EmptyString.

(** [a and b] as a condition: [b] is evaluated only when [a] is true. *)
Definition py_and (a b : result bool) : result bool :=
  x ← a; if x : bool then b else Ok false.

(** [extremes.get(key, 0)]. *)
Definition get_or_0 (extremes : gmap string Z) (key : string) : Z :=
  default 0%Z (extremes !! key).

(** [if df is not None and not df.empty: body], on the report built so far. *)
Definition if_has_rows {B : Type} (df : option (DataFrame cell)) (report : B)
    (body : DataFrame cell → result B) : result B :=
  match df with
  | Some d => if negb (empty d) then body d else Ok report
  | None => Ok report
  end.

(** A [try] statement whose body appends to the report.  The body runs on
    the report and leaves it as it is when the body ends, with the exception
    that has ended it, if any: the lines appended before an exception stay,
    and the handler goes on from there. *)
Definition try_appending (report : list string)
    (body : list string → list string * option exn)
    (handler : list string → exn → list string) : list string :=
  match body report with
  | (report, None) => report
  | (report, Some e) => handler report e
  end.

Definition generate_report {F : Floats} (region start_date end_date : string)
    (weather_df forecast_df : option (DataFrame cell))
    (extremes : gmap string Z) (flood_data : json) : result string :=
  let report : list string := [] in
  let report := report ++ ["🌾 **Farmer Support Report**"] in
  let report := report ++ ["**Region:** " +:+ region] in
  let report := report ++ ["**Period:** " +:+ start_date +:+ " → " +:+ end_date +:+ nl] in

  report ← if_has_rows weather_df report (λ weather_df,
    let report := report ++ ["📊 **Weather Summary (History):**"] in
    tmax ← column weather_df "tmax";
    let report := report ++ ["- Avg Temp: " +:+ format_float_1f (series_mean tmax) +:+ " °C"] in
    rain ← column weather_df "rain";
    let report := report ++ ["- Total Rainfall: " +:+ format_float_1f (series_sum rain) +:+ " mm" +:+ nl] in
    Ok report);

  report ← if_has_rows forecast_df report (λ forecast_df,
    let report := report ++ ["🔮 **Forecast (Next 14 days):**"] in
    tmax ← column forecast_df "tmax";
    let report := report ++ ["- Expected Avg Temp: " +:+ format_float_1f (series_mean tmax) +:+ " °C"] in
    rain ← column forecast_df "rain";
    let report := report ++ ["- Expected Rainfall: " +:+ format_float_1f (series_sum rain) +:+ " mm" +:+ nl] in
    Ok report);

  let report := report ++ ["⚠️ **Extreme Events Detected:**"] in
  let report := report ++ ["- Heatwave days: " +:+ str_Z (get_or_0 extremes "heatwave_days")] in
  let report := report ++ ["- Drought-like days: " +:+ str_Z (get_or_0 extremes "drought_days")] in
  let report := report ++ ["- Heavy rain days: " +:+ str_Z (get_or_0 extremes "flood_days") +:+ nl] in

  (* Flood Risk Report *)
  has_daily ← py_and (Ok (truthy flood_data)) (contains "daily" flood_data);
  let report :=
    if has_daily : bool then
      try_appending report
        (λ report,
           match
             (daily ← getitem flood_data "daily";
              discharge_vals ← getitem daily "river_discharge";
              total ← py_sum discharge_vals;
              count ← py_len discharge_vals;
              avg_discharge ← py_div total count;
              max_discharge ← py_max discharge_vals;
              Ok (avg_discharge, max_discharge))
           with
           | Raise e => (report, Some e)
           | Ok (avg_discharge, max_discharge) =>
               let report := report ++ ["🌊 **Flood Risk Report:**"] in
               let report :=
                 report ++ ["- Avg River Discharge: " +:+ format_float_1f avg_discharge
                            +:+ " m³/s"] in
               match format_number_1f max_discharge with
               | Raise e => (report, Some e)
               | Ok max_text =>
                   let report :=
                     report ++ ["- Max River Discharge: " +:+ max_text +:+ " m³/s"] in
                   let report :=
                     if number_lt (Int 5000) max_discharge then
                       report ++ ["⚠️ High flood risk detected → Take protective measures for crops & livestock."]
                     else if number_lt (Int 2000) max_discharge then
                       report ++ ["⚠️ Moderate flood risk → Ensure drainage systems are clear."]
                     else
                       report ++ ["✅ No significant flood risk detected."] in
                   let report := report ++ [""] in
                   (report, None)
               end
           end)
        (λ report _, report ++ ["🌊 Flood Risk Report: Data unavailable." +:+ nl])
    else report in

  report ← if_has_rows weather_df report (λ weather_df,
    is_rice ← py_and (rain ← column weather_df "rain"; Ok (float_gt (series_mean rain) 5))
                     (tmax ← column weather_df "tmax"; Ok (float_gt (series_mean tmax) 25));
    let rec_crop := if is_rice : bool then "Rice" else "Wheat" in
    Ok (report ++ ["✅ **Crop Recommendation:** Grow **" +:+ rec_crop +:+ "** this season."]));

  let report :=
    if (10 <? get_or_0 extremes "drought_days")%Z then
      report ++ ["💡 Advice: Long dry spell detected → Plan irrigation."]
    else report in
  let report :=
    if (3 <? get_or_0 extremes "heatwave_days")%Z then
      report ++ ["💡 Advice: Heat stress risk → Use heat-tolerant seeds."]
    else report in
  let report :=
    if (2 <? get_or_0 extremes "flood_days")%Z then
      report ++ ["💡 Advice: Risk of waterlogging → Ensure drainage."]
    else report in

  Ok (String.concat nl report).

(** *** The sections of the report

    The report of [generate_report], section by section, in the order of
    the specification.  [generate_report_sections] below shows that the
    program builds exactly [report_sections]. *)

Definition header_section (region start_date end_date : string) : list string :=
  [ "🌾 **Farmer Support Report**";
    "**Region:** " +:+ region;
    "**Period:** " +:+ start_date +:+ " → " +:+ end_date +:+ nl ].

Definition history_lines {F : Floats} (tmax rain : list cell) : list string :=
  [ "📊 **Weather Summary (History):**";
    "- Avg Temp: " +:+ format_float_1f (series_mean tmax) +:+ " °C";
    "- Total Rainfall: " +:+ format_float_1f (series_sum rain) +:+ " mm" +:+ nl ].

Definition forecast_lines {F : Floats} (tmax rain : list cell) : list string :=
  [ "🔮 **Forecast (Next 14 days):**";
    "- Expected Avg Temp: " +:+ format_float_1f (series_mean tmax) +:+ " °C";
    "- Expected Rainfall: " +:+ format_float_1f (series_sum rain) +:+ " mm" +:+ nl ].

(** A summary section is there only for a table that has rows. *)
Definition summary_section (lines : list cell → list cell → list string)
    (df : option (DataFrame cell)) : result (list string) :=
  if_has_rows df [] (λ d,
    tmax ← column d "tmax";
    rain ← column d "rain";
    Ok (lines tmax rain)).

Definition history_section {F : Floats} : option (DataFrame cell) → result (list string) :=
  summary_section history_lines.

Definition forecast_section {F : Floats} : option (DataFrame cell) → result (list string) :=
  summary_section forecast_lines.

Definition extremes_section (extremes : gmap string Z) : list string :=
  [ "⚠️ **Extreme Events Detected:**";
    "- Heatwave days: " +:+ str_Z (get_or_0 extremes "heatwave_days");
    "- Drought-like days: " +:+ str_Z (get_or_0 extremes "drought_days");
    "- Heavy rain days: " +:+ str_Z (get_or_0 extremes "flood_days") +:+ nl ].

(** The average and the maximum of the discharge series of a payload: the
    three statements that open the [try] block. *)
Definition flood_stats {F : Floats} (flood_data : json) : result (float64 * number) :=
  daily ← getitem flood_data "daily";
  discharge_vals ← getitem daily "river_discharge";
  total ← py_sum discharge_vals;
  count ← py_len discharge_vals;
  avg_discharge ← py_div total count;
  max_discharge ← py_max discharge_vals;
  Ok (avg_discharge, max_discharge).

Definition high_risk_message : string :=
  "⚠️ High flood risk detected → Take protective measures for crops & livestock.".
Definition moderate_risk_message : string :=
  "⚠️ Moderate flood risk → Ensure drainage systems are clear.".
Definition no_risk_message : string :=
  "✅ No significant flood risk detected.".

(** The risk lines, by the average, the text of the maximum and the
    message. *)
Definition flood_risk_lines (avg_discharge : float64) (max_text message : string)
  : list string :=
  [ "🌊 **Flood Risk Report:**";
    "- Avg River Discharge: " +:+ format_float_1f avg_discharge +:+ " m³/s";
    "- Max River Discharge: " +:+ max_text +:+ " m³/s";
    message;
    "" ].

Definition flood_unavailable_line : string :=
  "🌊 Flood Risk Report: Data unavailable." +:+ nl.

(** What is left of the risk lines when the maximum cannot be printed: the
    title and the average, then the line of the handler. *)
Definition flood_broken_lines (avg_discharge : float64) : list string :=
  [ "🌊 **Flood Risk Report:**";
    "- Avg River Discharge: " +:+ format_float_1f avg_discharge +:+ " m³/s";
    flood_unavailable_line ].

Definition risk_message (max_discharge : number) : string :=
  if number_lt (Int 5000) max_discharge then high_risk_message
  else if number_lt (Int 2000) max_discharge then moderate_risk_message
  else no_risk_message.

(** The lines of the [try] statement: the risk lines; the line of the
    handler alone when the statistics raise; the title, the average and the
    line of the handler when the maximum cannot be printed. *)
Definition flood_try_lines {F : Floats} (flood_data : json) : list string :=
  match flood_stats flood_data with
  | Ok (avg_discharge, max_discharge) =>
      match format_number_1f max_discharge with
      | Ok max_text => flood_risk_lines avg_discharge max_text (risk_message max_discharge)
      | Raise _ => flood_broken_lines avg_discharge
      end
  | Raise _ => [flood_unavailable_line]
  end.

Definition flood_section {F : Floats} (flood_data : json) : result (list string) :=
  has_daily ← py_and (Ok (truthy flood_data)) (contains "daily" flood_data);
  Ok (if has_daily : bool then flood_try_lines flood_data else []).

Definition crop_line (rec_crop : string) : string :=
  "✅ **Crop Recommendation:** Grow **" +:+ rec_crop +:+ "** this season.".

(** The recommended crop, from the two columns the rule reads. *)
Definition rec_crop {F : Floats} (tmax rain : list cell) : string :=
  if float_gt (series_mean rain) 5 && float_gt (series_mean tmax) 25
  then "Rice" else "Wheat".

Definition crop_section {F : Floats} (weather_df : option (DataFrame cell))
  : result (list string) :=
  if_has_rows weather_df [] (λ d,
    is_rice ← py_and (rain ← column d "rain"; Ok (float_gt (series_mean rain) 5))
                     (tmax ← column d "tmax"; Ok (float_gt (series_mean tmax) 25));
    Ok [crop_line (if is_rice : bool then "Rice" else "Wheat")]).

Definition advice_section (extremes : gmap string Z) : list string :=
  (if (10 <? get_or_0 extremes "drought_days")%Z
   then ["💡 Advice: Long dry spell detected → Plan irrigation."] else [])
  ++ (if (3 <? get_or_0 extremes "heatwave_days")%Z
      then ["💡 Advice: Heat stress risk → Use heat-tolerant seeds."] else [])
  ++ (if (2 <? get_or_0 extremes "flood_days")%Z
      then ["💡 Advice: Risk of waterlogging → Ensure drainage."] else []).

Definition report_sections {F : Floats} (region start_date end_date : string)
    (weather_df forecast_df : option (DataFrame cell))
    (extremes : gmap string Z) (flood_data : json) : result string :=
  history ← history_section weather_df;
  forecast ← forecast_section forecast_df;
  flood ← flood_section flood_data;
  crop ← crop_section weather_df;
  Ok (String.concat nl
        (header_section region start_date end_date
         ++ history ++ forecast
         ++ extremes_section extremes
         ++ flood ++ crop
         ++ advice_section extremes)).

(** *** Inputs of the report, as the specification names them *)

(** [flood_data["daily"]["river_discharge"]] when the payload is a dict
    whose "daily" entry is a dict that holds an array under that key. *)
Definition discharge_series (flood_data : json) : option (list json) :=
  match flood_data with
  | JObj kv =>
      match kv !! "daily" with
      | Some (JObj daily) =>
          match daily !! "river_discharge" with
          | Some (JArr l) => Some l
          | _ => None
          end
      | _ => None
      end
  | _ => None
  end.

(** A float is above the threshold [x]: a finite number above it, or
    the positive infinity. *)
Definition float_above (x : Q) (f : float64) : Prop :=
  match f with
  | Finite q => (x < q)%Q
  | NaN => False
  | Inf negative => negative = false
  end.


(** A number is above, respectively at most, the level [x]; neither holds
    of NaN. *)
Definition above (x : Q) (n : number) : Prop := float_above x (exact n).

Definition at_most (x : Q) (n : number) : Prop :=
  match exact n with
  | Finite q => (q <= x)%Q
  | NaN => False
  | Inf negative => negative = true
  end.

(** [x] is less than [y]; NaN is less than nothing and nothing is less than
    it. *)
Definition less (x y : number) : Prop :=
  match exact x, exact y with
  | Finite a, Finite b => (a < b)%Q
  | Finite _, Inf negative => negative = false
  | Inf negative, Finite _ => negative = true
  | Inf a, Inf b => a = true ∧ b = false
  | NaN, _ | _, NaN => False
  end.

(** A table without rows: no frame, or an empty one. *)
Definition no_rows (df : option (DataFrame cell)) : Prop :=
  match df with
  | Some d => empty d = true
  | None => True
  end.

(** A weather table: a frame that has rows has the tmax and rain columns. *)
Definition weather_table (df : option (DataFrame cell)) : Prop :=
  match df with
  | Some d =>
      empty d = false → is_Some (columns d !! "tmax") ∧ is_Some (columns d !! "rain")
  | None => True
  end.

(** A flood payload: any decoded value on which the test
    ["daily" in flood_data] is reached and defined.  That is nothing, a
    dict (what [fetch_flood] returns on a failure and what the flood
    endpoint answers), a list or a string, and the scalars that count as
    false; on [True] and on a number other than 0 the test raises
    [TypeError]. *)
Definition flood_payload (flood_data : json) : Prop :=
  match flood_data with
  | JBool b => b = false
  | JInt z => z = 0%Z
  | JNum q => Qeq_bool q 0 = true
  | JNaN | JInf _ => False
  | JNull | JStr _ | JArr _ | JObj _ => True
  end.

(** Lines of the historical summary and of the crop recommendation. *)
Definition is_history_line (line : string) : bool :=
  String.prefix "📊 **Weather Summary (History):**" line
  || String.prefix "- Avg Temp: " line
  || String.prefix "- Total Rainfall: " line.

Definition is_crop_line (line : string) : bool :=
  String.prefix "✅ **Crop Recommendation:**" line.

(** Neither a line of the historical summary nor a crop recommendation. *)
Definition other_line (line : string) : Prop :=
  is_history_line line = false ∧ is_crop_line line = false.

(** ** API FETCH FUNCTIONS *)

(** What [requests.get] hands back: the status line, the final URL, and
    what [resp.json()] does with the body (the document, or the error of
    the decoder). *)
Record Response : Type := mkResponse {
  status_code : Z;
  reason : string;
  url : string;
  resp_json : result json
}.

(** [resp.raise_for_status()]: an [HTTPError] for the 4xx and 5xx codes. *)
Definition raise_for_status (resp : Response) : result unit :=
  if (400 <=? status_code resp)%Z && (status_code resp <? 500)%Z then
    Raise (HTTPError (str_Z (status_code resp) +:+ " Client Error: " +:+ reason resp
                      +:+ " for url: " +:+ url resp))
  else if (500 <=? status_code resp)%Z && (status_code resp <? 600)%Z then
    Raise (HTTPError (str_Z (status_code resp) +:+ " Server Error: " +:+ reason resp
                      +:+ " for url: " +:+ url resp))
  else Ok ().

(** The request is [requests_get]: it raises (no connection, timeout) or
    returns a response.  Coordinates and dates come as the text that the
    f-string renders. *)
Definition fetch_flood (requests_get : string → result Response)
    (lat lon start_date end_date : string) : result json :=
  try_except
    (let url :=
       "https://flood-api.open-meteo.com/v1/flood?"
       +:+ "latitude=" +:+ lat +:+ "&longitude=" +:+ lon
       +:+ "&start_date=" +:+ start_date +:+ "&end_date=" +:+ end_date
       +:+ "&daily=river_discharge&timezone=auto" in
     resp ← requests_get url;
     if (status_code resp =? 404)%Z then
       Ok (JObj {[ "error" := JStr "No flood model available for this region" ]})
     else
       _ ← raise_for_status resp;
       resp_json resp)
    (λ e, Ok (JObj {[ "error" := JStr ("Flood API failed: " +:+ str_exn e) ]})).

(** The two failure outcomes of [fetch_flood]. *)
Definition no_flood_model : json :=
  JObj {[ "error" := JStr "No flood model available for this region" ]}.

Definition flood_api_failed (e : exn) : json :=
  JObj {[ "error" := JStr ("Flood API failed: " +:+ str_exn e) ]}.

Definition flood_url (lat lon start_date end_date : string) : string :=
  "https://flood-api.open-meteo.com/v1/flood?"
  +:+ "latitude=" +:+ lat +:+ "&longitude=" +:+ lon
  +:+ "&start_date=" +:+ start_date +:+ "&end_date=" +:+ end_date
  +:+ "&daily=river_discharge&timezone=auto".

(** ** The weather tables *)

(** A cell of a frame built from a payload: a decoded value as it came, or
    what [pd.to_datetime] made of it. *)
Inductive value : Type :=
  | Obj (j : json)
  | Timestamp (ns : Z)
  | NaT.

(** The lengths of the arrays and the key sets of the dicts among the
    entries given to the constructor. *)
Definition raw_lengths (data : list (string * json)) : list nat :=
  omap (λ kv : string * json,
          match kv.2 with JArr l => Some (length l) | _ => None end) data.

Definition dict_indexes (data : list (string * json)) : list (gset string) :=
  omap (λ kv : string * json,
          match kv.2 with JObj d => Some (dom d) | _ => None end) data.

(** The column of one entry over [n] rows labelled [labels]: an array
    gives its elements, a dict its values by label (a missing one is
    null), a scalar is repeated. *)
Definition column_cells (n : nat) (labels : list string) (v : json) : list value :=
  match v with
  | JArr l => Obj <$> l
  | JObj d => (λ k, Obj (default JNull (d !! k))) <$> labels
  | _ => replicate n (Obj v)
  end.

Definition frame_of (n : nat) (labels : list string) (data : list (string * json))
  : DataFrame value :=
  mkDataFrame n
    (foldl (λ cols (kv : string * json), <[kv.1 := column_cells n labels kv.2]> cols)
       ∅ data).

(** [pd.DataFrame(data)] for a dict [data] of decoded values, given in the
    order of its keys.  The index is found first: arrays must agree on one
    length, dicts may not be mixed with arrays, and scalars alone give no
    index. *)
Definition pd_DataFrame (data : list (string * json)) : result (DataFrame value) :=
  match data with
  | [] => Ok (mkDataFrame 0 ∅)
  | _ :: _ =>
      match raw_lengths data, dict_indexes data with
      | [], [] =>
          Raise (ValueError "If using all scalar values, you must pass an index")
      | [], indexes =>
          let labels := elements (⋃ indexes) in
          Ok (frame_of (length labels) labels data)
      | n :: lengths, indexes =>
          if negb (forallb (Nat.eqb n) lengths) then
            Raise (ValueError "All arrays must be of the same length")
          else
            match indexes with
            | [] => Ok (frame_of n [] data)
            | _ :: _ =>
                Raise (ValueError
                         "Mixing dicts with non-Series may lead to ambiguous ordering.")
            end
      end
  end.

(** A series fitted to an index of [n] rows: rows beyond it are dropped,
    rows it lacks are missing. *)
Definition reindex (n : nat) (s : list value) : list value :=
  take n s ++ replicate (n - length s) NaT.

(** [df[name] = series]: the series is aligned with the index of the
    frame. *)
Definition setitem (df : DataFrame value) (name : string) (s : list value)
  : DataFrame value :=
  mkDataFrame (index df) (<[name := reindex (index df) s]> (columns df)).

(** The fields that the construction of a weather table reads under
    "daily", in the order in which it reads them. *)
Definition daily_fields : list string :=
  ["time"; "temperature_2m_max"; "temperature_2m_min"; "precipitation_sum"].

(** The first of them that a "daily" dict lacks. *)
Definition missing_field (daily : gmap string json) : option string :=
  List.find (λ key, bool_decide (daily !! key = None)) daily_fields.

(** The statements that build [weather_df] from the answer of
    [fetch_weather] ([None] after a failed request); [forecast_df] is built
    from the answer of [fetch_forecast] by the same statements.  The entries
    of the dict display are evaluated in order.  [to_datetime] is
    [pd.to_datetime] on a series: the parsed dates, or the error of the
    parser. *)
Definition weather_df (to_datetime : list value → result (list value))
    (weather_data : json) : result (option (DataFrame value)) :=
  let weather_df := None in
  if truthy weather_data then
    daily ← getitem weather_data "daily";
    time ← getitem daily "time";
    daily ← getitem weather_data "daily";
    tmax ← getitem daily "temperature_2m_max";
    daily ← getitem weather_data "daily";
    tmin ← getitem daily "temperature_2m_min";
    daily ← getitem weather_data "daily";
    rain ← getitem daily "precipitation_sum";
    weather_df ← pd_DataFrame
      [("date", time); ("tmax", tmax); ("tmin", tmin); ("rain", rain)];
    date ← column weather_df "date";
    date ← to_datetime date;
    let weather_df := setitem weather_df "date" date in
    Ok (Some weather_df)
  else Ok weather_df.

(** ** Tactics *)

(** Rewrite with a lemma about one stage of [generate_report], once its
    local definitions are unfolded. *)
Ltac rewrite_stage lem :=
  let H := fresh "Hstage" in
  pose proof lem as H; cbv zeta in H; rewrite H; clear H.

(** ** The rest of the application

    The location lookup, the two other requests, and the statements of the
    script that choose the coordinates, build the flood frame, and compute
    the temperature categories and the crop suitabilities.  Calls that only
    draw (charts, headings) are left out; the notices that the modelled
    statements show are kept as a list of [st_call]. *)

(** A notice shown on the page. *)
Inductive st_call : Type :=
  | st_error (msg : string)
  | st_warning (msg : string)
  | st_success (msg : string).

(** [data.get(key, default)].  The program calls it after [data[...]] has
    returned, hence on dicts only. *)
Definition dict_get (data : json) (key : string) (default_value : json) : json :=
  match data with
  | JObj kv => default default_value (kv !! key)
  | _ => default_value
  end.

(** *** LOCATION FUNCTION *)

Definition get_user_location (requests_get : string → result Response)
  : result (json * json * json) :=
  try_except
    (res ← requests_get "https://ipapi.co/json/";
     if (status_code res =? 200)%Z then
       data ← resp_json res;
       latitude ← getitem data "latitude";
       longitude ← getitem data "longitude";
       Ok (latitude, longitude, dict_get data "city" (JStr "Unknown"))
     else Ok (JNull, JNull, JNull))
    (λ _, Ok (JNull, JNull, JNull)).

(** *** The two weather requests

    Each returns its value together with the notices it has shown. *)

Definition fetch_weather (requests_get : string → result Response)
    (lat lon start_date end_date : string) : json * list st_call :=
  match
    (let url :=
       "https://archive-api.open-meteo.com/v1/archive?"
       +:+ "latitude=" +:+ lat +:+ "&longitude=" +:+ lon
       +:+ "&start_date=" +:+ start_date +:+ "&end_date=" +:+ end_date
       +:+ "&daily=temperature_2m_max,temperature_2m_min,precipitation_sum"
       +:+ "&timezone=auto" in
     resp ← requests_get url;
     _ ← raise_for_status resp;
     resp_json resp)
  with
  | Ok data => (data, [])
  | Raise e => (JNull, [st_error ("Weather API error: " +:+ str_exn e)])
  end.

Definition fetch_forecast (requests_get : string → result Response)
    (lat lon days : string) : json * list st_call :=
  match
    (let url :=
       "https://api.open-meteo.com/v1/forecast?"
       +:+ "latitude=" +:+ lat +:+ "&longitude=" +:+ lon
       +:+ "&daily=temperature_2m_max,temperature_2m_min,precipitation_sum"
       +:+ "&forecast_days=" +:+ days +:+ "&timezone=auto" in
     resp ← requests_get url;
     _ ← raise_for_status resp;
     resp_json resp)
  with
  | Ok data => (data, [])
  | Raise e => (JNull, [st_error ("Forecast API error: " +:+ str_exn e)])
  end.

Definition weather_url (lat lon start_date end_date : string) : string :=
  "https://archive-api.open-meteo.com/v1/archive?"
  +:+ "latitude=" +:+ lat +:+ "&longitude=" +:+ lon
  +:+ "&start_date=" +:+ start_date +:+ "&end_date=" +:+ end_date
  +:+ "&daily=temperature_2m_max,temperature_2m_min,precipitation_sum"
  +:+ "&timezone=auto".

Definition forecast_url (lat lon days : string) : string :=
  "https://api.open-meteo.com/v1/forecast?"
  +:+ "latitude=" +:+ lat +:+ "&longitude=" +:+ lon
  +:+ "&daily=temperature_2m_max,temperature_2m_min,precipitation_sum"
  +:+ "&forecast_days=" +:+ days +:+ "&timezone=auto".

(** What a request comes to: the decoded body, or the exception of the
    request, of [raise_for_status] or of the decoder. *)
Definition request_json (requests_get : string → result Response) (url : string)
  : result json :=
  resp ← requests_get url;
  _ ← raise_for_status resp;
  resp_json resp.

(** *** Location selection

    [region] is the text of the region field, [number_input_lat] and
    [number_input_lon] the values of the two coordinate fields, [py_str] the
    text that an f-string makes of a value.  The result is the latitude,
    the longitude and the region of the run, and the notices shown. *)
Definition select_location (requests_get : string → result Response)
    (py_str : json → string) (region : string) (use_auto_loc : bool)
    (number_input_lat number_input_lon : Q)
  : result (json * json * json * list st_call) :=
  let region := JStr region in
  if use_auto_loc then
    located ← get_user_location requests_get;
    let '(lat, lon, city) := located in
    if truthy lat && truthy lon then
      let shown :=
        [st_success ("Detected location → " +:+ py_str city +:+ " (" +:+ py_str lat
                     +:+ ", " +:+ py_str lon +:+ ")")] in
      let region := if truthy city then city else region in
      Ok (lat, lon, region, shown)
    else
      let shown :=
        [st_warning "Could not detect location automatically. Please enter manually."] in
      let lat := JNum number_input_lat in
      let lon := JNum number_input_lon in
      Ok (lat, lon, region, shown)
  else
    let lat := JNum number_input_lat in
    let lon := JNum number_input_lon in
    Ok (lat, lon, region, []).

(** *** The flood frame

    The frame of the discharge chart: none when the answer holds "error"
    (the warning then shows [flood_data["error"]]), else built from the two
    arrays under "daily". *)
Definition flood_df (to_datetime : list value → result (list value))
    (flood_data : json) : result (option (DataFrame value)) :=
  has_error ← contains "error" flood_data;
  if has_error : bool then
    _ ← getitem flood_data "error";
    Ok None
  else
    daily ← getitem flood_data "daily";
    time ← getitem daily "time";
    daily ← getitem flood_data "daily";
    river_discharge ← getitem daily "river_discharge";
    flood_df ← pd_DataFrame [("date", time); ("river_discharge", river_discharge)];
    date ← column flood_df "date";
    date ← to_datetime date;
    let flood_df := setitem flood_df "date" date in
    Ok (Some flood_df).

(** *** Temperature categories *)

(** [pd.cut(x, bins, labels)] for one number: the label of the interval
    [(a, b]] of two consecutive bin edges that holds it, if any. *)
Fixpoint cut_label (bins : list Q) (labels : list string) (x : Q) : option string :=
  match bins, labels with
  | a :: ((b :: _) as bins'), label :: labels' =>
      if Qltb a x && Qle_bool x b then Some label else cut_label bins' labels' x
  | _, _ => None
  end.

(** [pd.cut] on a series: NaN and the numbers outside all intervals have no
    category. *)
Definition pd_cut (s : list cell) (bins : list Q) (labels : list string)
  : list (option string) :=
  map (λ c : cell, x ← c; cut_label bins labels x) s.

(** [value_counts()] of a categorical series: for each category the number
    of rows that have it; rows without category are not counted.  The
    order of the rows of the result is not kept. *)
Definition value_counts (categories : list string) (s : list (option string))
  : gmap string nat :=
  list_to_map
    ((λ label, (label, length (filter (λ c, c = Some label) s))) <$> categories).

Definition temp_labels : list string :=
  ["Cool (<20°C)"; "Moderate (20-30°C)"; "Hot (30-40°C)"; "Extreme (>40°C)"].

Definition temp_counts (weather_df : DataFrame cell) : result (gmap string nat) :=
  tmax ← column weather_df "tmax";
  let temp_bins :=
    pd_cut tmax [(-5)%Q; 20%Q; 30%Q; 40%Q; 50%Q]
      ["Cool (<20°C)"; "Moderate (20-30°C)"; "Hot (30-40°C)"; "Extreme (>40°C)"] in
  Ok (value_counts temp_labels temp_bins).

(** *** Crop suitability

    The dict [crops], as the list of its entries in the order of
    insertion; none when the historical table has no rows. *)
Definition crop_suitability {F : Floats} (weather_df : option (DataFrame cell))
  : result (option (list (string * Z))) :=
  if_has_rows weather_df None (λ weather_df,
    tmax ← column weather_df "tmax";
    let avg_temp := series_mean tmax in
    rain ← column weather_df "rain";
    let avg_rain := series_mean rain in
    let crops : list (string * Z) := [] in
    let crops :=
      if float_gt avg_rain 5 && float_gt avg_temp 25 then
        let crops := crops ++ [("Rice", 50%Z)] in
        let crops := crops ++ [("Maize", 30%Z)] in
        crops ++ [("Sugarcane", 20%Z)]
      else
        let crops := crops ++ [("Wheat", 60%Z)] in
        let crops := crops ++ [("Barley", 25%Z)] in
        crops ++ [("Pulses", 15%Z)] in
    Ok (Some crops)).

(** *** Notions used to state the properties *)

(** A cell holds a number of the interval [(a, b]]. *)
Definition in_bin (a b : Q) (c : cell) : Prop :=
  match c with
  | Some x => (a < x)%Q ∧ (x <= b)%Q
  | None => False
  end.

#[export] Instance in_bin_dec (a b : Q) (c : cell) : Decision (in_bin a b c).
Proof.
  destruct c as [x|]; simpl; [|right; intros []].
  destruct (Qlt_le_dec a x) as [H1|H1]; [|right; intros [H _]; apply (Qle_not_lt _ _ H1 H)].
  destruct (Qlt_le_dec b x) as [H2|H2]; [right; intros [_ H]; apply (Qle_not_lt _ _ H H2)|].
  left. split; assumption.
Defined.

(** The request for [url] does not come to a decoded body. *)
Definition request_fails (requests_get : string → result Response) (url : string)
    (e : exn) : Prop :=
  request_json requests_get url = Raise e.

Definition irrigation_advice : string :=
  "💡 Advice: Long dry spell detected → Plan irrigation.".
Definition heat_advice : string :=
  "💡 Advice: Heat stress risk → Use heat-tolerant seeds.".
Definition drainage_advice : string :=
  "💡 Advice: Risk of waterlogging → Ensure drainage.".
(** ** Sums from left to right

    An instance of [Floats], to evaluate the program on sample data.  Every
    sum adds the items one after the other from the first, rounding each
    addition; the mean of a column is its sum over the count of its
    numbers.  This is the order of a plain loop. *)

(** [x + y] on floats. *)
Definition float_add (x y : float64) : float64 :=
  match x, y with
  | Finite a, Finite b => round_binary64 (a + b)
  | Finite _, Inf negative | Inf negative, Finite _ => Inf negative
  | Inf a, Inf b => if Bool.eqb a b then Inf a else NaN
  | NaN, _ | _, NaN => NaN
  end.

(** An int converted for an addition; [sum_items] has raised on the ints
    beyond the floats. *)
Definition to_float (x : number) : float64 :=
  match x with
  | Int z => round_binary64 (inject_Z z)
  | Float f => f
  end.

(** [x + y] on numbers. *)
Definition add (x y : number) : number :=
  match x, y with
  | Int a, Int b => Int (a + b)
  | _, _ => Float (float_add (to_float x) (to_float y))
  end.

(** The sum of a column: NaN counts as 0. *)
Definition sum_left_to_right (s : list cell) : float64 :=
  foldl (λ (total : float64) (c : cell), float_add total (Finite (default 0%Q c)))
    (Finite 0) s.

Definition mean_left_to_right (s : list cell) : float64 :=
  match length (omap id s) with
  | O => NaN
  | S _ as count => float_div (sum_left_to_right s) count
  end.

(** The exact cases hold of these sums: an addition of whole numbers
    below [2^52] has a whole result, which rounds to itself. *)
Definition left_to_right : Floats.
Proof.
  assert (Hred : ∀ (q : Q) (z : Z), (q == inject_Z z)%Q → Qred q = inject_Z z).
  { intros q z Hq. rewrite (Qred_complete _ _ Hq).
    apply Qcanon.Qred_identity. apply Z.gcd_1_r. }
  assert (Hpositive : ∀ p : positive,
            (Z.pos p < 2 ^ 52)%Z → round_positive (Z.pos p # 1) = (Z.pos p # 1)).
  { intros p Hp. unfold round_positive, exponent. cbn [Qnum Qden].
    change (Z.log2 1) with 0%Z. rewrite Z.sub_0_r.
    pose proof (Z.log2_spec (Z.pos p) ltac:(lia)) as [Hlow Hhigh].
    pose proof (Z.log2_nonneg (Z.pos p)) as He.
    assert (He52 : (Z.log2 (Z.pos p) < 52)%Z) by (apply Z.log2_lt_pow2; lia).
    set (e := Z.log2 (Z.pos p)) in *.
    assert (Hpow : pow2 e = inject_Z (2 ^ e)).
    { unfold pow2. destruct (0 <=? e)%Z eqn:E; [reflexivity | lia]. }
    rewrite Hpow.
    assert (Hle : Qle_bool (inject_Z (2 ^ e)) (Z.pos p # 1) = true).
    { apply Qle_bool_iff. unfold Qle. cbn [Qnum Qden inject_Z]. lia. }
    rewrite Hle. rewrite Z.max_l by lia.
    unfold pow2. destruct (0 <=? e - 52)%Z eqn:E; [lia|].
    replace (- (e - 52))%Z with (52 - e)%Z by lia.
    pose proof (Z.pow_pos_nonneg 2 (52 - e) ltac:(lia) ltac:(lia)) as Hk.
    destruct (2 ^ (52 - e))%Z as [|P|P] eqn:EP; try lia.
    change (/ inject_Z (Z.pos P))%Q with (1 # P)%Q.
    change ((Z.pos p # 1) / (1 # P))%Q with (Z.pos p * Z.pos P # 1 * 1)%Q.
    unfold round_half_even. cbn [Qnum Qden].
    change (Z.pos (1 * 1)) with 1%Z.
    rewrite Z.div_1_r, Z.mod_1_r. change (2 * 0 <? 1)%Z with true. cbv iota.
    apply Hred. unfold Qeq. cbn [Qnum Qden inject_Z Qmult].
    rewrite Pos.mul_1_l. ring. }
  assert (Hwhole : ∀ (q : Q) (z : Z),
            (q == inject_Z z)%Q → (Z.abs z < 2 ^ 52)%Z →
            round_binary64 q = Finite (inject_Z z)).
  { intros q z Hq Hz. unfold round_binary64. rewrite (Hred q z Hq). cbv zeta.
    assert (Hbig : ∀ p, (Z.pos p < 2 ^ 52)%Z →
                        Qle_bool (pow2 1024) (Z.pos p # 1) = false).
    { intros p Hp. apply not_true_iff_false. intros H. apply Qle_bool_iff in H.
      unfold Qle in H. cbn [Qnum Qden pow2 inject_Z Z.leb Z.compare] in H.
      assert ((2 ^ 52 < 2 ^ 1024)%Z) by (apply Z.pow_lt_mono_r; lia). lia. }
    destruct z as [|p|p].
    - reflexivity.
    - change (Qeq_bool (inject_Z (Z.pos p)) 0) with false.
      change (Qabs (inject_Z (Z.pos p))) with (Z.pos p # 1).
      rewrite (Hpositive p) by lia. rewrite (Hbig p) by lia. reflexivity.
    - change (Qeq_bool (inject_Z (Z.neg p)) 0) with false.
      change (Qabs (inject_Z (Z.neg p))) with (Z.pos p # 1).
      rewrite (Hpositive p) by lia. rewrite (Hbig p) by lia. reflexivity. }
  assert (Hnonneg : ∀ zs, (0 ≤ Zsum_abs zs)%Z).
  { induction zs as [|z zs IH]; cbn [Zsum_abs foldr]; [lia|].
    fold (Zsum_abs zs). lia. }
  assert (Hsum : ∀ (s : list cell) (zs : list Z) (total : Z),
            omap id s = inject_Z <$> zs →
            (Z.abs total + Zsum_abs zs < 2 ^ 52)%Z →
            foldl (λ (total : float64) (c : cell),
                     float_add total (Finite (default 0%Q c)))
              (Finite (inject_Z total)) s
            = Finite (inject_Z (total + Zsum zs))).
  { induction s as [|[q|] s IH]; intros zs total Hs Hbound.
    - destruct zs; [|discriminate Hs]. cbn [foldl Zsum foldr].
      rewrite Z.add_0_r. reflexivity.
    - destruct zs as [|z zs]; [discriminate Hs|].
      cbn [omap list_omap id fmap list_fmap] in Hs. injection Hs as -> Hs.
      cbn [Zsum_abs foldr] in Hbound. fold (Zsum_abs zs) in Hbound.
      pose proof (Hnonneg zs). cbn [foldl default from_option id float_add].
      rewrite (Hwhole _ (total + z)%Z) by (rewrite ?inject_Z_plus; reflexivity || lia).
      rewrite (IH zs (total + z)%Z Hs) by lia.
      cbn [Zsum foldr]. fold (Zsum zs). rewrite Z.add_assoc. reflexivity.
    - pose proof (Hnonneg zs). cbn [foldl default from_option id float_add].
      rewrite (Hwhole _ total) by (rewrite ?Qplus_0_r; reflexivity || lia).
      apply IH; assumption. }
  refine {| series_sum := sum_left_to_right;
            series_mean := mean_left_to_right;
            float_sum := λ items, to_float (foldl add (Int 0) items) |}.
  - intros s zs Hs Hbound. apply (Hsum s zs 0%Z Hs). exact Hbound.
  - intros s zs Hs Hzs Hbound. unfold mean_left_to_right.
    rewrite Hs, length_fmap. destruct zs as [|z zs]; [contradiction|].
    cbn [length].
    rewrite (Hsum s (z :: zs) 0%Z Hs Hbound : sum_left_to_right s = _). reflexivity.
  - intros s Hs. unfold mean_left_to_right. rewrite Hs. reflexivity.
Defined.

(** ** Sample data *)

(** The three rows of the end-to-end scenario of the specification. *)
Definition delta_farm : DataFrame cell :=
  mkDataFrame 3 {[ "tmax" := [Some 41%Q; Some 38%Q; Some 20%Q];
                   "tmin" := [Some 30%Q; Some 25%Q; Some 10%Q];
                   "rain" := [Some (1 # 2); Some 120%Q; Some 2%Q] ]}.


(** A flood payload that holds the discharge array [l]. *)
Definition discharge_payload (l : list json) : json :=
  JObj {[ "daily" := JObj {[ "river_discharge" := JArr l ]} ]}.

(** The report of a run without weather tables and without events, for a
    payload whose discharge series is [l], and its lines for a given flood
    section. *)
Definition flood_only_report (l : list json) : result string :=
  generate_report (F := left_to_right) "Delta Farm" "2023-01-01" "2023-01-03" None None ∅
    (discharge_payload l).

Definition flood_only_lines (flood : list string) : list string :=
  header_section "Delta Farm" "2023-01-01" "2023-01-03"
  ++ extremes_section ∅
  ++ flood.





(** Readings beyond the floats: an int of 401 digits. *)
Definition huge : Z := (10 ^ 400)%Z.

(** Payloads that hold a "daily" entry without usable discharge values. *)
Definition no_discharge_key : json := JObj {[ "daily" := JObj ∅ ]}.
Definition empty_discharge : json := discharge_payload [].
Definition null_in_discharge : json := discharge_payload [JNum 100; JNull].
Definition daily_not_a_dict : json := JObj {[ "daily" := JNum 5 ]}.

Definition delta_farm_report (flood_data : json) : result string :=
  generate_report (F := left_to_right) "Delta Farm" "2023-01-01" "2023-01-03"
    (Some delta_farm) None (events_dict 1 1 1) flood_data.

Definition delta_farm_lines (flood : list string) : list string :=
  header_section "Delta Farm" "2023-01-01" "2023-01-03"
  ++ history_lines (F := left_to_right) [Some 41%Q; Some 38%Q; Some 20%Q] [Some (1 # 2); Some 120%Q; Some 2%Q]
  ++ extremes_section (events_dict 1 1 1)
  ++ flood
  ++ [crop_line "Rice"].

(** A table with the weather columns and no row. *)
Definition no_days : DataFrame cell :=
  mkDataFrame 0 {[ "tmax" := []; "rain" := [] ]}.

(** The flood payload of the end-to-end scenario. *)
Definition high_flood : json := discharge_payload [JNum 100; JNum 200; JNum 5200].

(** A date parser for the witnesses: the dates of the form YYYY-MM-DD that
    the time array of the weather endpoints holds, as nanoseconds since the
    epoch; null is a missing date. *)
Definition digit (a : ascii) : option Z :=
  let n := Z.of_nat (nat_of_ascii a) in
  if (48 <=? n)%Z && (n <=? 57)%Z then Some (n - 48)%Z else None.

Definition days_from_civil (y m d : Z) : Z :=
  let y := if (m <=? 2)%Z then (y - 1)%Z else y in
  let era := (y / 400)%Z in
  let yoe := (y - era * 400)%Z in
  let mp := if (2 <? m)%Z then (m - 3)%Z else (m + 9)%Z in
  let doy := ((153 * mp + 2) / 5 + d - 1)%Z in
  let doe := (yoe * 365 + yoe / 4 - yoe / 100 + doy)%Z in
  (era * 146097 + doe - 719468)%Z.

Definition parse_iso_date (s : string) : option Z :=
  match list_ascii_of_string s with
  | [y1; y2; y3; y4; dash1; m1; m2; dash2; d1; d2] =>
      y1 ← digit y1; y2 ← digit y2; y3 ← digit y3; y4 ← digit y4;
      m1 ← digit m1; m2 ← digit m2; d1 ← digit d1; d2 ← digit d2;
      let y := (((y1 * 10 + y2) * 10 + y3) * 10 + y4)%Z in
      let m := (m1 * 10 + m2)%Z in
      let d := (d1 * 10 + d2)%Z in
      if Ascii.eqb dash1 "-" && Ascii.eqb dash2 "-"
         && (1 <=? m)%Z && (m <=? 12)%Z && (1 <=? d)%Z && (d <=? 31)%Z
      then Some (days_from_civil y m d * 86400 * 1000000000)%Z
      else None
  | _ => None
  end.

Fixpoint to_datetime_iso (s : list value) : result (list value) :=
  match s with
  | [] => Ok []
  | v :: s' =>
      t ← match v with
          | Obj (JStr d) =>
              match parse_iso_date d with
              | Some ns => Ok (Timestamp ns)
              | None => Raise (ValueError ("Unknown datetime string format: " +:+ d))
              end
          | Obj JNull | NaT => Ok NaT
          | Timestamp ns => Ok (Timestamp ns)
          | Obj _ => Raise (TypeError "value is not convertible to datetime")
          end;
      ts ← to_datetime_iso s';
      Ok (t :: ts)
  end.

(** Answers of the weather endpoint. *)
Definition daily_payload (daily : gmap string json) : json :=
  JObj {[ "latitude" := JNum 28; "daily" := JObj daily ]}.

Definition three_days : json :=
  daily_payload
    {[ "time" := JArr [JStr "2023-01-01"; JStr "2023-01-02"; JStr "2023-01-03"];
       "temperature_2m_max" := JArr [JNum 41; JNum 38; JNum 20];
       "temperature_2m_min" := JArr [JNum 30; JNum 25; JNull];
       "precipitation_sum" := JArr [JNum (1 # 2); JNum 120; JNum 2] ]}.

(** An answer without "daily", one without the rain array, and one whose
    rain array is one day short. *)
Definition without_daily : json := JObj {[ "latitude" := JNum 28 ]}.

Definition without_rain : json :=
  daily_payload
    {[ "time" := JArr [JStr "2023-01-01"];
       "temperature_2m_max" := JArr [JNum 41];
       "temperature_2m_min" := JArr [JNum 30] ]}.

Definition short_rain : json :=
  daily_payload
    {[ "time" := JArr [JStr "2023-01-01"; JStr "2023-01-02"];
       "temperature_2m_max" := JArr [JNum 41; JNum 38];
       "temperature_2m_min" := JArr [JNum 30; JNum 25];
       "precipitation_sum" := JArr [JNum (1 # 2)] ]}.


(** Answers of the flood endpoint: no model for the region, a server
    error, a body that is not JSON, and no answer at all. *)
Definition not_found : Response :=
  mkResponse 404 "Not Found" "https://flood-api.open-meteo.com/v1/flood"
    (Ok (JObj {[ "error" := JBool true ]})).

Definition server_error : Response :=
  mkResponse 500 "Internal Server Error" "https://flood-api.open-meteo.com/v1/flood"
    (Raise (JSONDecodeError "Expecting value: line 1 column 1 (char 0)")).

Definition not_json : Response :=
  mkResponse 200 "OK" "https://flood-api.open-meteo.com/v1/flood"
    (Raise (JSONDecodeError "Expecting value: line 1 column 1 (char 0)")).

(** Answers of the location service. *)
Definition located_delhi : Response :=
  mkResponse 200 "OK" "https://ipapi.co/json/"
    (Ok (JObj {[ "latitude" := JNum (286139 # 10000);
                 "longitude" := JNum (77209 # 1000);
                 "city" := JStr "Delhi" ]})).

Definition located_without_city : Response :=
  mkResponse 200 "OK" "https://ipapi.co/json/"
    (Ok (JObj {[ "latitude" := JNum (286139 # 10000);
                 "longitude" := JNum (77209 # 1000) ]})).

Definition located_on_equator : Response :=
  mkResponse 200 "OK" "https://ipapi.co/json/"
    (Ok (JObj {[ "latitude" := JNum 0;
                 "longitude" := JNum (3682 # 100);
                 "city" := JStr "Nanyuki" ]})).

Definition rate_limited : Response :=
  mkResponse 429 "Too Many Requests" "https://ipapi.co/json/"
    (Ok (JObj {[ "error" := JBool true ]})).

Definition not_found_weather : Response :=
  mkResponse 404 "Not Found" "https://archive-api.open-meteo.com/v1/archive"
    (Ok (JObj {[ "error" := JBool true ]})).

Definition weather_ok : Response :=
  mkResponse 200 "OK" "https://archive-api.open-meteo.com/v1/archive" (Ok three_days).

(** Twelve days: four dry and hot ones, then eight dry and mild ones. *)
Definition dry_spell : DataFrame cell :=
  mkDataFrame 12
    {[ "tmax" := replicate 4 (Some 42%Q) ++ replicate 8 (Some 30%Q);
       "rain" := replicate 12 (Some 0%Q) ]}.

(** The "daily" dict of [three_days], and the whole answer as a dict. *)
Definition three_days_daily : gmap string json :=
  {[ "time" := JArr [JStr "2023-01-01"; JStr "2023-01-02"; JStr "2023-01-03"];
     "temperature_2m_max" := JArr [JNum 41; JNum 38; JNum 20];
     "temperature_2m_min" := JArr [JNum 30; JNum 25; JNull];
     "precipitation_sum" := JArr [JNum (1 # 2); JNum 120; JNum 2] ]}.

Definition three_days_dict : gmap string json :=
  {[ "latitude" := JNum 28; "daily" := JObj three_days_daily ]}.

(** Six days: a frost below every bin, one day of each category, 40 on the
    dot, and one day above every bin. *)
Definition six_days : DataFrame cell :=
  mkDataFrame 6
    {[ "tmax" := [Some (-8)%Q; Some 15%Q; Some 25%Q; Some 40%Q; Some 45%Q; Some 52%Q];
       "rain" := [Some 0%Q; Some 0%Q; Some 0%Q; Some 0%Q; Some 0%Q; Some 0%Q] ]}.

(** The text of a value in the notices of the witnesses: strings as they
    are, anything else abridged. *)
Definition str_abridged (j : json) : string :=
  match j with
  | JStr s => s
  | JNull => "None"
  | _ => "..."
  end.

(** A flood answer with three readings, and one whose discharge array is a
    day short. *)
Definition flood_three_days : json :=
  JObj {[ "daily" := JObj
            {[ "time" := JArr [JStr "2023-01-01"; JStr "2023-01-02"; JStr "2023-01-03"];
               "river_discharge" := JArr [JNum 100; JNum 200; JNum 5200] ]} ]}.

(** A flood answer with two readings beyond the floats that cancel. *)
Definition flood_two_huge : json :=
  JObj {[ "daily" := JObj
            {[ "time" := JArr [JStr "2023-01-01"; JStr "2023-01-02"];
               "river_discharge" := JArr [JInt huge; JInt (- huge)] ]} ]}.

Definition flood_short_discharge : gmap string json :=
  {[ "time" := JArr [JStr "2023-01-01"; JStr "2023-01-02"; JStr "2023-01-03"];
     "river_discharge" := JArr [JNum 100; JNum 200] ]}.

(** Two days without any reading. *)
Definition no_readings : DataFrame cell :=
  mkDataFrame 2 {[ "tmax" := [None; None]; "rain" := [None; None] ]}.
(** * Properties *)

(** ** Comparisons of rationals *)

Lemma Qltb_lt (x y : Q) : Qltb x y = true ↔ (x < y)%Q.
Proof.
  unfold Qltb. rewrite negb_true_iff, <- not_true_iff_false, Qle_bool_iff.
  split; [apply Qnot_le_lt | apply Qlt_not_le].
Qed.



(** ** The extreme-event classifier *)

Lemma mask_sum_series_gt (x : Q) (s : list cell) :
  mask_sum (series_gt s x) = count_rows (exceeds x) s.
Proof.
  unfold count_rows. induction s as [|c s IH]; [reflexivity|].
  change (mask_sum (series_gt (c :: s) x))
    with (Z.b2z (match c with Some q => Qltb x q | None => false end)
          + mask_sum (series_gt s x))%Z.
  rewrite IH, filter_cons.
  destruct (decide (exceeds x c)) as [H|H]; destruct c as [q|]; cbn [exceeds] in *.
  - apply Qltb_lt in H. rewrite H. cbn [length Z.b2z]. lia.
  - destruct H.
  - destruct (Qltb x q) eqn:E; [apply Qltb_lt in E; contradiction|]. cbn [Z.b2z]. lia.
  - cbn [Z.b2z]. lia.
Qed.

Lemma mask_sum_series_lt (x : Q) (s : list cell) :
  mask_sum (series_lt s x) = count_rows (below x) s.
Proof.
  unfold count_rows. induction s as [|c s IH]; [reflexivity|].
  change (mask_sum (series_lt (c :: s) x))
    with (Z.b2z (match c with Some q => Qltb q x | None => false end)
          + mask_sum (series_lt s x))%Z.
  rewrite IH, filter_cons.
  destruct (decide (below x c)) as [H|H]; destruct c as [q|]; cbn [below] in *.
  - apply Qltb_lt in H. rewrite H. cbn [length Z.b2z]. lia.
  - destruct H.
  - destruct (Qltb q x) eqn:E; [apply Qltb_lt in E; contradiction|]. cbn [Z.b2z]. lia.
  - cbn [Z.b2z]. lia.
Qed.

Lemma count_rows_bounds (P : cell → Prop) `{∀ c, Decision (P c)} (col : list cell) :
  (0 ≤ count_rows P col ≤ Z.of_nat (length col))%Z.
Proof.
  unfold count_rows. pose proof (length_filter P col). lia.
Qed.

(** No row is both a drought row and a heavy-rain row. *)
Lemma drought_heavy_rain_disjoint (c : cell) : ¬ (drought_row c ∧ heavy_rain_row c).
Proof.
  unfold drought_row, heavy_rain_row. destruct c as [q|]; cbn [below exceeds]; [|tauto].
  intros [H1 H2]. apply (Qlt_irrefl q).
  apply Qlt_trans with (1 := H1). apply Qlt_trans with (2 := H2). reflexivity.
Qed.

Lemma count_rows_disjoint (P R : cell → Prop)
    `{∀ c, Decision (P c)} `{∀ c, Decision (R c)} (col : list cell) :
  (∀ c, ¬ (P c ∧ R c)) →
  (count_rows P col + count_rows R col ≤ Z.of_nat (length col))%Z.
Proof.
  intros Hdis. unfold count_rows. induction col as [|c col IH]; [reflexivity|].
  rewrite !filter_cons.
  destruct (decide (P c)) as [HP|HP]; destruct (decide (R c)) as [HR|HR];
    cbn [length]; try lia.
  exfalso. apply (Hdis c). split; assumption.
Qed.

(** An empty well-formed frame has empty columns. *)
Lemma wf_frame_empty_column {A : Type} (df : DataFrame A) (name : string) (col : list A) :
  wf_frame df → empty df = true → columns df !! name = Some col → col = [].
Proof.
  intros Hwf Hempty Hcol. unfold empty in Hempty.
  apply orb_true_iff in Hempty as [Hidx|Hcols].
  - apply Nat.eqb_eq in Hidx. apply Hwf in Hcol. rewrite Hidx in Hcol.
    destruct col; [reflexivity | discriminate].
  - apply bool_decide_eq_true in Hcols. rewrite Hcols, lookup_empty in Hcol. discriminate.
Qed.

(** What the classifier computes, by cases on its guard. *)
Lemma analyze_extremes_present (df : DataFrame cell) (tmax rain : list cell) :
  empty df = false →
  columns df !! "tmax" = Some tmax →
  columns df !! "rain" = Some rain →
  analyze_extremes (Some df)
  = Ok (events_dict (count_rows heatwave_row tmax)
                    (count_rows drought_row rain)
                    (count_rows heavy_rain_row rain)).
Proof.
  intros Hempty Htmax Hrain. unfold analyze_extremes, has_column, column.
  rewrite Hempty, Htmax, Hrain.
  rewrite !bool_decide_eq_true_2 by eauto.
  cbn [negb andb mbind result_bind].
  rewrite !mask_sum_series_gt, mask_sum_series_lt. reflexivity.
Qed.

Lemma analyze_extremes_guard_fails (df : DataFrame cell) :
  empty df = true ∨ columns df !! "tmax" = None ∨ columns df !! "rain" = None →
  analyze_extremes (Some df) = Ok (events_dict 0 0 0).
Proof.
  intros H. unfold analyze_extremes, has_column.
  destruct (empty df); [reflexivity|].
  destruct H as [H|[H|H]]; [discriminate| |]; rewrite H.
  - rewrite bool_decide_eq_false_2 by (intros [? ?]; discriminate). reflexivity.
  - rewrite (bool_decide_eq_false_2 (is_Some None)) by (intros [? ?]; discriminate).
    rewrite andb_false_r. reflexivity.
Qed.

(** C1. For every weather table that has the tmax and rain fields, the
    classifier returns, without raising, heatwave_days equal to the number
    of rows with tmax > 40, drought_days equal to the number of rows with
    rain < 1, and flood_days (the heavy-rain days) equal to the number of
    rows with rain > 100. *)
Theorem analyze_extremes_exact_counts (df : DataFrame cell) (tmax rain : list cell) :
  wf_frame df →
  columns df !! "tmax" = Some tmax →
  columns df !! "rain" = Some rain →
  analyze_extremes (Some df)
  = Ok (events_dict (count_rows heatwave_row tmax)
                    (count_rows drought_row rain)
                    (count_rows heavy_rain_row rain)).
Proof.
  intros Hwf Htmax Hrain. destruct (empty df) eqn:Hempty.
  - rewrite (wf_frame_empty_column df "tmax" tmax Hwf Hempty Htmax).
    rewrite (wf_frame_empty_column df "rain" rain Hwf Hempty Hrain).
    apply analyze_extremes_guard_fails. left. exact Hempty.
  - apply analyze_extremes_present; assumption.
Qed.

Lemma delta_farm_wf : wf_frame delta_farm.
Proof. refine (bool_decide_unpack _ _). vm_compute. exact I. Defined.

Lemma analyze_extremes_exact_counts_witness :
  analyze_extremes (Some delta_farm) = Ok (events_dict 1 1 1).
Proof.
  exact (analyze_extremes_exact_counts delta_farm
           [Some 41%Q; Some 38%Q; Some 20%Q] [Some (1 # 2); Some 120%Q; Some 2%Q]
           delta_farm_wf eq_refl eq_refl).
Defined.

(** C9. For every input that is absent, is an empty table, or lacks the
    tmax or the rain field, the classifier returns the all-zero counts and
    does not raise. *)
Theorem analyze_extremes_all_zero (df : option (DataFrame cell)) :
  no_usable_table df → analyze_extremes df = Ok (events_dict 0 0 0).
Proof.
  destruct df as [d|]; cbn [no_usable_table].
  - apply analyze_extremes_guard_fails.
  - reflexivity.
Qed.

Lemma analyze_extremes_all_zero_witness :
  analyze_extremes None = Ok (events_dict 0 0 0)
  ∧ analyze_extremes (Some (mkDataFrame 0 {[ "tmax" := []; "rain" := [] ]}))
    = Ok (events_dict 0 0 0)
  ∧ analyze_extremes (Some (mkDataFrame 1 {[ "tmax" := [Some 45%Q] ]}))
    = Ok (events_dict 0 0 0).
Proof.
  split; [|split].
  - exact (analyze_extremes_all_zero None I).
  - apply (analyze_extremes_all_zero (Some _)). left. reflexivity.
  - apply (analyze_extremes_all_zero (Some _)). right. right. reflexivity.
Defined.

(** C10. For every weather table, each of the three counts of the
    classifier lies between 0 and the number of rows, and drought_days and
    flood_days together do not exceed the number of rows: no row passes both
    the test rain < 1 and the test rain > 100. *)
Theorem analyze_extremes_bounded (df : DataFrame cell) :
  wf_frame df →
  (∃ heatwave drought flood : Z,
     analyze_extremes (Some df) = Ok (events_dict heatwave drought flood)
     ∧ (0 ≤ heatwave ≤ Z.of_nat (index df))%Z
     ∧ (0 ≤ drought ≤ Z.of_nat (index df))%Z
     ∧ (0 ≤ flood ≤ Z.of_nat (index df))%Z
     ∧ (drought + flood ≤ Z.of_nat (index df))%Z)
  ∧ (∀ (rain : list cell) (row : nat),
       ¬ (series_lt rain 1 !! row = Some true ∧ series_gt rain 100 !! row = Some true)).
Proof.
  intros Hwf. split.
  - destruct (empty df) eqn:Hempty;
      [|destruct (columns df !! "tmax") as [tmax|] eqn:Htmax;
        [destruct (columns df !! "rain") as [rain|] eqn:Hrain|]].
    2: { exists (count_rows heatwave_row tmax), (count_rows drought_row rain),
           (count_rows heavy_rain_row rain).
         split; [apply analyze_extremes_present; assumption|].
         rewrite <- (Hwf _ _ Htmax) at 1. rewrite <- (Hwf _ _ Hrain).
         pose proof (count_rows_bounds heatwave_row tmax).
         pose proof (count_rows_bounds drought_row rain).
         pose proof (count_rows_bounds heavy_rain_row rain).
         pose proof (count_rows_disjoint drought_row heavy_rain_row rain
                       drought_heavy_rain_disjoint).
         repeat split; lia. }
    all: exists 0%Z, 0%Z, 0%Z; split;
      [apply analyze_extremes_guard_fails; auto | lia].
  - intros rain row [Hlt Hgt]. unfold series_lt, series_gt in *.
    rewrite list_lookup_fmap in Hlt, Hgt.
    destruct (rain !! row) as [[q|]|]; cbn in Hlt, Hgt; try discriminate.
    apply (drought_heavy_rain_disjoint (Some q)). split.
    + apply Qltb_lt. congruence.
    + apply Qltb_lt. congruence.
Qed.

Lemma analyze_extremes_bounded_witness :
  ∃ heatwave drought flood : Z,
    analyze_extremes (Some delta_farm) = Ok (events_dict heatwave drought flood)
    ∧ (0 ≤ heatwave ≤ 3)%Z ∧ (0 ≤ drought ≤ 3)%Z ∧ (0 ≤ flood ≤ 3)%Z
    ∧ (drought + flood ≤ 3)%Z.
Proof. exact (proj1 (analyze_extremes_bounded delta_farm delta_farm_wf)). Defined.

(** ** Numbers *)

Lemma float_lt_above (x : Q) (f : float64) : float_lt (Finite x) f = true ↔ float_above x f.
Proof.
  destruct f as [q| |[|]]; cbn [float_lt float_above negb];
    [apply Qltb_lt | split; [discriminate | intros []] | split; discriminate | tauto].
Qed.

Lemma number_lt_above (x : Z) (n : number) :
  number_lt (Int x) n = true ↔ above (inject_Z x) n.
Proof. apply float_lt_above. Qed.

Lemma number_lt_less (x y : number) : number_lt x y = true ↔ less x y.
Proof.
  unfold number_lt, less.
  destruct (exact x) as [a| |[|]], (exact y) as [b| |[|]];
    cbn [float_lt negb andb];
    first [ apply Qltb_lt | intuition congruence ].
Qed.

Lemma less_irrefl (x : number) : ¬ less x x.
Proof.
  unfold less. destruct (exact x) as [a| |[|]];
    first [ apply Qlt_irrefl | intuition congruence ].
Qed.

Lemma less_trans (x y z : number) : less x y → less y z → less x z.
Proof.
  unfold less.
  destruct (exact x) as [a| |[|]], (exact y) as [b| |[|]], (exact z) as [c| |[|]];
    first [ apply Qlt_trans | intuition congruence ].
Qed.

(** Among numbers other than NaN, what is not less is at least as large. *)
Lemma less_not_less (x y z : number) :
  exact y ≠ NaN → less x z → ¬ less y z → less x y.
Proof.
  unfold less.
  destruct (exact x) as [a| |[|]], (exact y) as [b| |[|]], (exact z) as [c| |[|]];
    intros Hy Hxz Hyz;
    first [ apply Qnot_lt_le in Hyz; apply Qlt_le_trans with c; assumption
          | intuition congruence ].
Qed.

Lemma less_exact_l (x y : number) : less x y → exact x ≠ NaN.
Proof. unfold less. destruct (exact x); [discriminate | tauto | discriminate]. Qed.

Lemma less_exact_r (x y : number) : less x y → exact y ≠ NaN.
Proof.
  unfold less. destruct (exact x), (exact y); try tauto; discriminate.
Qed.

(** [max] holds on to a NaN. *)
Lemma max_list_nan (x : number) (l : list number) : exact x = NaN → max_list x l = x.
Proof.
  intros Hx. unfold max_list. induction l as [|y l IH]; [reflexivity|].
  cbn [foldl]. unfold number_lt at 2. rewrite Hx. exact IH.
Qed.

(** [max_list] returns an item that no item exceeds. *)
Lemma max_list_upper (x : number) (l : list number) :
  Forall (λ y, ¬ less (max_list x l) y) (x :: l).
Proof.
  revert x. induction l as [|y l IH]; intros x.
  - constructor; [apply less_irrefl | constructor].
  - change (max_list x (y :: l))
      with (max_list (if number_lt x y then y else x) l).
    destruct (number_lt x y) eqn:E.
    + apply number_lt_less in E. specialize (IH y).
      constructor; [|exact IH]. apply Forall_cons in IH as [Hy _].
      intros Hm. apply Hy. apply less_trans with x; assumption.
    + specialize (IH x). apply Forall_cons in IH as [Hx Hl].
      constructor; [exact Hx|]. constructor; [|exact Hl].
      intros Hm. destruct (exact x) eqn:Hexact.
      1,3: apply Hx; apply less_not_less with y;
        [rewrite Hexact; discriminate | exact Hm |];
        intros Hxy; apply number_lt_less in Hxy; congruence.
      rewrite (max_list_nan x l Hexact) in Hm.
      apply less_exact_l in Hm. contradiction.
Qed.

Lemma max_list_elem (x : number) (l : list number) : max_list x l ∈ x :: l.
Proof.
  unfold max_list. revert x. induction l as [|y l IH]; intros x; cbn [foldl].
  - apply list_elem_of_here.
  - destruct (number_lt x y).
    + apply list_elem_of_further, IH.
    + specialize (IH x). apply elem_of_cons in IH as [->|IH].
      * apply list_elem_of_here.
      * do 2 apply list_elem_of_further. exact IH.
Qed.

(** ** Rounding *)



















(** ** The report generator *)

Lemma summary_stage {F : Floats} (title avg total : string) (df : option (DataFrame cell))
    (report : list string) :
  if_has_rows df report (λ d,
    let report := report ++ [title] in
    tmax ← column d "tmax";
    let report := report ++ [avg +:+ format_float_1f (series_mean tmax) +:+ " °C"] in
    rain ← column d "rain";
    let report := report ++ [total +:+ format_float_1f (series_sum rain) +:+ " mm" +:+ nl] in
    Ok report)
  = lines ← summary_section (λ tmax rain,
               [ title;
                 avg +:+ format_float_1f (series_mean tmax) +:+ " °C";
                 total +:+ format_float_1f (series_sum rain) +:+ " mm" +:+ nl ]) df;
    Ok (report ++ lines).
Proof.
  unfold summary_section, if_has_rows, column.
  destruct df as [d|]; cbn [mbind result_bind]; [|by rewrite app_nil_r].
  destruct (negb (empty d)); cbn [mbind result_bind]; [|by rewrite app_nil_r].
  destruct (columns d !! "tmax"); cbn [mbind result_bind]; [|reflexivity].
  destruct (columns d !! "rain"); cbn [mbind result_bind]; [|reflexivity].
  by rewrite <- !app_assoc.
Qed.

Lemma flood_try_stage {F : Floats} (flood_data : json) (report : list string) :
  try_appending report
    (λ report,
       match
         (daily ← getitem flood_data "daily";
          discharge_vals ← getitem daily "river_discharge";
          total ← py_sum discharge_vals;
          count ← py_len discharge_vals;
          avg_discharge ← py_div total count;
          max_discharge ← py_max discharge_vals;
          Ok (avg_discharge, max_discharge))
       with
       | Raise e => (report, Some e)
       | Ok (avg_discharge, max_discharge) =>
           let report := report ++ ["🌊 **Flood Risk Report:**"] in
           let report :=
             report ++ ["- Avg River Discharge: " +:+ format_float_1f avg_discharge
                        +:+ " m³/s"] in
           match format_number_1f max_discharge with
           | Raise e => (report, Some e)
           | Ok max_text =>
               let report :=
                 report ++ ["- Max River Discharge: " +:+ max_text +:+ " m³/s"] in
               let report :=
                 if number_lt (Int 5000) max_discharge then
                   report ++ ["⚠️ High flood risk detected → Take protective measures for crops & livestock."]
                 else if number_lt (Int 2000) max_discharge then
                   report ++ ["⚠️ Moderate flood risk → Ensure drainage systems are clear."]
                 else
                   report ++ ["✅ No significant flood risk detected."] in
               let report := report ++ [""] in
               (report, None)
           end
       end)
    (λ report _, report ++ ["🌊 Flood Risk Report: Data unavailable." +:+ nl])
  = report ++ flood_try_lines flood_data.
Proof.
  unfold try_appending, flood_try_lines.
  change (daily ← getitem flood_data "daily";
          discharge_vals ← getitem daily "river_discharge";
          total ← py_sum discharge_vals;
          count ← py_len discharge_vals;
          avg_discharge ← py_div total count;
          max_discharge ← py_max discharge_vals;
          Ok (avg_discharge, max_discharge))
    with (flood_stats flood_data).
  destruct (flood_stats flood_data) as [[avg mx]|e]; [|reflexivity].
  cbv zeta. destruct (format_number_1f mx) as [text|e].
  - unfold flood_risk_lines, risk_message, high_risk_message, moderate_risk_message,
      no_risk_message.
    destruct (number_lt (Int 5000) mx); [|destruct (number_lt (Int 2000) mx)];
      by rewrite <- !app_assoc.
  - unfold flood_broken_lines, flood_unavailable_line. by rewrite <- !app_assoc.
Qed.

Lemma crop_stage {F : Floats} (df : option (DataFrame cell)) (report : list string) :
  if_has_rows df report (λ d,
    is_rice ← py_and (rain ← column d "rain"; Ok (float_gt (series_mean rain) 5))
                     (tmax ← column d "tmax"; Ok (float_gt (series_mean tmax) 25));
    let rec_crop := if is_rice : bool then "Rice" else "Wheat" in
    Ok (report ++ ["✅ **Crop Recommendation:** Grow **" +:+ rec_crop +:+ "** this season."]))
  = lines ← crop_section df; Ok (report ++ lines).
Proof.
  unfold crop_section, if_has_rows.
  destruct df as [d|]; cbn [mbind result_bind]; [|by rewrite app_nil_r].
  destruct (negb (empty d)); cbn [mbind result_bind]; [|by rewrite app_nil_r].
  destruct (py_and _ _) as [b|]; reflexivity.
Qed.

(** The program builds the report section by section. *)
Lemma generate_report_sections {F : Floats} (region start_date end_date : string)
    (weather_df forecast_df : option (DataFrame cell))
    (extremes : gmap string Z) (flood_data : json) :
  generate_report region start_date end_date weather_df forecast_df extremes flood_data
  = report_sections region start_date end_date weather_df forecast_df extremes flood_data.
Proof.
  unfold generate_report, report_sections, history_section, forecast_section,
    history_lines, forecast_lines.
  cbv zeta.
  rewrite_stage (summary_stage "📊 **Weather Summary (History):**" "- Avg Temp: "
                   "- Total Rainfall: " weather_df).
  destruct (summary_section _ weather_df) as [history|]; cbn [mbind result_bind];
    [|reflexivity].
  rewrite_stage (summary_stage "🔮 **Forecast (Next 14 days):**" "- Expected Avg Temp: "
                   "- Expected Rainfall: " forecast_df).
  destruct (summary_section _ forecast_df) as [forecast|]; cbn [mbind result_bind];
    [|reflexivity].
  unfold flood_section.
  destruct (py_and (Ok (truthy flood_data)) (contains "daily" flood_data)) as [[|]|];
    cbn [mbind result_bind]; [rewrite_stage flood_try_stage | | reflexivity].
  all: rewrite_stage crop_stage.
  all: destruct (crop_section weather_df) as [crop|]; cbn [mbind result_bind];
    [|reflexivity].
  all: unfold advice_section, header_section, extremes_section.
  all: do 2 f_equal.
  all: rewrite ?app_nil_r.
  all: destruct (10 <? _)%Z, (3 <? _)%Z, (2 <? _)%Z;
    rewrite <- ?app_assoc, ?app_nil_r; reflexivity.
Qed.

(** *** Sections, case by case *)

Lemma summary_section_rows (lines : list cell → list cell → list string)
    (d : DataFrame cell) (tmax rain : list cell) :
  empty d = false →
  columns d !! "tmax" = Some tmax →
  columns d !! "rain" = Some rain →
  summary_section lines (Some d) = Ok (lines tmax rain).
Proof.
  intros Hempty Htmax Hrain. unfold summary_section, if_has_rows, column.
  rewrite Hempty, Htmax, Hrain. reflexivity.
Qed.

Lemma summary_section_no_rows (lines : list cell → list cell → list string)
    (df : option (DataFrame cell)) :
  no_rows df → summary_section lines df = Ok [].
Proof.
  destruct df as [d|]; cbn [no_rows]; [|reflexivity].
  intros Hempty. unfold summary_section, if_has_rows. rewrite Hempty. reflexivity.
Qed.

Lemma summary_section_weather_table (lines : list cell → list cell → list string)
    (df : option (DataFrame cell)) :
  weather_table df →
  summary_section lines df = Ok []
  ∨ ∃ tmax rain, summary_section lines df = Ok (lines tmax rain).
Proof.
  destruct df as [d|]; cbn [weather_table]; [|left; reflexivity].
  destruct (empty d) eqn:Hempty.
  - intros _. left. apply summary_section_no_rows. exact Hempty.
  - intros H. destruct (H eq_refl) as [[tmax Htmax] [rain Hrain]].
    right. exists tmax, rain. apply summary_section_rows; assumption.
Qed.

Lemma crop_section_rows {F : Floats} (d : DataFrame cell) (tmax rain : list cell) :
  empty d = false →
  columns d !! "tmax" = Some tmax →
  columns d !! "rain" = Some rain →
  crop_section (Some d) = Ok [crop_line (rec_crop tmax rain)].
Proof.
  intros Hempty Htmax Hrain. unfold crop_section, if_has_rows, column, py_and, rec_crop.
  rewrite Hempty, Htmax, Hrain. cbn [negb mbind result_bind].
  destruct (float_gt (series_mean rain) 5); reflexivity.
Qed.

Lemma crop_section_no_rows {F : Floats} (df : option (DataFrame cell)) :
  no_rows df → crop_section df = Ok [].
Proof.
  destruct df as [d|]; cbn [no_rows]; [|reflexivity].
  intros Hempty. unfold crop_section, if_has_rows. rewrite Hempty. reflexivity.
Qed.






Lemma numbers_of_list_length (l : list json) (ns : list number) :
  numbers_of_list l = Ok ns → length l = length ns.
Proof.
  revert ns. induction l as [|x l IH]; intros ns; cbn [numbers_of_list].
  - intros [= <-]. reflexivity.
  - destruct (as_number x); [|discriminate].
    destruct (numbers_of_list l) as [ns'|]; cbn [mbind result_bind]; [|discriminate].
    intros [= <-]. cbn [length]. f_equal. apply IH. reflexivity.
Qed.

(** The payloads that hold a discharge array. *)
Lemma discharge_series_Some (flood_data : json) (l : list json) :
  discharge_series flood_data = Some l →
  ∃ kv daily : gmap string json,
    flood_data = JObj kv
    ∧ kv !! "daily" = Some (JObj daily)
    ∧ daily !! "river_discharge" = Some (JArr l).
Proof.
  unfold discharge_series. destruct flood_data as [| | | | | | | |kv]; try discriminate.
  destruct (kv !! "daily") as [[| | | | | | | |daily]|] eqn:Hdaily; try discriminate.
  destruct (daily !! "river_discharge") as [[| | | | | | |l'|]|] eqn:Hvals;
    try discriminate.
  intros [= <-]. eauto.
Qed.

Lemma discharge_series_has_daily (flood_data : json) (l : list json) :
  discharge_series flood_data = Some l →
  py_and (Ok (truthy flood_data)) (contains "daily" flood_data) = Ok true.
Proof.
  intros (kv & daily & -> & Hdaily & _)%discharge_series_Some.
  unfold py_and. cbn [mbind result_bind contains].
  rewrite (bool_decide_eq_true_2 (is_Some _)) by eauto.
  cbn [truthy]. rewrite bool_decide_eq_false_2; [reflexivity|].
  intros ->. rewrite lookup_empty in Hdaily. discriminate.
Qed.

(** The statistics of a payload with a discharge array, by its three
    computations. *)
Lemma flood_stats_series {F : Floats} (flood_data : json) (l : list json) :
  discharge_series flood_data = Some l →
  flood_stats flood_data
  = (total ← py_sum (JArr l);
     avg_discharge ← py_div total (length l);
     max_discharge ← py_max (JArr l);
     Ok (avg_discharge, max_discharge)).
Proof.
  intros (kv & daily & -> & Hdaily & Hvals)%discharge_series_Some.
  unfold flood_stats. cbn [getitem]. rewrite Hdaily. cbn [mbind result_bind getitem].
  rewrite Hvals. cbn [mbind result_bind py_len].
  destruct (py_sum (JArr l)); reflexivity.
Qed.

Lemma flood_stats_usable {F : Floats} (flood_data : json) (l : list json)
    (n : number) (ns : list number) (total : number) (avg : float64) :
  discharge_series flood_data = Some l →
  numbers_of_list l = Ok (n :: ns) →
  py_sum (JArr l) = Ok total →
  py_div total (length l) = Ok avg →
  flood_stats flood_data = Ok (avg, max_list n ns).
Proof.
  intros Hseries Hnum Hsum Hdiv. rewrite (flood_stats_series _ _ Hseries), Hsum.
  cbn [mbind result_bind]. rewrite Hdiv. cbn [mbind result_bind].
  unfold py_max. cbn [iter_numbers]. rewrite Hnum. reflexivity.
Qed.

(** The maximum of the statistics is what [max_list] finds. *)
Lemma flood_stats_max {F : Floats} (flood_data : json) (l : list json)
    (n : number) (ns : list number) (avg : float64) (m : number) :
  discharge_series flood_data = Some l →
  numbers_of_list l = Ok (n :: ns) →
  flood_stats flood_data = Ok (avg, m) →
  m = max_list n ns.
Proof.
  intros Hseries Hnum. rewrite (flood_stats_series _ _ Hseries).
  destruct (py_sum (JArr l)) as [total|]; cbn [mbind result_bind]; [|discriminate].
  destruct (py_div total (length l)) as [avg'|]; cbn [mbind result_bind]; [|discriminate].
  unfold py_max. cbn [iter_numbers]. rewrite Hnum. cbn [mbind result_bind].
  intros [= _ <-]. reflexivity.
Qed.

Lemma flood_section_usable {F : Floats} (flood_data : json) (l : list json)
    (avg : float64) (m : number) (max_text : string) :
  discharge_series flood_data = Some l →
  flood_stats flood_data = Ok (avg, m) →
  format_number_1f m = Ok max_text →
  flood_section flood_data = Ok (flood_risk_lines avg max_text (risk_message m)).
Proof.
  intros Hseries Hstats Htext.
  unfold flood_section. rewrite (discharge_series_has_daily _ _ Hseries).
  unfold flood_try_lines. rewrite Hstats, Htext. reflexivity.
Qed.

Lemma at_most_not_above (x y : Q) (m : number) :
  (x <= y)%Q → at_most x m → ¬ above y m.
Proof.
  unfold at_most, above, float_above. destruct (exact m) as [q| |[|]];
    intros Hxy Hm Hq; first [lra | congruence | contradiction].
Qed.

Lemma number_lt_at_most (x y : Z) (m : number) :
  (x <= y)%Z → at_most (inject_Z x) m → number_lt (Int y) m = false.
Proof.
  intros Hxy Hm. apply not_true_iff_false. intros Hy%number_lt_above.
  apply (at_most_not_above (inject_Z x) (inject_Z y) m); [|assumption..].
  rewrite <- Zle_Qle. exact Hxy.
Qed.

Lemma risk_message_tiers (m : number) :
  (above 5000 m → risk_message m = high_risk_message)
  ∧ (above 2000 m ∧ at_most 5000 m → risk_message m = moderate_risk_message)
  ∧ (at_most 2000 m → risk_message m = no_risk_message)
  ∧ (exact m = NaN → risk_message m = no_risk_message).
Proof.
  unfold risk_message. split; [|split; [|split]].
  - intros Hm. apply (number_lt_above 5000) in Hm. rewrite Hm. reflexivity.
  - intros [Hm2 Hm5]. apply (number_lt_above 2000) in Hm2.
    rewrite (number_lt_at_most 5000 5000 m), Hm2 by (exact Hm5 || lia). reflexivity.
  - intros Hm.
    rewrite (number_lt_at_most 2000 5000 m), (number_lt_at_most 2000 2000 m)
      by (exact Hm || lia).
    reflexivity.
  - intros Hm. unfold number_lt. rewrite Hm. reflexivity.
Qed.

(** Adding floats raises nothing. *)
Lemma sum_items_floats (l : list json) :
  Forall (λ x, ∃ f, as_number x = Some (Float f)) l → sum_items None l = Ok None.
Proof.
  induction 1 as [|x l [f Hx] _ IH]; [reflexivity|].
  cbn [sum_items]. rewrite Hx. exact IH.
Qed.

Lemma numbers_of_list_floats (l : list json) :
  Forall (λ x, ∃ f, as_number x = Some (Float f)) l →
  ∃ ns, numbers_of_list l = Ok ns ∧ Forall (λ n, ∃ f, n = Float f) ns.
Proof.
  induction 1 as [|x l [f Hx] _ (ns & Hns & Hfloats)]; [exists []; split; [reflexivity | constructor]|].
  exists (Float f :: ns). cbn [numbers_of_list]. rewrite Hx, Hns.
  split; [reflexivity|]. constructor; eauto.
Qed.

(** A non-empty series of floats is usable, whatever the floats: the sum,
    the average and the printed maximum are there. *)
Lemma float_series_usable {F : Floats} (flood_data : json) (x : json) (l : list json) :
  discharge_series flood_data = Some (x :: l) →
  Forall (λ x, ∃ f, as_number x = Some (Float f)) (x :: l) →
  ∃ (n : number) (ns : list number) (total : number) (avg : float64) (max_text : string),
    numbers_of_list (x :: l) = Ok (n :: ns)
    ∧ py_sum (JArr (x :: l)) = Ok total
    ∧ py_div total (length (x :: l)) = Ok avg
    ∧ format_number_1f (max_list n ns) = Ok max_text.
Proof.
  intros Hseries Hfloats.
  destruct (numbers_of_list_floats _ Hfloats) as (ns0 & Hns & Hall).
  pose proof (numbers_of_list_length _ _ Hns) as Hlen.
  destruct ns0 as [|n ns]; [discriminate Hlen|].
  assert (Hsum : py_sum (JArr (x :: l)) = Ok (Float (float_sum (omap as_number (x :: l))))).
  { apply Forall_cons in Hfloats as [[f Hx] Hl]. unfold py_sum. cbn [sum_items].
    rewrite Hx. cbn [mbind result_bind]. rewrite (sum_items_floats _ Hl). reflexivity. }
  rewrite Forall_forall in Hall.
  destruct (Hall _ (max_list_elem n ns)) as [f Hf].
  exists n, ns. do 3 eexists. split; [exact Hns|]. split; [exact Hsum|].
  split; [reflexivity|]. rewrite Hf. reflexivity.
Qed.

Lemma discharge_series_payload (l : list json) :
  discharge_series (discharge_payload l) = Some l.
Proof.
  unfold discharge_series, discharge_payload. rewrite lookup_singleton_eq.
  rewrite lookup_singleton_eq. reflexivity.
Qed.

(** C2. For every flood payload with a usable discharge series, the flood
    section of the report carries one risk message, and the message depends
    only on the largest reading [m].  A usable series is a non-empty array
    of numbers under "daily" / "river_discharge" whose sum, whose average
    and whose maximum, once printed, stay within the floats.  [m] is an
    item of the series that no item exceeds, and the message is the
    high-risk one when m > 5000, the moderate-risk one when
    2000 < m <= 5000, and the no-significant-risk one when m <= 2000; it
    is the latter also when [m] is NaN, which [max] returns for a series
    that starts with NaN. *)
Theorem flood_risk_tier_by_max_discharge {F : Floats}
    (region start_date end_date : string)
    (weather_df forecast_df : option (DataFrame cell))
    (extremes : gmap string Z) (flood_data : json)
    (l : list json) (n : number) (ns : list number)
    (total : number) (avg : float64) (max_text : string)
    (history forecast crop : list string) :
  discharge_series flood_data = Some l →
  numbers_of_list l = Ok (n :: ns) →
  py_sum (JArr l) = Ok total →
  py_div total (length l) = Ok avg →
  format_number_1f (max_list n ns) = Ok max_text →
  history_section weather_df = Ok history →
  forecast_section forecast_df = Ok forecast →
  crop_section weather_df = Ok crop →
  let m := max_list n ns in
  ∃ message : string,
    generate_report region start_date end_date weather_df forecast_df extremes flood_data
    = Ok (String.concat nl
            (header_section region start_date end_date
             ++ history ++ forecast
             ++ extremes_section extremes
             ++ flood_risk_lines avg max_text message
             ++ crop
             ++ advice_section extremes))
    ∧ m ∈ n :: ns
    ∧ Forall (λ y, ¬ less m y) (n :: ns)
    ∧ (above 5000 m → message = high_risk_message)
    ∧ (above 2000 m ∧ at_most 5000 m → message = moderate_risk_message)
    ∧ (at_most 2000 m → message = no_risk_message)
    ∧ (exact m = NaN → message = no_risk_message).
Proof.
  intros Hseries Hnum Hsum Hdiv Htext Hhistory Hforecast Hcrop m.
  exists (risk_message m). split; [|split; [|split]].
  - rewrite generate_report_sections. unfold report_sections.
    rewrite Hhistory, Hforecast, Hcrop.
    rewrite (flood_section_usable _ _ _ _ _ Hseries
               (flood_stats_usable _ _ _ _ _ _ Hseries Hnum Hsum Hdiv) Htext).
    reflexivity.
  - apply max_list_elem.
  - apply max_list_upper.
  - apply risk_message_tiers.
Qed.

Lemma flood_risk_tier_witness :
  flood_only_report [JNum 100; JNum 200; JNum 5200]
  = Ok (String.concat nl (flood_only_lines
          [ "🌊 **Flood Risk Report:**";
            "- Avg River Discharge: 1833.3 m³/s";
            "- Max River Discharge: 5200.0 m³/s";
            high_risk_message; "" ]))
  ∧ flood_only_report [JInt 5001; JInt 12; JInt 5000]
    = Ok (String.concat nl (flood_only_lines
            [ "🌊 **Flood Risk Report:**";
              "- Avg River Discharge: 3337.7 m³/s";
              "- Max River Discharge: 5001.0 m³/s";
              high_risk_message; "" ]))
  ∧ flood_only_report [JInt 4999; JNum 5000; JInt 3]
    = Ok (String.concat nl (flood_only_lines
            [ "🌊 **Flood Risk Report:**";
              "- Avg River Discharge: 3334.0 m³/s";
              "- Max River Discharge: 5000.0 m³/s";
              moderate_risk_message; "" ]))
  ∧ flood_only_report [JInt 7; JNum 2001; JNum (4001 # 2)]
    = Ok (String.concat nl (flood_only_lines
            [ "🌊 **Flood Risk Report:**";
              "- Avg River Discharge: 1336.2 m³/s";
              "- Max River Discharge: 2001.0 m³/s";
              moderate_risk_message; "" ]))
  ∧ flood_only_report [JInt 1500; JInt 2000; JBool true]
    = Ok (String.concat nl (flood_only_lines
            [ "🌊 **Flood Risk Report:**";
              "- Avg River Discharge: 1167.0 m³/s";
              "- Max River Discharge: 2000.0 m³/s";
              no_risk_message; "" ]))
  ∧ flood_only_report [JInt (-3); JNum 0; JInt 0]
    = Ok (String.concat nl (flood_only_lines
            [ "🌊 **Flood Risk Report:**";
              "- Avg River Discharge: -1.0 m³/s";
              "- Max River Discharge: 0.0 m³/s";
              no_risk_message; "" ]))
  ∧ flood_only_report [JNaN; JNum 6000]
    = Ok (String.concat nl (flood_only_lines
            [ "🌊 **Flood Risk Report:**";
              "- Avg River Discharge: nan m³/s";
              "- Max River Discharge: nan m³/s";
              no_risk_message; "" ])).
Proof.
  assert (Htier : ∀ (l : list json) (n : number) (ns : list number)
                    (total : number) (avg : float64) (max_text : string),
    numbers_of_list l = Ok (n :: ns) →
    py_sum (F := left_to_right) (JArr l) = Ok total →
    py_div total (length l) = Ok avg →
    format_number_1f (max_list n ns) = Ok max_text →
    ∃ message : string,
      flood_only_report l
      = Ok (String.concat nl (flood_only_lines (flood_risk_lines avg max_text message)))
      ∧ (above 5000 (max_list n ns) → message = high_risk_message)
      ∧ (above 2000 (max_list n ns) ∧ at_most 5000 (max_list n ns)
         → message = moderate_risk_message)
      ∧ (at_most 2000 (max_list n ns) → message = no_risk_message)
      ∧ (exact (max_list n ns) = NaN → message = no_risk_message)).
  { intros l n ns total avg max_text Hnum Hsum Hdiv Htext.
    destruct (flood_risk_tier_by_max_discharge (F := left_to_right)
                "Delta Farm" "2023-01-01" "2023-01-03" None None ∅
                (discharge_payload l) l n ns total avg max_text [] [] []
                (discharge_series_payload l) Hnum Hsum Hdiv Htext
                eq_refl eq_refl eq_refl)
      as (message & Hreport & _ & _ & Htiers).
    exists message. split; [|exact Htiers].
    unfold flood_only_report, flood_only_lines. rewrite Hreport.
    cbn [app advice_section]. rewrite !app_nil_r. reflexivity. }
  split; [|split; [|split; [|split; [|split; [|split]]]]].
  - edestruct (Htier [JNum 100; JNum 200; JNum 5200])
      as (message & -> & Hhigh & _); [vm_compute; reflexivity..|].
    rewrite Hhigh by (vm_compute; reflexivity). vm_compute. reflexivity.
  - edestruct (Htier [JInt 5001; JInt 12; JInt 5000])
      as (message & -> & Hhigh & _); [vm_compute; reflexivity..|].
    rewrite Hhigh by (vm_compute; reflexivity). vm_compute. reflexivity.
  - edestruct (Htier [JInt 4999; JNum 5000; JInt 3])
      as (message & -> & _ & Hmoderate & _); [vm_compute; reflexivity..|].
    rewrite Hmoderate by (split; vm_compute; [reflexivity | discriminate]).
    vm_compute. reflexivity.
  - edestruct (Htier [JInt 7; JNum 2001; JNum (4001 # 2)])
      as (message & -> & _ & Hmoderate & _); [vm_compute; reflexivity..|].
    rewrite Hmoderate by (split; vm_compute; [reflexivity | discriminate]).
    vm_compute. reflexivity.
  - edestruct (Htier [JInt 1500; JInt 2000; JBool true])
      as (message & -> & _ & _ & Hno & _); [vm_compute; reflexivity..|].
    rewrite Hno by (vm_compute; discriminate). vm_compute. reflexivity.
  - edestruct (Htier [JInt (-3); JNum 0; JInt 0])
      as (message & -> & _ & _ & Hno & _); [vm_compute; reflexivity..|].
    rewrite Hno by (vm_compute; discriminate). vm_compute. reflexivity.
  - edestruct (Htier [JNaN; JNum 6000])
      as (message & -> & _ & _ & _ & Hnan); [vm_compute; reflexivity..|].
    rewrite Hnan by (vm_compute; reflexivity). vm_compute. reflexivity.
Defined.



Lemma flood_section_unusable {F : Floats} (flood_data : json) (e : exn) :
  truthy flood_data = true →
  contains "daily" flood_data = Ok true →
  flood_stats flood_data = Raise e →
  flood_section flood_data = Ok [flood_unavailable_line].
Proof.
  intros Htruthy Hdaily Hstats. unfold flood_section, py_and, flood_try_lines.
  cbn [mbind result_bind]. rewrite Htruthy, Hdaily. cbn [mbind result_bind].
  rewrite Hstats. reflexivity.
Qed.

(** C5. For every flood payload that contains "daily" and from which the
    discharge statistics cannot be computed, the report carries the single
    line "Flood Risk Report: Data unavailable." as its flood section, and
    every other section is what it is in the report without a flood
    payload: the report as a whole does not fail. *)
Theorem unusable_discharge_only_downgrades_flood_section {F : Floats}
    (region start_date end_date : string)
    (weather_df forecast_df : option (DataFrame cell))
    (extremes : gmap string Z) (flood_data : json) (e : exn)
    (history forecast crop : list string) :
  truthy flood_data = true →
  contains "daily" flood_data = Ok true →
  flood_stats flood_data = Raise e →
  history_section weather_df = Ok history →
  forecast_section forecast_df = Ok forecast →
  crop_section weather_df = Ok crop →
  generate_report region start_date end_date weather_df forecast_df extremes flood_data
  = Ok (String.concat nl
          (header_section region start_date end_date
           ++ history ++ forecast
           ++ extremes_section extremes
           ++ [flood_unavailable_line]
           ++ crop
           ++ advice_section extremes))
  ∧ generate_report region start_date end_date weather_df forecast_df extremes JNull
    = Ok (String.concat nl
            (header_section region start_date end_date
             ++ history ++ forecast
             ++ extremes_section extremes
             ++ crop
             ++ advice_section extremes)).
Proof.
  intros Htruthy Hdaily Hstats Hhistory Hforecast Hcrop.
  rewrite !generate_report_sections. unfold report_sections.
  rewrite Hhistory, Hforecast, Hcrop, (flood_section_unusable _ _ Htruthy Hdaily Hstats).
  split; reflexivity.
Qed.

Lemma unusable_discharge_witness :
  delta_farm_report no_discharge_key
  = Ok (String.concat nl (delta_farm_lines [flood_unavailable_line]))
  ∧ delta_farm_report empty_discharge
    = Ok (String.concat nl (delta_farm_lines [flood_unavailable_line]))
  ∧ delta_farm_report null_in_discharge
    = Ok (String.concat nl (delta_farm_lines [flood_unavailable_line]))
  ∧ delta_farm_report daily_not_a_dict
    = Ok (String.concat nl (delta_farm_lines [flood_unavailable_line]))
  ∧ delta_farm_report JNull = Ok (String.concat nl (delta_farm_lines [])).
Proof.
  pose proof (λ flood_data e Htruthy Hdaily Hstats,
    unusable_discharge_only_downgrades_flood_section (F := left_to_right)
      "Delta Farm" "2023-01-01"
      "2023-01-03" (Some delta_farm) None (events_dict 1 1 1) flood_data e
      (history_lines [Some 41%Q; Some 38%Q; Some 20%Q]
         [Some (1 # 2); Some 120%Q; Some 2%Q])
      [] [crop_line "Rice"] Htruthy Hdaily Hstats eq_refl eq_refl eq_refl) as Hreport.
  split; [|split; [|split; [|split]]].
  - exact (proj1 (Hreport no_discharge_key (KeyError "river_discharge")
                    eq_refl eq_refl eq_refl)).
  - exact (proj1 (Hreport empty_discharge ZeroDivisionError eq_refl eq_refl eq_refl)).
  - exact (proj1 (Hreport null_in_discharge
                    (TypeError "unsupported operand type(s) for +")
                    eq_refl eq_refl eq_refl)).
  - exact (proj1 (Hreport daily_not_a_dict (TypeError "object is not subscriptable")
                    eq_refl eq_refl eq_refl)).
  - exact (proj2 (Hreport no_discharge_key (KeyError "river_discharge")
                    eq_refl eq_refl eq_refl)).
Defined.

(** *** Which lines the sections hold *)

Lemma header_section_other (region start_date end_date : string) :
  Forall other_line (header_section region start_date end_date).
Proof. repeat constructor. Qed.

Lemma forecast_lines_other {F : Floats} (tmax rain : list cell) :
  Forall other_line (forecast_lines tmax rain).
Proof. repeat constructor. Qed.

Lemma extremes_section_other (extremes : gmap string Z) :
  Forall other_line (extremes_section extremes).
Proof. repeat constructor. Qed.

Lemma advice_section_other (extremes : gmap string Z) :
  Forall other_line (advice_section extremes).
Proof.
  unfold advice_section.
  destruct (10 <? _)%Z, (3 <? _)%Z, (2 <? _)%Z; repeat constructor.
Qed.

Lemma flood_try_lines_other {F : Floats} (flood_data : json) :
  Forall other_line (flood_try_lines flood_data).
Proof.
  unfold flood_try_lines.
  destruct (flood_stats flood_data) as [[avg_discharge max_discharge]|];
    [destruct (format_number_1f max_discharge) as [max_text|]|].
  - unfold flood_risk_lines, risk_message.
    destruct (number_lt (Int 5000) max_discharge);
      [|destruct (number_lt (Int 2000) max_discharge)]; repeat constructor.
  - repeat constructor.
  - repeat constructor.
Qed.

Lemma flood_section_flood_payload {F : Floats} (flood_data : json) :
  flood_payload flood_data →
  ∃ flood : list string,
    flood_section flood_data = Ok flood ∧ Forall other_line flood.
Proof.
  intros Hpayload.
  assert (∃ has_daily : bool,
            py_and (Ok (truthy flood_data)) (contains "daily" flood_data) = Ok has_daily)
    as [has_daily Hdaily].
  { unfold py_and. cbn [mbind result_bind].
    destruct flood_data as [|b|z|q| | | | |]; cbn [flood_payload truthy contains] in *;
      try contradiction; try rewrite Hpayload; cbn [negb Z.eqb];
      try (destruct (negb _)); eexists; reflexivity. }
  unfold flood_section. rewrite Hdaily. cbn [mbind result_bind].
  eexists. split; [reflexivity|].
  destruct has_daily; [apply flood_try_lines_other | constructor].
Qed.

(** C6. For every input (two weather tables, any counts, any flood
    payload), the report is produced and holds the header (region and date
    range) and the extreme-event section; when the historical table is
    absent or empty, the historical summary and the crop recommendation are
    omitted: none of the lines of the report is one of theirs. *)
Theorem report_without_history {F : Floats}
    (region start_date end_date : string)
    (weather_df forecast_df : option (DataFrame cell))
    (extremes : gmap string Z) (flood_data : json) :
  weather_table weather_df →
  weather_table forecast_df →
  flood_payload flood_data →
  ∃ history forecast flood crop : list string,
    generate_report region start_date end_date weather_df forecast_df extremes flood_data
    = Ok (String.concat nl
            (header_section region start_date end_date
             ++ history ++ forecast
             ++ extremes_section extremes
             ++ flood ++ crop
             ++ advice_section extremes))
    ∧ (no_rows weather_df →
       history = [] ∧ crop = []
       ∧ Forall other_line
           (header_section region start_date end_date
            ++ forecast
            ++ extremes_section extremes
            ++ flood
            ++ advice_section extremes)).
Proof.
  intros Hweather Hforecast Hflood.
  destruct (flood_section_flood_payload flood_data Hflood) as (flood & Hfl & Hfl_other).
  assert (∃ forecast, forecast_section forecast_df = Ok forecast
                      ∧ Forall other_line forecast) as (forecast & Hfc & Hfc_other).
  { destruct (summary_section_weather_table forecast_lines forecast_df Hforecast)
      as [H|(tmax & rain & H)]; eexists; (split; [exact H|]);
      [constructor | apply forecast_lines_other]. }
  assert (∃ history crop, history_section weather_df = Ok history
                          ∧ crop_section weather_df = Ok crop
                          ∧ (no_rows weather_df → history = [] ∧ crop = []))
    as (history & crop & Hhist & Hcrop & Hnone).
  { destruct weather_df as [d|]; cbn [weather_table] in Hweather.
    - destruct (empty d) eqn:Hempty.
      + exists [], []. split; [|split; [|tauto]].
        * apply summary_section_no_rows. exact Hempty.
        * apply crop_section_no_rows. exact Hempty.
      + destruct (Hweather eq_refl) as [[tmax Htmax] [rain Hrain]].
        exists (history_lines tmax rain), [crop_line (rec_crop tmax rain)].
        split; [|split].
        * apply summary_section_rows; assumption.
        * apply crop_section_rows; assumption.
        * cbn [no_rows]. rewrite Hempty. discriminate.
    - exists [], []. split; [|split; [|tauto]]; reflexivity. }
  exists history, forecast, flood, crop. split.
  - rewrite generate_report_sections. unfold report_sections.
    rewrite Hhist, Hfc, Hfl, Hcrop. reflexivity.
  - intros Hno. destruct (Hnone Hno) as [-> ->]. split; [reflexivity|].
    split; [reflexivity|].
    apply Forall_app_2; [apply header_section_other|].
    apply Forall_app_2; [exact Hfc_other|].
    apply Forall_app_2; [apply extremes_section_other|].
    apply Forall_app_2; [exact Hfl_other | apply advice_section_other].
Qed.

Lemma report_without_history_witness :
  (∃ history forecast flood crop : list string,
     generate_report (F := left_to_right)
       "Delta Farm" "2023-01-01" "2023-01-03" None (Some delta_farm)
       (events_dict 0 0 0) high_flood
     = Ok (String.concat nl
             (header_section "Delta Farm" "2023-01-01" "2023-01-03"
              ++ history ++ forecast
              ++ extremes_section (events_dict 0 0 0)
              ++ flood ++ crop
              ++ advice_section (events_dict 0 0 0)))
     ∧ (no_rows None →
        history = [] ∧ crop = []
        ∧ Forall other_line
            (header_section "Delta Farm" "2023-01-01" "2023-01-03"
             ++ forecast
             ++ extremes_section (events_dict 0 0 0)
             ++ flood
             ++ advice_section (events_dict 0 0 0))))
  ∧ (∃ history forecast flood crop : list string,
       generate_report (F := left_to_right)
         "Delta Farm" "2023-01-01" "2023-01-03" (Some no_days) None
         (events_dict 0 0 0) JNull
       = Ok (String.concat nl
               (header_section "Delta Farm" "2023-01-01" "2023-01-03"
                ++ history ++ forecast
                ++ extremes_section (events_dict 0 0 0)
                ++ flood ++ crop
                ++ advice_section (events_dict 0 0 0)))
       ∧ (no_rows (Some no_days) →
          history = [] ∧ crop = []
          ∧ Forall other_line
              (header_section "Delta Farm" "2023-01-01" "2023-01-03"
               ++ forecast
               ++ extremes_section (events_dict 0 0 0)
               ++ flood
               ++ advice_section (events_dict 0 0 0)))).
Proof.
  split.
  - apply (report_without_history (F := left_to_right)
             "Delta Farm" "2023-01-01" "2023-01-03" None
             (Some delta_farm) (events_dict 0 0 0) high_flood).
    + exact I.
    + intros _. split; eexists; reflexivity.
    + exact I.
  - apply (report_without_history (F := left_to_right)
             "Delta Farm" "2023-01-01" "2023-01-03" (Some no_days)
             None (events_dict 0 0 0) JNull).
    + intros H. discriminate H.
    + exact I.
    + exact I.
Defined.

(** ** The flood request *)

Lemma flood_api_failed_not_no_model (e : exn) : flood_api_failed e ≠ no_flood_model.
Proof.
  unfold flood_api_failed, no_flood_model. intros H.
  apply (f_equal (λ j, match j with JObj kv => kv !! "error" | _ => None end)) in H.
  cbv beta iota in H. rewrite !lookup_singleton_eq in H. discriminate H.
Qed.

(** C8. For every flood request answered with status 404, [fetch_flood]
    returns the dict whose "error" entry is "No flood model available for
    this region".  Every other failure (the request raises, another 4xx or
    5xx status, a body that is not JSON) returns a dict whose "error" entry
    starts with "Flood API failed: ", which is never the former; and
    [fetch_flood] returns a value, it raises nothing, whatever the request
    does. *)
Theorem fetch_flood_404_distinguished
    (requests_get : string → result Response) (lat lon start_date end_date : string) :
  (∀ resp : Response,
     requests_get (flood_url lat lon start_date end_date) = Ok resp →
     status_code resp = 404%Z →
     fetch_flood requests_get lat lon start_date end_date = Ok no_flood_model)
  ∧ (∀ e : exn,
       requests_get (flood_url lat lon start_date end_date) = Raise e →
       fetch_flood requests_get lat lon start_date end_date = Ok (flood_api_failed e))
  ∧ (∀ (resp : Response) (e : exn),
       requests_get (flood_url lat lon start_date end_date) = Ok resp →
       status_code resp ≠ 404%Z →
       raise_for_status resp = Raise e ∨ (raise_for_status resp = Ok () ∧ resp_json resp = Raise e) →
       fetch_flood requests_get lat lon start_date end_date = Ok (flood_api_failed e))
  ∧ (∀ e : exn, flood_api_failed e ≠ no_flood_model)
  ∧ (∃ flood_data : json,
       fetch_flood requests_get lat lon start_date end_date = Ok flood_data).
Proof.
  unfold fetch_flood. fold (flood_url lat lon start_date end_date). cbv zeta.
  split; [|split; [|split; [|split]]].
  - intros resp -> H404. cbn [mbind result_bind]. rewrite H404. reflexivity.
  - intros e ->. reflexivity.
  - intros resp e -> Hstatus Hfail. cbn [mbind result_bind].
    apply Z.eqb_neq in Hstatus. rewrite Hstatus.
    destruct Hfail as [->|[-> ->]]; reflexivity.
  - apply flood_api_failed_not_no_model.
  - destruct (requests_get _) as [resp|e]; cbn [mbind result_bind try_except];
      [|eexists; reflexivity].
    destruct (status_code resp =? 404)%Z; [eexists; reflexivity|].
    destruct (raise_for_status resp) as [[]|e]; cbn [mbind result_bind try_except];
      [|eexists; reflexivity].
    destruct (resp_json resp) as [j|e]; eexists; reflexivity.
Qed.

Lemma fetch_flood_404_witness :
  fetch_flood (λ _, Ok not_found) "28.6139" "77.209" "2023-01-01" "2023-01-03"
  = Ok no_flood_model
  ∧ fetch_flood (λ _, Raise (RequestException "Read timed out."))
      "28.6139" "77.209" "2023-01-01" "2023-01-03"
    = Ok (flood_api_failed (RequestException "Read timed out."))
  ∧ fetch_flood (λ _, Ok server_error) "28.6139" "77.209" "2023-01-01" "2023-01-03"
    = Ok (flood_api_failed
            (HTTPError ("500 Server Error: Internal Server Error for url: "
                        +:+ "https://flood-api.open-meteo.com/v1/flood")))
  ∧ fetch_flood (λ _, Ok not_json) "28.6139" "77.209" "2023-01-01" "2023-01-03"
    = Ok (flood_api_failed (JSONDecodeError "Expecting value: line 1 column 1 (char 0)")).
Proof.
  split; [|split; [|split]].
  - exact (proj1 (fetch_flood_404_distinguished (λ _, Ok not_found)
                    "28.6139" "77.209" "2023-01-01" "2023-01-03")
             not_found eq_refl eq_refl).
  - exact (proj1 (proj2 (fetch_flood_404_distinguished
                           (λ _, Raise (RequestException "Read timed out."))
                           "28.6139" "77.209" "2023-01-01" "2023-01-03"))
             _ eq_refl).
  - apply (proj1 (proj2 (proj2 (fetch_flood_404_distinguished (λ _, Ok server_error)
                                  "28.6139" "77.209" "2023-01-01" "2023-01-03")))
             server_error _ eq_refl).
    + discriminate.
    + left. reflexivity.
  - apply (proj1 (proj2 (proj2 (fetch_flood_404_distinguished (λ _, Ok not_json)
                                  "28.6139" "77.209" "2023-01-01" "2023-01-03")))
             not_json _ eq_refl).
    + discriminate.
    + right. split; reflexivity.
Defined.

(** ** The construction of the weather tables *)

Lemma truthy_dict_with (kv : gmap string json) (key : string) (v : json) :
  kv !! key = Some v → truthy (JObj kv) = true.
Proof.
  intros Hkey. cbn [truthy]. rewrite bool_decide_eq_false_2; [reflexivity|].
  intros ->. rewrite lookup_empty in Hkey. discriminate.
Qed.

Lemma column_cells_length (n : nat) (labels : list string) (v : json) :
  (∀ l, v = JArr l → length l = n) →
  (∀ d, v = JObj d → length labels = n) →
  length (column_cells n labels v) = n.
Proof.
  intros Harr Hdict. destruct v; cbn [column_cells];
    rewrite ?length_replicate, ?length_fmap; eauto.
Qed.

Lemma frame_of_wf (n : nat) (labels : list string) (data : list (string * json)) :
  Forall (λ kv : string * json, length (column_cells n labels kv.2) = n) data →
  wf_frame (frame_of n labels data).
Proof.
  unfold wf_frame, frame_of. cbn [index columns].
  assert (Hgen : ∀ cols : gmap string (list value),
            Forall (λ kv : string * json, length (column_cells n labels kv.2) = n) data →
            map_Forall (λ _ col, length col = n) cols →
            map_Forall (λ _ col, length col = n)
              (foldl (λ cols (kv : string * json),
                        <[kv.1 := column_cells n labels kv.2]> cols) cols data)).
  { induction data as [|kv data IH]; intros cols Hdata Hcols; [exact Hcols|].
    cbn [foldl]. apply Forall_cons in Hdata as [Hkv Hdata].
    apply IH; [exact Hdata|]. apply map_Forall_insert_2; assumption. }
  intros Hdata. apply Hgen; [exact Hdata | apply map_Forall_empty].
Qed.

Lemma raw_lengths_elem (data : list (string * json)) (key : string) (l : list json) :
  (key, JArr l) ∈ data → length l ∈ raw_lengths data.
Proof.
  intros Hin. unfold raw_lengths. apply list_elem_of_omap.
  exists (key, JArr l). split; [exact Hin | reflexivity].
Qed.

Lemma dict_indexes_elem (data : list (string * json)) (key : string)
    (d : gmap string json) :
  (key, JObj d) ∈ data → dom d ∈ dict_indexes data.
Proof.
  intros Hin. unfold dict_indexes. apply list_elem_of_omap.
  exists (key, JObj d). split; [exact Hin | reflexivity].
Qed.

(** The constructor returns frames whose columns all have the length of
    the index. *)
Lemma pd_DataFrame_wf (data : list (string * json)) (df : DataFrame value) :
  pd_DataFrame data = Ok df → wf_frame df.
Proof.
  unfold pd_DataFrame. destruct data as [|kv0 data0] eqn:Edata.
  { intros [= <-]. apply map_Forall_empty. }
  rewrite <- Edata. clear Edata kv0 data0.
  destruct (raw_lengths data) as [|n lengths] eqn:Hlengths.
  - destruct (dict_indexes data) as [|i indexes] eqn:Hindexes; [discriminate|].
    intros [= <-]. apply frame_of_wf. apply Forall_forall. intros [key v] Hin.
    apply column_cells_length; cbn [snd].
    + intros l ->. apply raw_lengths_elem in Hin. rewrite Hlengths in Hin.
      apply elem_of_nil in Hin. destruct Hin.
    + reflexivity.
  - destruct (forallb (Nat.eqb n) lengths) eqn:Hsame; cbn [negb]; [|discriminate].
    destruct (dict_indexes data) as [|i indexes] eqn:Hindexes; [|discriminate].
    intros [= <-]. apply frame_of_wf. apply Forall_forall. intros [key v] Hin.
    apply column_cells_length; cbn [snd].
    + intros l ->. apply raw_lengths_elem in Hin. rewrite Hlengths in Hin.
      apply elem_of_cons in Hin as [Hin|Hin]; [exact Hin|].
      rewrite forallb_forall in Hsame. symmetry. apply Nat.eqb_eq, Hsame.
      apply list_elem_of_In. exact Hin.
    + intros d ->. apply dict_indexes_elem in Hin. rewrite Hindexes in Hin.
      apply elem_of_nil in Hin. destruct Hin.
Qed.

Lemma length_reindex (n : nat) (s : list value) : length (reindex n s) = n.
Proof. unfold reindex. rewrite length_app, length_take, length_replicate. lia. Qed.

Lemma reindex_same_length (s : list value) : reindex (length s) s = s.
Proof.
  unfold reindex. rewrite firstn_all, Nat.sub_diag. apply app_nil_r.
Qed.

Lemma setitem_wf (df : DataFrame value) (name : string) (s : list value) :
  wf_frame df → wf_frame (setitem df name s).
Proof.
  unfold wf_frame, setitem. cbn [index columns]. intros Hwf.
  apply map_Forall_insert_2; [apply length_reindex | exact Hwf].
Qed.

(** The four columns of the frame that the constructor makes of the four
    entries of a weather table. *)
Lemma pd_DataFrame_weather_columns (time tmax tmin rain : json) (df : DataFrame value) :
  pd_DataFrame [("date", time); ("tmax", tmax); ("tmin", tmin); ("rain", rain)] = Ok df →
  Forall (λ name, is_Some (columns df !! name)) ["date"; "tmax"; "tmin"; "rain"]
  ∧ ∀ l, time = JArr l → index df = length l.
Proof.
  unfold pd_DataFrame.
  set (data := [("date", time); ("tmax", tmax); ("tmin", tmin); ("rain", rain)]).
  assert (Hcols : ∀ n labels,
            Forall (λ name, is_Some (columns (frame_of n labels data) !! name))
              ["date"; "tmax"; "tmin"; "rain"]).
  { intros n labels. unfold frame_of, data. cbn [foldl columns fst snd].
    repeat constructor; eexists; simplify_map_eq; reflexivity. }
  destruct (raw_lengths data) as [|n lengths] eqn:Hlengths.
  - destruct (dict_indexes data) as [|i indexes]; [discriminate|].
    intros [= <-]. split; [apply Hcols|].
    intros l ->. unfold data, raw_lengths in Hlengths. discriminate Hlengths.
  - destruct (forallb (Nat.eqb n) lengths); cbn [negb]; [|discriminate].
    destruct (dict_indexes data) as [|i indexes]; [|discriminate].
    intros [= <-]. split; [apply Hcols|].
    intros l ->. unfold data, raw_lengths in Hlengths. cbn [omap list_omap snd] in Hlengths.
    injection Hlengths as <- _. reflexivity.
Qed.

Lemma weather_df_truthy (to_datetime : list value → result (list value))
    (weather_data : json) :
  truthy weather_data = true →
  weather_df to_datetime weather_data ≠ Ok None.
Proof.
  intros Htruthy. unfold weather_df. rewrite Htruthy.
  repeat match goal with
         | |- context [mbind _ ?m] =>
             lazymatch m with
             | mbind _ _ => fail
             | _ => destruct m; cbn [mbind result_bind]; [|discriminate]
             end
         end.
  discriminate.
Qed.

(** C4, as the program has it.  A weather payload that is present and
    lacks the "daily" key, or whose "daily" dict lacks one of the four
    arrays, makes the construction of the table raise [KeyError] for the
    first key that is missing; the empty sentinel [None] is what the
    construction yields exactly for an absent or empty payload. *)
Theorem weather_df_missing_key_raises (to_datetime : list value → result (list value)) :
  (∀ kv : gmap string json,
     kv ≠ ∅ → kv !! "daily" = None →
     weather_df to_datetime (JObj kv) = Raise (KeyError "daily"))
  ∧ (∀ (kv daily : gmap string json) (key : string),
       kv !! "daily" = Some (JObj daily) →
       missing_field daily = Some key →
       weather_df to_datetime (JObj kv) = Raise (KeyError key))
  ∧ (∀ weather_data : json,
       weather_df to_datetime weather_data = Ok None ↔ truthy weather_data = false).
Proof.
  split; [|split].
  - intros kv Hne Hdaily. unfold weather_df. cbn [truthy].
    rewrite bool_decide_eq_false_2 by exact Hne. cbn [negb getitem].
    rewrite Hdaily. reflexivity.
  - intros kv daily key Hdaily Hmissing. unfold weather_df.
    rewrite (truthy_dict_with _ _ _ Hdaily). cbn [getitem]. rewrite Hdaily.
    cbn [mbind result_bind getitem].
    unfold missing_field, daily_fields in Hmissing. cbn [List.find] in Hmissing.
    destruct (daily !! "time") as [time|];
      [|injection Hmissing as <-; reflexivity].
    rewrite bool_decide_eq_false_2 in Hmissing by discriminate.
    cbn [mbind result_bind].
    destruct (daily !! "temperature_2m_max") as [tmax|];
      [|injection Hmissing as <-; reflexivity].
    rewrite bool_decide_eq_false_2 in Hmissing by discriminate.
    cbn [mbind result_bind].
    destruct (daily !! "temperature_2m_min") as [tmin|];
      [|injection Hmissing as <-; reflexivity].
    rewrite bool_decide_eq_false_2 in Hmissing by discriminate.
    cbn [mbind result_bind].
    destruct (daily !! "precipitation_sum") as [rain|];
      [|injection Hmissing as <-; reflexivity].
    rewrite bool_decide_eq_false_2 in Hmissing by discriminate.
    discriminate Hmissing.
  - intros weather_data. split.
    + intros Hnone. destruct (truthy weather_data) eqn:Htruthy; [|reflexivity].
      destruct (weather_df_truthy to_datetime weather_data Htruthy Hnone).
    + intros Hfalsy. unfold weather_df. rewrite Hfalsy. reflexivity.
Qed.

(** The claim of the specification fails on an answer without "daily":
    the construction raises, it does not yield the empty sentinel. *)
Lemma weather_df_missing_daily_counterexample :
  truthy without_daily = true
  ∧ getitem without_daily "daily" = Raise (KeyError "daily")
  ∧ weather_df to_datetime_iso without_daily = Raise (KeyError "daily")
  ∧ weather_df to_datetime_iso without_daily ≠ Ok None.
Proof.
  split; [vm_compute; reflexivity|]. split; [vm_compute; reflexivity|].
  split; [vm_compute; reflexivity|]. intros H. vm_compute in H. discriminate H.
Qed.

Lemma weather_df_missing_key_witness :
  weather_df to_datetime_iso without_daily = Raise (KeyError "daily")
  ∧ weather_df to_datetime_iso without_rain = Raise (KeyError "precipitation_sum")
  ∧ weather_df to_datetime_iso JNull = Ok None
  ∧ weather_df to_datetime_iso (JObj ∅) = Ok None.
Proof.
  destruct (weather_df_missing_key_raises to_datetime_iso) as (Hdaily & Hfield & Hnone).
  split; [|split; [|split]].
  - apply Hdaily; [discriminate | reflexivity].
  - apply (Hfield _ {[ "time" := JArr [JStr "2023-01-01"];
                       "temperature_2m_max" := JArr [JNum 41];
                       "temperature_2m_min" := JArr [JNum 30] ]});
      reflexivity.
  - apply Hnone. reflexivity.
  - apply Hnone. reflexivity.
Defined.

(** C7, as the program has it.  A weather payload whose four "daily"
    arrays do not all have the length of the date array is rejected by the
    frame constructor, which raises [ValueError]: the construction neither
    yields the empty sentinel nor pairs arrays of different lengths.  In
    every table that it does produce, each of the four columns has as many
    cells as the index has rows, and the index has the length of the date
    array. *)
Theorem weather_df_length_mismatch_raises
    (to_datetime : list value → result (list value)) :
  (∀ (kv daily : gmap string json) (time tmax tmin rain : list json),
     kv !! "daily" = Some (JObj daily) →
     daily !! "time" = Some (JArr time) →
     daily !! "temperature_2m_max" = Some (JArr tmax) →
     daily !! "temperature_2m_min" = Some (JArr tmin) →
     daily !! "precipitation_sum" = Some (JArr rain) →
     ¬ (length tmax = length time ∧ length tmin = length time
        ∧ length rain = length time) →
     weather_df to_datetime (JObj kv)
     = Raise (ValueError "All arrays must be of the same length"))
  ∧ (∀ (weather_data : json) (df : DataFrame value),
       weather_df to_datetime weather_data = Ok (Some df) →
       wf_frame df
       ∧ Forall (λ name, ∃ col, columns df !! name = Some col
                                ∧ length col = index df)
           ["date"; "tmax"; "tmin"; "rain"]
       ∧ ∀ (daily : json) (time : list json),
           getitem weather_data "daily" = Ok daily →
           getitem daily "time" = Ok (JArr time) →
           index df = length time).
Proof.
  split.
  - intros kv daily time tmax tmin rain Hdaily Htime Htmax Htmin Hrain Hlen.
    unfold weather_df. rewrite (truthy_dict_with _ _ _ Hdaily).
    cbn [getitem]. rewrite Hdaily. cbn [mbind result_bind getitem].
    rewrite Htime, Htmax, Htmin, Hrain. cbn [mbind result_bind].
    unfold pd_DataFrame, raw_lengths. cbn [omap list_omap snd forallb].
    destruct (andb _ _) eqn:Hsame; [|reflexivity].
    exfalso. apply Hlen.
    apply andb_true_iff in Hsame as [H1 Hsame].
    apply andb_true_iff in Hsame as [H2 Hsame].
    apply andb_true_iff in Hsame as [H3 _].
    apply Nat.eqb_eq in H1, H2, H3. auto.
  - intros weather_data df. unfold weather_df.
    destruct (truthy weather_data); [|discriminate].
    destruct (getitem weather_data "daily") as [daily|]; cbn [mbind result_bind];
      [|discriminate].
    destruct (getitem daily "time") as [time|] eqn:Htime; cbn [mbind result_bind];
      [|discriminate].
    destruct (getitem daily "temperature_2m_max") as [tmax|]; cbn [mbind result_bind];
      [|discriminate].
    destruct (getitem daily "temperature_2m_min") as [tmin|]; cbn [mbind result_bind];
      [|discriminate].
    destruct (getitem daily "precipitation_sum") as [rain|]; cbn [mbind result_bind];
      [|discriminate].
    destruct (pd_DataFrame _) as [df0|] eqn:Hframe; cbn [mbind result_bind];
      [|discriminate].
    destruct (column df0 "date") as [date|]; cbn [mbind result_bind]; [|discriminate].
    destruct (to_datetime date) as [date'|]; cbn [mbind result_bind]; [|discriminate].
    intros [= <-].
    pose proof (setitem_wf df0 "date" date' (pd_DataFrame_wf _ _ Hframe)) as Hwf.
    destruct (pd_DataFrame_weather_columns _ _ _ _ _ Hframe) as [Hcols Hindex].
    split; [exact Hwf|]. split.
    + eapply Forall_impl; [exact Hcols|]. intros name [col Hcol].
      assert (is_Some (columns (setitem df0 "date" date') !! name)) as [col' Hcol'].
      { unfold setitem. cbn [columns]. destruct (decide (name = "date")) as [->|Hne].
        - rewrite lookup_insert_eq. eauto.
        - rewrite lookup_insert_ne by congruence. eauto. }
      exists col'. split; [exact Hcol' | exact (Hwf _ _ Hcol')].
    + intros daily' time' [= <-] Htime'. rewrite Htime in Htime'.
      injection Htime' as ->. apply Hindex. reflexivity.
Qed.

(** The claim of the specification fails on an answer whose rain array is
    one day short: the construction raises, it does not yield the empty
    sentinel. *)
Lemma weather_df_length_mismatch_counterexample :
  weather_df to_datetime_iso short_rain
  = Raise (ValueError "All arrays must be of the same length")
  ∧ weather_df to_datetime_iso short_rain ≠ Ok None.
Proof.
  split; [vm_compute; reflexivity|]. intros H. vm_compute in H. discriminate H.
Qed.

Lemma weather_df_length_mismatch_witness :
  weather_df to_datetime_iso short_rain
  = Raise (ValueError "All arrays must be of the same length")
  ∧ ∃ df : DataFrame value,
      weather_df to_datetime_iso three_days = Ok (Some df)
      ∧ wf_frame df
      ∧ Forall (λ name, ∃ col, columns df !! name = Some col ∧ length col = 3)
          ["date"; "tmax"; "tmin"; "rain"].
Proof.
  destruct (weather_df_length_mismatch_raises to_datetime_iso) as [Hraise Hframe].
  split.
  - apply (Hraise _ {[ "time" := JArr [JStr "2023-01-01"; JStr "2023-01-02"];
                       "temperature_2m_max" := JArr [JNum 41; JNum 38];
                       "temperature_2m_min" := JArr [JNum 30; JNum 25];
                       "precipitation_sum" := JArr [JNum (1 # 2)] ]}
             [JStr "2023-01-01"; JStr "2023-01-02"] [JNum 41; JNum 38]
             [JNum 30; JNum 25] [JNum (1 # 2)]); try reflexivity.
    cbn [length]. intros (_ & _ & H). discriminate H.
  - assert (∃ df, weather_df to_datetime_iso three_days = Ok (Some df)) as [df Hdf]
      by (vm_compute; eexists; reflexivity).
    exists df. split; [exact Hdf|].
    destruct (Hframe three_days df Hdf) as (Hwf & Hcols & Hindex).
    split; [exact Hwf|].
    pose proof (Hindex _ [JStr "2023-01-01"; JStr "2023-01-02"; JStr "2023-01-03"]
                  eq_refl eq_refl) as Hrows.
    cbn [length] in Hrows. rewrite Hrows in Hcols. exact Hcols.
Defined.

(** ** The end-to-end scenario of the specification *)

Example delta_farm_report_rice :
  delta_farm_report high_flood
  = Ok (String.concat nl
          (delta_farm_lines
             [ "🌊 **Flood Risk Report:**";
               "- Avg River Discharge: 1833.3 m³/s";
               "- Max River Discharge: 5200.0 m³/s";
               high_risk_message; "" ])).
Proof. vm_compute. reflexivity. Qed.

Example delta_farm_history :
  history_lines (F := left_to_right) [Some 41%Q; Some 38%Q; Some 20%Q]
    [Some (1 # 2); Some 120%Q; Some 2%Q]
  = [ "📊 **Weather Summary (History):**";
      "- Avg Temp: 33.0 °C";
      "- Total Rainfall: 122.5 mm" +:+ nl ].
Proof. vm_compute. reflexivity. Qed.

(** Readings beyond the floats.  A sum of ints is exact, and an average
    that is beyond the floats makes the division raise: the section is the
    line of the handler.  When two such readings cancel, the average is
    printed and the maximum is not: the section is left broken. *)
Example huge_reading :
  flood_stats (F := left_to_right) (discharge_payload [JInt huge])
  = Raise (OverflowError "integer division result too large for a float")
  ∧ flood_section (F := left_to_right) (discharge_payload [JInt huge])
    = Ok [flood_unavailable_line]
  ∧ flood_section (F := left_to_right) (discharge_payload [JInt huge; JInt (- huge)])
    = Ok [ "🌊 **Flood Risk Report:**";
           "- Avg River Discharge: 0.0 m³/s";
           flood_unavailable_line ]
  ∧ flood_stats (F := left_to_right) (discharge_payload [JNum 1; JInt huge])
    = Raise (OverflowError "int too large to convert to float").
Proof. repeat split; vm_compute; reflexivity. Qed.

(** The rounding of the floats, on the figures of the scenario and at the
    edge of the range. *)
Example rounded_figures :
  format_float_1f (round_binary64 (5500 # 3)) = "1833.3"
  ∧ format_number_1f (Int 5200) = Ok "5200.0"
  ∧ format_number_1f (Int (2 ^ 53 + 1)) = Ok "9007199254740992.0"
  ∧ float_of_int (2 ^ 1024 - 2 ^ 970 - 1) = Ok (Finite (inject_Z (2 ^ 1024 - 2 ^ 971)))
  ∧ float_of_int (2 ^ 1024 - 2 ^ 970)
    = Raise (OverflowError "int too large to convert to float")
  ∧ round_binary64 (1 # 10) = Finite (3602879701896397 # 36028797018963968).
Proof. repeat split; vm_compute; reflexivity. Qed.

(** * Further properties of the application *)

(** ** The location lookup *)

(** X1. [get_user_location] raises nothing.  It returns the latitude, the
    longitude and the city of the answer when the status is 200 and the body
    is a dict that holds "latitude" and "longitude", with "Unknown" for a
    missing city; whatever else the request does, it returns three [None].
    Conversely a result other than three [None] comes from such an
    answer. *)
Theorem get_user_location_outcome (requests_get : string → result Response) :
  (∀ (res : Response) (kv : gmap string json) (latitude longitude : json),
     requests_get "https://ipapi.co/json/" = Ok res →
     status_code res = 200%Z →
     resp_json res = Ok (JObj kv) →
     kv !! "latitude" = Some latitude →
     kv !! "longitude" = Some longitude →
     get_user_location requests_get
     = Ok (latitude, longitude, default (JStr "Unknown") (kv !! "city")))
  ∧ (∃ located : json * json * json,
       get_user_location requests_get = Ok located
       ∧ (located = (JNull, JNull, JNull)
          ∨ ∃ (res : Response) (kv : gmap string json),
              requests_get "https://ipapi.co/json/" = Ok res
              ∧ status_code res = 200%Z
              ∧ resp_json res = Ok (JObj kv)
              ∧ kv !! "latitude" = Some located.1.1
              ∧ kv !! "longitude" = Some located.1.2
              ∧ located.2 = default (JStr "Unknown") (kv !! "city"))).
Proof.
  unfold get_user_location. split.
  - intros res kv latitude longitude -> Hstatus Hbody Hlat Hlon.
    cbn [mbind result_bind]. rewrite Hstatus, Hbody. cbn [Z.eqb Pos.eqb mbind result_bind getitem].
    rewrite Hlat, Hlon. reflexivity.
  - destruct (requests_get "https://ipapi.co/json/") as [res|e] eqn:Hget;
      cbn [mbind result_bind try_except]; [|eexists; split; [reflexivity | left; reflexivity]].
    destruct (status_code res =? 200)%Z eqn:Hstatus;
      [|eexists; split; [reflexivity | left; reflexivity]].
    apply Z.eqb_eq in Hstatus.
    destruct (resp_json res) as [data|e] eqn:Hbody; cbn [mbind result_bind try_except];
      [|eexists; split; [reflexivity | left; reflexivity]].
    destruct data as [| | | | | | | |kv]; cbn [getitem mbind result_bind try_except];
      try (eexists; split; [reflexivity | left; reflexivity]).
    destruct (kv !! "latitude") as [latitude|] eqn:Hlat; cbn [mbind result_bind try_except];
      [|eexists; split; [reflexivity | left; reflexivity]].
    destruct (kv !! "longitude") as [longitude|] eqn:Hlon; cbn [mbind result_bind try_except];
      [|eexists; split; [reflexivity | left; reflexivity]].
    eexists. split; [reflexivity|]. right. exists res, kv. cbn [fst snd dict_get]. auto 10.
Qed.

Lemma get_user_location_witness :
  get_user_location (λ _, Ok located_without_city)
  = Ok (JNum (286139 # 10000), JNum (77209 # 1000), JStr "Unknown").
Proof.
  exact (proj1 (get_user_location_outcome (λ _, Ok located_without_city))
           located_without_city _ _ _ eq_refl eq_refl eq_refl eq_refl eq_refl).
Defined.

(** ** The weather requests *)

Lemma raise_for_status_ok (resp : Response) :
  ¬ (400 ≤ status_code resp < 600)%Z → raise_for_status resp = Ok ().
Proof.
  intros Hstatus. unfold raise_for_status.
  destruct ((400 <=? status_code resp)%Z && (status_code resp <? 500)%Z) eqn:H4;
    [apply andb_true_iff in H4 as [?%Z.leb_le ?%Z.ltb_lt]; lia|].
  destruct ((500 <=? status_code resp)%Z && (status_code resp <? 600)%Z) eqn:H5;
    [apply andb_true_iff in H5 as [?%Z.leb_le ?%Z.ltb_lt]; lia|].
  reflexivity.
Qed.

Lemma raise_for_status_error (resp : Response) :
  (400 ≤ status_code resp < 600)%Z → ∃ msg, raise_for_status resp = Raise (HTTPError msg).
Proof.
  intros Hstatus. unfold raise_for_status.
  destruct ((400 <=? status_code resp)%Z && (status_code resp <? 500)%Z) eqn:H4;
    [eexists; reflexivity|].
  destruct ((500 <=? status_code resp)%Z && (status_code resp <? 600)%Z) eqn:H5;
    [eexists; reflexivity|].
  apply andb_false_iff in H4, H5. exfalso.
  destruct H4 as [?%Z.leb_gt|?%Z.ltb_ge], H5 as [?%Z.leb_gt|?%Z.ltb_ge]; lia.
Qed.

(** What a request comes to, by what the service does. *)
Lemma request_json_cases (requests_get : string → result Response) (url : string) :
  (∀ e, requests_get url = Raise e → request_json requests_get url = Raise e)
  ∧ (∀ resp, requests_get url = Ok resp → (400 ≤ status_code resp < 600)%Z →
       ∃ msg, request_json requests_get url = Raise (HTTPError msg))
  ∧ (∀ resp, requests_get url = Ok resp → ¬ (400 ≤ status_code resp < 600)%Z →
       request_json requests_get url = resp_json resp).
Proof.
  unfold request_json. split; [|split].
  - intros e ->. reflexivity.
  - intros resp -> Hstatus. destruct (raise_for_status_error resp Hstatus) as [msg Hmsg].
    exists msg. cbn [mbind result_bind]. rewrite Hmsg. reflexivity.
  - intros resp -> Hstatus. cbn [mbind result_bind].
    rewrite (raise_for_status_ok resp Hstatus). reflexivity.
Qed.

Lemma fetch_weather_request (requests_get : string → result Response)
    (lat lon start_date end_date : string) :
  fetch_weather requests_get lat lon start_date end_date
  = match request_json requests_get (weather_url lat lon start_date end_date) with
    | Ok data => (data, [])
    | Raise e => (JNull, [st_error ("Weather API error: " +:+ str_exn e)])
    end.
Proof. reflexivity. Qed.

Lemma fetch_forecast_request (requests_get : string → result Response)
    (lat lon days : string) :
  fetch_forecast requests_get lat lon days
  = match request_json requests_get (forecast_url lat lon days) with
    | Ok data => (data, [])
    | Raise e => (JNull, [st_error ("Forecast API error: " +:+ str_exn e)])
    end.
Proof. reflexivity. Qed.

(** X2. [fetch_weather] and [fetch_forecast] raise nothing.  They return
    the decoded body, and show nothing, when the request returns a response
    whose status is not a 4xx or 5xx code and whose body decodes (also a body
    that is null).  When the request raises, the status is a 4xx or 5xx code
    (404 as any other), or the body does not decode, they return [None] and
    show one error that starts with "Weather API error: " (respectively
    "Forecast API error: "). *)
Theorem fetch_weather_forecast_outcome (requests_get : string → result Response)
    (lat lon start_date end_date days : string) :
  let weather := fetch_weather requests_get lat lon start_date end_date in
  let forecast := fetch_forecast requests_get lat lon days in
  (∀ (resp : Response) (data : json),
     ¬ (400 ≤ status_code resp < 600)%Z → resp_json resp = Ok data →
     (requests_get (weather_url lat lon start_date end_date) = Ok resp →
      weather = (data, []))
     ∧ (requests_get (forecast_url lat lon days) = Ok resp → forecast = (data, [])))
  ∧ (∀ (resp : Response) (e : exn),
       ¬ (400 ≤ status_code resp < 600)%Z → resp_json resp = Raise e →
       (requests_get (weather_url lat lon start_date end_date) = Ok resp →
        weather = (JNull, [st_error ("Weather API error: " +:+ str_exn e)]))
       ∧ (requests_get (forecast_url lat lon days) = Ok resp →
          forecast = (JNull, [st_error ("Forecast API error: " +:+ str_exn e)])))
  ∧ (∀ resp : Response,
       (400 ≤ status_code resp < 600)%Z →
       (requests_get (weather_url lat lon start_date end_date) = Ok resp →
        ∃ msg, weather = (JNull, [st_error ("Weather API error: " +:+ msg)]))
       ∧ (requests_get (forecast_url lat lon days) = Ok resp →
          ∃ msg, forecast = (JNull, [st_error ("Forecast API error: " +:+ msg)])))
  ∧ (∀ e : exn,
       (requests_get (weather_url lat lon start_date end_date) = Raise e →
        weather = (JNull, [st_error ("Weather API error: " +:+ str_exn e)]))
       ∧ (requests_get (forecast_url lat lon days) = Raise e →
          forecast = (JNull, [st_error ("Forecast API error: " +:+ str_exn e)]))).
Proof.
  intros weather forecast. subst weather forecast.
  rewrite fetch_weather_request, fetch_forecast_request.
  destruct (request_json_cases requests_get (weather_url lat lon start_date end_date))
    as (Hw_raise & Hw_status & Hw_body).
  destruct (request_json_cases requests_get (forecast_url lat lon days))
    as (Hf_raise & Hf_status & Hf_body).
  split; [|split; [|split]].
  - intros resp data Hstatus Hbody. split; intros Hget.
    + rewrite (Hw_body _ Hget Hstatus), Hbody. reflexivity.
    + rewrite (Hf_body _ Hget Hstatus), Hbody. reflexivity.
  - intros resp e Hstatus Hbody. split; intros Hget.
    + rewrite (Hw_body _ Hget Hstatus), Hbody. reflexivity.
    + rewrite (Hf_body _ Hget Hstatus), Hbody. reflexivity.
  - intros resp Hstatus. split; intros Hget.
    + destruct (Hw_status _ Hget Hstatus) as [msg ->]. exists msg. reflexivity.
    + destruct (Hf_status _ Hget Hstatus) as [msg ->]. exists msg. reflexivity.
  - intros e. split; intros Hget.
    + rewrite (Hw_raise _ Hget). reflexivity.
    + rewrite (Hf_raise _ Hget). reflexivity.
Qed.

Lemma fetch_weather_forecast_witness :
  fetch_weather (λ _, Ok weather_ok) "28.6139" "77.209" "2023-01-01" "2023-01-03"
  = (three_days, [])
  ∧ ∃ msg, fetch_weather (λ _, Ok not_found_weather) "28.6139" "77.209"
             "2023-01-01" "2023-01-03"
           = (JNull, [st_error ("Weather API error: " +:+ msg)]).
Proof.
  split.
  - apply (proj1 (fetch_weather_forecast_outcome (λ _, Ok weather_ok)
                    "28.6139" "77.209" "2023-01-01" "2023-01-03" "14")
             weather_ok three_days); [cbn; lia | reflexivity | reflexivity].
  - apply (proj1 (proj2 (proj2 (fetch_weather_forecast_outcome
                                  (λ _, Ok not_found_weather)
                                  "28.6139" "77.209" "2023-01-01" "2023-01-03" "14")))
             not_found_weather); [cbn; lia | reflexivity].
Defined.

(** ** Failed requests, through to the report *)

Lemma advice_section_zero : advice_section (events_dict 0 0 0) = [].
Proof. vm_compute. reflexivity. Qed.

(** X3. When the historical weather request does not come to a decoded
    body, [fetch_weather] shows one error and the run degrades: no table is
    built, the classifier counts 0 three times, and the report is produced
    with the header, the forecast summary, the three counts at 0 and the
    flood section only: no historical summary, no crop recommendation and no
    advice. *)
Theorem weather_failure_degrades {F : Floats} (requests_get : string → result Response)
    (to_datetime : list value → result (list value))
    (lat lon start_date end_date region : string) (e : exn)
    (forecast_df : option (DataFrame cell)) (flood_data : json)
    (forecast flood : list string) :
  request_json requests_get (weather_url lat lon start_date end_date) = Raise e →
  forecast_section forecast_df = Ok forecast →
  flood_section flood_data = Ok flood →
  let fetched := fetch_weather requests_get lat lon start_date end_date in
  fetched.2 = [st_error ("Weather API error: " +:+ str_exn e)]
  ∧ weather_df to_datetime fetched.1 = Ok None
  ∧ analyze_extremes None = Ok (events_dict 0 0 0)
  ∧ generate_report region start_date end_date None forecast_df (events_dict 0 0 0)
      flood_data
    = Ok (String.concat nl
            (header_section region start_date end_date
             ++ forecast
             ++ extremes_section (events_dict 0 0 0)
             ++ flood)).
Proof.
  intros Hfail Hforecast Hflood fetched. subst fetched.
  rewrite fetch_weather_request, Hfail. cbn [fst snd].
  split; [reflexivity|]. split; [reflexivity|]. split; [reflexivity|].
  rewrite generate_report_sections. unfold report_sections.
  rewrite Hforecast, Hflood, advice_section_zero. cbn [history_section summary_section
    crop_section if_has_rows mbind result_bind]. rewrite !app_nil_r. reflexivity.
Qed.

Lemma weather_failure_degrades_witness :
  (fetch_weather (λ _, Ok not_found_weather) "28.6139" "77.209" "2023-01-01" "2023-01-03").2
  = [st_error ("Weather API error: "
               +:+ "404 Client Error: Not Found for url: "
               +:+ "https://archive-api.open-meteo.com/v1/archive")]
  ∧ weather_df to_datetime_iso
      (fetch_weather (λ _, Ok not_found_weather) "28.6139" "77.209"
         "2023-01-01" "2023-01-03").1
    = Ok None
  ∧ analyze_extremes None = Ok (events_dict 0 0 0)
  ∧ generate_report (F := left_to_right)
      "Delta Farm" "2023-01-01" "2023-01-03" None None (events_dict 0 0 0) JNull
    = Ok (String.concat nl
            (header_section "Delta Farm" "2023-01-01" "2023-01-03"
             ++ []
             ++ extremes_section (events_dict 0 0 0)
             ++ [])).
Proof.
  exact (weather_failure_degrades (F := left_to_right)
           (λ _, Ok not_found_weather) to_datetime_iso
           "28.6139" "77.209" "2023-01-01" "2023-01-03" "Delta Farm"
           (HTTPError ("404 Client Error: Not Found for url: "
                       +:+ "https://archive-api.open-meteo.com/v1/archive"))
           None JNull [] [] eq_refl eq_refl eq_refl).
Defined.

(** The three ways in which [fetch_flood] ends. *)
Lemma fetch_flood_cases (requests_get : string → result Response)
    (lat lon start_date end_date : string) :
  let url := flood_url lat lon start_date end_date in
  (∀ resp, requests_get url = Ok resp → status_code resp = 404%Z →
     fetch_flood requests_get lat lon start_date end_date = Ok no_flood_model)
  ∧ (∀ e, requests_get url = Raise e →
       fetch_flood requests_get lat lon start_date end_date = Ok (flood_api_failed e))
  ∧ (∀ resp, requests_get url = Ok resp → status_code resp ≠ 404%Z →
       fetch_flood requests_get lat lon start_date end_date
       = match request_json requests_get url with
         | Ok data => Ok data
         | Raise e => Ok (flood_api_failed e)
         end).
Proof.
  unfold fetch_flood, request_json. fold (flood_url lat lon start_date end_date).
  cbv zeta. split; [|split].
  - intros resp -> Hstatus. cbn [mbind result_bind]. rewrite Hstatus. reflexivity.
  - intros e ->. reflexivity.
  - intros resp -> Hstatus. cbn [mbind result_bind].
    apply Z.eqb_neq in Hstatus. rewrite Hstatus.
    destruct (raise_for_status resp) as [[]|e]; cbn [mbind result_bind try_except];
      [|reflexivity].
    destruct (resp_json resp); reflexivity.
Qed.

(** A dict that holds "error" alone: no frame for the chart, and no flood
    section in the report. *)
Lemma error_dict_skipped {F : Floats} (to_datetime : list value → result (list value))
    (msg : string) :
  let flood_data := JObj {[ "error" := JStr msg ]} in
  contains "error" flood_data = Ok true
  ∧ flood_df to_datetime flood_data = Ok None
  ∧ flood_section flood_data = Ok [].
Proof.
  cbv zeta. unfold flood_df, flood_section, py_and.
  cbn [contains truthy getitem mbind result_bind].
  rewrite lookup_singleton_eq, lookup_singleton_ne by discriminate.
  rewrite bool_decide_eq_true_2 by eauto.
  rewrite (bool_decide_eq_false_2 (is_Some None)) by (intros [? ?]; discriminate).
  rewrite bool_decide_eq_false_2.
  2: { intros H. apply (f_equal (λ m : gmap string json, m !! "error")) in H.
       rewrite lookup_singleton_eq, lookup_empty in H. discriminate H. }
  repeat split.
Qed.

(** X4. When the flood request is answered with status 404, or does not
    come to a decoded body, [fetch_flood] returns a dict that holds "error"
    and no "daily": the script shows its warning and builds no flood frame,
    and the report has no flood section at all, neither the risk lines nor
    the line "Data unavailable": it is the report of a run without flood
    payload. *)
Theorem flood_failure_skips_flood_section {F : Floats}
    (requests_get : string → result Response)
    (to_datetime : list value → result (list value))
    (lat lon start_date end_date region : string)
    (weather_df forecast_df : option (DataFrame cell)) (extremes : gmap string Z) :
  (∃ resp, requests_get (flood_url lat lon start_date end_date) = Ok resp
           ∧ status_code resp = 404%Z)
  ∨ (∃ e, request_json requests_get (flood_url lat lon start_date end_date) = Raise e) →
  ∃ flood_data : json,
    fetch_flood requests_get lat lon start_date end_date = Ok flood_data
    ∧ contains "error" flood_data = Ok true
    ∧ flood_df to_datetime flood_data = Ok None
    ∧ generate_report region start_date end_date weather_df forecast_df extremes flood_data
      = generate_report region start_date end_date weather_df forecast_df extremes JNull.
Proof.
  intros Hfail.
  assert (∃ msg, fetch_flood requests_get lat lon start_date end_date
                 = Ok (JObj {[ "error" := JStr msg ]})) as [msg Hfetch].
  { destruct (fetch_flood_cases requests_get lat lon start_date end_date)
      as (H404 & Hraise & Hother).
    destruct Hfail as [(resp & Hget & Hstatus)|[e Hjson]].
    - eexists. apply (H404 _ Hget Hstatus).
    - destruct (requests_get (flood_url lat lon start_date end_date)) as [resp|e']
        eqn:Hget.
      + destruct (decide (status_code resp = 404%Z)) as [Hstatus|Hstatus].
        * eexists. apply (H404 _ eq_refl Hstatus).
        * eexists. rewrite (Hother _ eq_refl Hstatus), Hjson. reflexivity.
      + eexists. apply (Hraise _ eq_refl). }
  destruct (error_dict_skipped to_datetime msg) as (Herror & Hframe & Hsection).
  eexists. split; [exact Hfetch|]. split; [exact Herror|]. split; [exact Hframe|].
  rewrite !generate_report_sections. unfold report_sections. rewrite Hsection.
  reflexivity.
Qed.

Lemma flood_failure_skips_flood_section_witness :
  ∃ flood_data : json,
    fetch_flood (λ _, Ok not_found) "28.6139" "77.209" "2023-01-01" "2023-01-03"
    = Ok flood_data
    ∧ contains "error" flood_data = Ok true
    ∧ flood_df to_datetime_iso flood_data = Ok None
    ∧ generate_report (F := left_to_right)
        "Delta Farm" "2023-01-01" "2023-01-03" (Some delta_farm) None
        (events_dict 1 1 1) flood_data
      = generate_report (F := left_to_right)
          "Delta Farm" "2023-01-01" "2023-01-03" (Some delta_farm) None
          (events_dict 1 1 1) JNull.
Proof.
  apply (flood_failure_skips_flood_section (F := left_to_right)
           (λ _, Ok not_found) to_datetime_iso
           "28.6139" "77.209" "2023-01-01" "2023-01-03" "Delta Farm"
           (Some delta_farm) None (events_dict 1 1 1)).
  left. exists not_found. split; reflexivity.
Defined.

(** ** Advice, from the table to the report *)

Lemma get_or_0_events_dict (heatwave drought flood : Z) :
  get_or_0 (events_dict heatwave drought flood) "heatwave_days" = heatwave
  ∧ get_or_0 (events_dict heatwave drought flood) "drought_days" = drought
  ∧ get_or_0 (events_dict heatwave drought flood) "flood_days" = flood.
Proof.
  unfold get_or_0, events_dict. repeat split; simplify_map_eq; reflexivity.
Qed.

Lemma advice_section_elem (extremes : gmap string Z) :
  (irrigation_advice ∈ advice_section extremes
   ↔ (10 < get_or_0 extremes "drought_days")%Z)
  ∧ (heat_advice ∈ advice_section extremes
     ↔ (3 < get_or_0 extremes "heatwave_days")%Z)
  ∧ (drainage_advice ∈ advice_section extremes
     ↔ (2 < get_or_0 extremes "flood_days")%Z).
Proof.
  unfold advice_section, irrigation_advice, heat_advice, drainage_advice.
  destruct (10 <? _)%Z eqn:H10, (3 <? _)%Z eqn:H3, (2 <? _)%Z eqn:H2;
    rewrite ?Z.ltb_lt, ?Z.ltb_ge in *;
    cbn [app]; rewrite ?elem_of_cons, ?elem_of_nil;
    repeat split; intros; try lia; try tauto;
    repeat match goal with H : _ ∨ _ |- _ => destruct H end;
    try discriminate; try contradiction; auto.
Qed.

(** X5. The counts of [analyze_extremes] handed to [generate_report]: for
    a table with rows, the report ends with the advice notes, in the order
    irrigation, heat, drainage, and it holds the irrigation note exactly when
    more than 10 rows have rain < 1, the heat note exactly when more than 3
    rows have tmax > 40, and the drainage note exactly when more than 2 rows
    have rain > 100. *)
Theorem advice_follows_row_counts {F : Floats} (region start_date end_date : string)
    (weather_df : DataFrame cell) (tmax rain : list cell)
    (forecast_df : option (DataFrame cell)) (flood_data : json)
    (forecast flood : list string) :
  empty weather_df = false →
  columns weather_df !! "tmax" = Some tmax →
  columns weather_df !! "rain" = Some rain →
  forecast_section forecast_df = Ok forecast →
  flood_section flood_data = Ok flood →
  ∃ (extremes : gmap string Z) (advice : list string),
    analyze_extremes (Some weather_df) = Ok extremes
    ∧ generate_report region start_date end_date (Some weather_df) forecast_df
        extremes flood_data
      = Ok (String.concat nl
              (header_section region start_date end_date
               ++ history_lines tmax rain ++ forecast
               ++ extremes_section extremes
               ++ flood
               ++ [crop_line (rec_crop tmax rain)]
               ++ advice))
    ∧ advice `sublist_of` [irrigation_advice; heat_advice; drainage_advice]
    ∧ (irrigation_advice ∈ advice ↔ (10 < count_rows drought_row rain)%Z)
    ∧ (heat_advice ∈ advice ↔ (3 < count_rows heatwave_row tmax)%Z)
    ∧ (drainage_advice ∈ advice ↔ (2 < count_rows heavy_rain_row rain)%Z).
Proof.
  intros Hempty Htmax Hrain Hforecast Hflood.
  set (extremes := events_dict (count_rows heatwave_row tmax)
                     (count_rows drought_row rain) (count_rows heavy_rain_row rain)).
  exists extremes, (advice_section extremes).
  split; [apply analyze_extremes_present; assumption|].
  split.
  { rewrite generate_report_sections. unfold report_sections, history_section.
    rewrite (summary_section_rows _ _ _ _ Hempty Htmax Hrain).
    rewrite (crop_section_rows _ _ _ Hempty Htmax Hrain), Hforecast, Hflood.
    reflexivity. }
  split.
  { unfold advice_section, irrigation_advice, heat_advice, drainage_advice.
    destruct (10 <? _)%Z, (3 <? _)%Z, (2 <? _)%Z; cbn [app];
      repeat first [ apply sublist_nil | apply sublist_skip; [] | apply sublist_cons
                   | apply sublist_skip ]. }
  destruct (advice_section_elem extremes) as (Hirrigation & Hheat & Hdrainage).
  destruct (get_or_0_events_dict (count_rows heatwave_row tmax)
              (count_rows drought_row rain) (count_rows heavy_rain_row rain))
    as (Hh & Hd & Hf).
  fold extremes in Hh, Hd, Hf. rewrite Hd in Hirrigation. rewrite Hh in Hheat.
  rewrite Hf in Hdrainage. auto.
Qed.

Lemma advice_follows_row_counts_witness :
  ∃ (extremes : gmap string Z) (advice : list string),
    analyze_extremes (Some dry_spell) = Ok extremes
    ∧ generate_report (F := left_to_right)
        "Delta Farm" "2023-01-01" "2023-01-12" (Some dry_spell) None extremes JNull
      = Ok (String.concat nl
              (header_section "Delta Farm" "2023-01-01" "2023-01-12"
               ++ history_lines (F := left_to_right)
                    (replicate 4 (Some 42%Q) ++ replicate 8 (Some 30%Q))
                    (replicate 12 (Some 0%Q))
               ++ []
               ++ extremes_section extremes
               ++ []
               ++ [crop_line (rec_crop (F := left_to_right)
                                (replicate 4 (Some 42%Q) ++ replicate 8 (Some 30%Q))
                                (replicate 12 (Some 0%Q)))]
               ++ advice))
    ∧ advice `sublist_of` [irrigation_advice; heat_advice; drainage_advice]
    ∧ (irrigation_advice ∈ advice
       ↔ (10 < count_rows drought_row (replicate 12 (Some 0%Q)))%Z)
    ∧ (heat_advice ∈ advice
       ↔ (3 < count_rows heatwave_row
                (replicate 4 (Some 42%Q) ++ replicate 8 (Some 30%Q)))%Z)
    ∧ (drainage_advice ∈ advice
       ↔ (2 < count_rows heavy_rain_row (replicate 12 (Some 0%Q)))%Z).
Proof.
  exact (advice_follows_row_counts (F := left_to_right)
           "Delta Farm" "2023-01-01" "2023-01-12" dry_spell
           (replicate 4 (Some 42%Q) ++ replicate 8 (Some 30%Q))
           (replicate 12 (Some 0%Q)) None JNull [] []
           eq_refl eq_refl eq_refl eq_refl eq_refl).
Defined.

(** ** Tables built from a complete answer *)

(** X6. For a weather answer whose "daily" dict holds the four arrays,
    all of the length of the date array, and whose dates parse, the
    construction succeeds and keeps every array as it is, position by
    position: the index has the length of the date array; the columns tmax,
    tmin and rain are the arrays temperature_2m_max, temperature_2m_min and
    precipitation_sum, with a null where the array has one; the column date
    is the parsed dates. *)
Theorem weather_df_keeps_the_arrays (to_datetime : list value → result (list value))
    (kv daily : gmap string json) (time tmax tmin rain : list json)
    (dates : list value) :
  kv !! "daily" = Some (JObj daily) →
  daily !! "time" = Some (JArr time) →
  daily !! "temperature_2m_max" = Some (JArr tmax) →
  daily !! "temperature_2m_min" = Some (JArr tmin) →
  daily !! "precipitation_sum" = Some (JArr rain) →
  length tmax = length time →
  length tmin = length time →
  length rain = length time →
  to_datetime (Obj <$> time) = Ok dates →
  length dates = length time →
  ∃ df : DataFrame value,
    weather_df to_datetime (JObj kv) = Ok (Some df)
    ∧ index df = length time
    ∧ columns df !! "date" = Some dates
    ∧ columns df !! "tmax" = Some (Obj <$> tmax)
    ∧ columns df !! "tmin" = Some (Obj <$> tmin)
    ∧ columns df !! "rain" = Some (Obj <$> rain)
    ∧ wf_frame df.
Proof.
  intros Hdaily Htime Htmax Htmin Hrain Ltmax Ltmin Lrain Hdates Ldates.
  eexists. split; [|split; [|split; [|split; [|split; [|split]]]]].
  - unfold weather_df. rewrite (truthy_dict_with _ _ _ Hdaily).
    cbn [getitem]. rewrite Hdaily. cbn [mbind result_bind getitem].
    rewrite Htime, Htmax, Htmin, Hrain. cbn [mbind result_bind].
    unfold pd_DataFrame, raw_lengths, dict_indexes.
    cbn [omap list_omap snd forallb]. rewrite Ltmax, Ltmin, Lrain, !Nat.eqb_refl.
    cbn [andb negb mbind result_bind]. unfold column, frame_of.
    cbn [foldl columns fst snd column_cells]. simplify_map_eq.
    cbn [mbind result_bind]. rewrite Hdates. cbn [mbind result_bind]. reflexivity.
  - reflexivity.
  - unfold setitem. cbn [columns index]. rewrite lookup_insert_eq.
    rewrite <- Ldates, reindex_same_length. reflexivity.
  - unfold setitem. cbn [columns index]. simplify_map_eq. reflexivity.
  - unfold setitem. cbn [columns index]. simplify_map_eq. reflexivity.
  - unfold setitem. cbn [columns index]. simplify_map_eq. reflexivity.
  - intros name col. unfold setitem. cbn [columns index].
    rewrite !lookup_insert_Some, lookup_empty.
    intros [[_ <-]|[_ [[_ <-]|[_ [[_ <-]|[_ [[_ <-]|[_ [[_ <-]|[_ ?]]]]]]]]]];
      rewrite ?length_fmap, ?length_reindex; congruence.
Qed.

Lemma weather_df_keeps_the_arrays_witness :
  ∃ df : DataFrame value,
    weather_df to_datetime_iso three_days = Ok (Some df)
    ∧ index df = 3
    ∧ columns df !! "date"
      = Some [Timestamp 1672531200000000000; Timestamp 1672617600000000000;
              Timestamp 1672704000000000000]
    ∧ columns df !! "tmax" = Some [Obj (JNum 41); Obj (JNum 38); Obj (JNum 20)]
    ∧ columns df !! "tmin" = Some [Obj (JNum 30); Obj (JNum 25); Obj JNull]
    ∧ wf_frame df.
Proof.
  destruct (weather_df_keeps_the_arrays to_datetime_iso three_days_dict three_days_daily
              [JStr "2023-01-01"; JStr "2023-01-02"; JStr "2023-01-03"]
              [JNum 41; JNum 38; JNum 20] [JNum 30; JNum 25; JNull]
              [JNum (1 # 2); JNum 120; JNum 2]
              [Timestamp 1672531200000000000; Timestamp 1672617600000000000;
               Timestamp 1672704000000000000]
              ltac:(vm_compute; reflexivity) ltac:(vm_compute; reflexivity)
              ltac:(vm_compute; reflexivity) ltac:(vm_compute; reflexivity)
              ltac:(vm_compute; reflexivity) eq_refl eq_refl eq_refl
              ltac:(vm_compute; reflexivity) eq_refl)
    as (df & Hdf & Hindex & Hdate & Htmax & Htmin & _ & Hwf).
  exists df. split; [exact Hdf|]. split; [exact Hindex|]. split; [exact Hdate|].
  split; [exact Htmax|]. split; [exact Htmin | exact Hwf].
Defined.

(** ** Crop suitability *)

(** X7. For a historical table with rows, the crop suitability chart and
    the report follow the same rule: the first crop of the dict [crops] is
    the crop that the report recommends, its suitability is the largest, and
    the suitabilities add up to 100. *)
Theorem crop_suitability_agrees_with_report {F : Floats}
    (region start_date end_date : string)
    (weather_df : DataFrame cell) (tmax rain : list cell)
    (forecast_df : option (DataFrame cell)) (extremes : gmap string Z)
    (flood_data : json) (forecast flood : list string) :
  empty weather_df = false →
  columns weather_df !! "tmax" = Some tmax →
  columns weather_df !! "rain" = Some rain →
  forecast_section forecast_df = Ok forecast →
  flood_section flood_data = Ok flood →
  ∃ (crop : string) (score : Z) (others : list (string * Z)),
    crop_suitability (Some weather_df) = Ok (Some ((crop, score) :: others))
    ∧ Forall (λ entry : string * Z, (0 < entry.2 < score)%Z) others
    ∧ (score + foldr (λ (entry : string * Z) (n : Z), entry.2 + n) 0 others = 100)%Z
    ∧ generate_report region start_date end_date (Some weather_df) forecast_df
        extremes flood_data
      = Ok (String.concat nl
              (header_section region start_date end_date
               ++ history_lines tmax rain ++ forecast
               ++ extremes_section extremes
               ++ flood
               ++ [crop_line crop]
               ++ advice_section extremes)).
Proof.
  intros Hempty Htmax Hrain Hforecast Hflood.
  assert (Hreport : ∀ crop, rec_crop tmax rain = crop →
    generate_report region start_date end_date (Some weather_df) forecast_df
      extremes flood_data
    = Ok (String.concat nl
            (header_section region start_date end_date
             ++ history_lines tmax rain ++ forecast
             ++ extremes_section extremes
             ++ flood
             ++ [crop_line crop]
             ++ advice_section extremes))).
  { intros crop <-. rewrite generate_report_sections.
    unfold report_sections, history_section.
    rewrite (summary_section_rows _ _ _ _ Hempty Htmax Hrain).
    rewrite (crop_section_rows _ _ _ Hempty Htmax Hrain), Hforecast, Hflood.
    reflexivity. }
  unfold crop_suitability, if_has_rows, column. rewrite Hempty, Htmax, Hrain.
  cbn [negb mbind result_bind]. unfold rec_crop in Hreport.
  destruct (float_gt (series_mean rain) 5 && float_gt (series_mean tmax) 25).
  - exists "Rice", 50%Z, [("Maize", 30%Z); ("Sugarcane", 20%Z)].
    split; [reflexivity|]. split; [repeat constructor|]. split; [reflexivity|].
    apply Hreport. reflexivity.
  - exists "Wheat", 60%Z, [("Barley", 25%Z); ("Pulses", 15%Z)].
    split; [reflexivity|]. split; [repeat constructor|]. split; [reflexivity|].
    apply Hreport. reflexivity.
Qed.

Lemma crop_suitability_agrees_with_report_witness :
  ∃ (crop : string) (score : Z) (others : list (string * Z)),
    crop_suitability (F := left_to_right) (Some delta_farm)
    = Ok (Some ((crop, score) :: others))
    ∧ Forall (λ entry : string * Z, (0 < entry.2 < score)%Z) others
    ∧ (score + foldr (λ (entry : string * Z) (n : Z), entry.2 + n) 0 others = 100)%Z
    ∧ generate_report (F := left_to_right)
        "Delta Farm" "2023-01-01" "2023-01-03" (Some delta_farm) None
        (events_dict 1 1 1) JNull
      = Ok (String.concat nl
              (header_section "Delta Farm" "2023-01-01" "2023-01-03"
               ++ history_lines (F := left_to_right) [Some 41%Q; Some 38%Q; Some 20%Q]
                    [Some (1 # 2); Some 120%Q; Some 2%Q]
               ++ []
               ++ extremes_section (events_dict 1 1 1)
               ++ []
               ++ [crop_line crop]
               ++ advice_section (events_dict 1 1 1))).
Proof.
  exact (crop_suitability_agrees_with_report (F := left_to_right)
           "Delta Farm" "2023-01-01" "2023-01-03" delta_farm [Some 41%Q; Some 38%Q; Some 20%Q]
           [Some (1 # 2); Some 120%Q; Some 2%Q] None (events_dict 1 1 1) JNull [] []
           eq_refl eq_refl eq_refl eq_refl eq_refl).
Defined.

(** ** Temperature categories *)

Lemma count_rows_split (P P1 P2 : cell → Prop)
    `{∀ c, Decision (P c)} `{∀ c, Decision (P1 c)} `{∀ c, Decision (P2 c)}
    (col : list cell) :
  (∀ c, P c ↔ P1 c ∨ P2 c) →
  (∀ c, ¬ (P1 c ∧ P2 c)) →
  count_rows P col = (count_rows P1 col + count_rows P2 col)%Z.
Proof.
  intros Hcover Hdisjoint. unfold count_rows.
  induction col as [|c col IH]; [reflexivity|].
  rewrite !filter_cons. specialize (Hcover c). specialize (Hdisjoint c).
  destruct (decide (P c)), (decide (P1 c)), (decide (P2 c)); cbn [length]; try lia; tauto.
Qed.

Lemma in_bin_split (a b d : Q) (c : cell) :
  (a <= b)%Q → (b <= d)%Q →
  (in_bin a d c ↔ in_bin a b c ∨ in_bin b d c) ∧ ¬ (in_bin a b c ∧ in_bin b d c).
Proof.
  intros Hab Hbd. destruct c as [x|]; cbn [in_bin]; [|tauto].
  split; [split|].
  - intros [H1 H2]. destruct (Qlt_le_dec b x) as [H|H]; [right | left]; auto.
  - intros [[H1 H2]|[H1 H2]]; split; auto.
    + apply Qle_trans with b; assumption.
    + apply Qle_lt_trans with b; assumption.
  - intros [[_ H1] [H2 _]]. apply (Qle_not_lt _ _ H1 H2).
Qed.

Lemma exceeds_split (a b : Q) (c : cell) :
  (a <= b)%Q →
  (exceeds a c ↔ in_bin a b c ∨ exceeds b c) ∧ ¬ (in_bin a b c ∧ exceeds b c).
Proof.
  intros Hab. destruct c as [x|]; cbn [in_bin exceeds]; [|tauto].
  split; [split|].
  - intros H1. destruct (Qlt_le_dec b x) as [H|H]; [right | left]; auto.
  - intros [[H1 _]|H1]; [exact H1|]. apply Qle_lt_trans with b; assumption.
  - intros [[_ H1] H2]. apply (Qle_not_lt _ _ H1 H2).
Qed.

(** The label that [pd.cut] gives a cell, for the bins of the program. *)
Lemma temp_label_in_bin (c : cell) :
  let label := x ← c; cut_label [(-5)%Q; 20%Q; 30%Q; 40%Q; 50%Q] temp_labels x in
  (label = Some "Cool (<20°C)" ↔ in_bin (-5) 20 c)
  ∧ (label = Some "Moderate (20-30°C)" ↔ in_bin 20 30 c)
  ∧ (label = Some "Hot (30-40°C)" ↔ in_bin 30 40 c)
  ∧ (label = Some "Extreme (>40°C)" ↔ in_bin 40 50 c).
Proof.
  destruct c as [x|]; cbn [mbind option_bind in_bin];
    [|repeat split; first [discriminate | intros []]].
  cbn [cut_label temp_labels].
  assert (Hbin : ∀ a b, Qltb a x && Qle_bool x b = true ↔ (a < x)%Q ∧ (x <= b)%Q).
  { intros a b. rewrite andb_true_iff, Qltb_lt, Qle_bool_iff. reflexivity. }
  destruct (Qltb (-5) x && Qle_bool x 20) eqn:B1;
    [|destruct (Qltb 20 x && Qle_bool x 30) eqn:B2;
      [|destruct (Qltb 30 x && Qle_bool x 40) eqn:B3;
        [|destruct (Qltb 40 x && Qle_bool x 50) eqn:B4]]];
    rewrite ?Hbin in *;
    repeat match goal with
           | H : _ && _ = false |- _ =>
               apply not_true_iff_false in H; rewrite Hbin in H
           end;
    (split; [|split; [|split]]);
    (split; let Hside := fresh "Hside" in
            intros Hside; try discriminate Hside; try reflexivity; try lra).
Qed.

Lemma length_filter_map {A B : Type} (f : A → B) (P : A → Prop) (R : B → Prop)
    `{∀ a, Decision (P a)} `{∀ b, Decision (R b)} (l : list A) :
  (∀ a, R (f a) ↔ P a) →
  length (filter R (map f l)) = length (filter P l).
Proof.
  intros Hiff. induction l as [|a l IH]; [reflexivity|].
  cbn [map]. rewrite !filter_cons. specialize (Hiff a).
  destruct (decide (R (f a))), (decide (P a)); cbn [length]; try lia; tauto.
Qed.

(** X8. The temperature categories of the chart, for a table that has the
    tmax column: every category counts the rows of its interval, open on the
    left and closed on the right (a day at exactly 40 is "Hot", not
    "Extreme").  The days counted in all are the rows with
    -5 < tmax <= 50: a day above 50, a day at or below -5 and a day without
    reading are in no category.  So "Extreme (>40°C)" is the heatwave count
    of the classifier less the days above 50. *)
Theorem temp_counts_partition (weather_df : DataFrame cell) (tmax : list cell) :
  columns weather_df !! "tmax" = Some tmax →
  ∃ (counts : gmap string nat) (cool moderate hot extreme : nat),
    temp_counts weather_df = Ok counts
    ∧ counts !! "Cool (<20°C)" = Some cool
    ∧ counts !! "Moderate (20-30°C)" = Some moderate
    ∧ counts !! "Hot (30-40°C)" = Some hot
    ∧ counts !! "Extreme (>40°C)" = Some extreme
    ∧ Z.of_nat cool = count_rows (in_bin (-5) 20) tmax
    ∧ Z.of_nat moderate = count_rows (in_bin 20 30) tmax
    ∧ Z.of_nat hot = count_rows (in_bin 30 40) tmax
    ∧ Z.of_nat extreme = count_rows (in_bin 40 50) tmax
    ∧ Z.of_nat (cool + moderate + hot + extreme) = count_rows (in_bin (-5) 50) tmax
    ∧ count_rows heatwave_row tmax
      = (Z.of_nat extreme + count_rows (exceeds 50) tmax)%Z.
Proof.
  intros Htmax.
  set (bins := [(-5)%Q; 20%Q; 30%Q; 40%Q; 50%Q]).
  set (cats := pd_cut tmax bins temp_labels).
  assert (Hcount : ∀ label a b,
            (∀ c, (x ← c; cut_label bins temp_labels x) = Some label ↔ in_bin a b c) →
            Z.of_nat (length (filter (λ c, c = Some label) cats))
            = count_rows (in_bin a b) tmax).
  { intros label a b Hiff. unfold count_rows, cats, pd_cut. f_equal.
    apply (length_filter_map _ (in_bin a b) (λ c, c = Some label)). exact Hiff. }
  pose proof (λ c, proj1 (temp_label_in_bin c)) as Hcool.
  pose proof (λ c, proj1 (proj2 (temp_label_in_bin c))) as Hmoderate.
  pose proof (λ c, proj1 (proj2 (proj2 (temp_label_in_bin c)))) as Hhot.
  pose proof (λ c, proj2 (proj2 (proj2 (temp_label_in_bin c)))) as Hextreme.
  cbv zeta in Hcool, Hmoderate, Hhot, Hextreme.
  exists (value_counts temp_labels cats),
    (length (filter (λ c, c = Some "Cool (<20°C)") cats)),
    (length (filter (λ c, c = Some "Moderate (20-30°C)") cats)),
    (length (filter (λ c, c = Some "Hot (30-40°C)") cats)),
    (length (filter (λ c, c = Some "Extreme (>40°C)") cats)).
  split; [unfold temp_counts, column; rewrite Htmax; reflexivity|].
  assert (Hlookup : ∀ label, label ∈ temp_labels →
            value_counts temp_labels cats !! label
            = Some (length (filter (λ c, c = Some label) cats))).
  { intros label Hin. unfold value_counts, temp_labels in *.
    cbn [fmap list_fmap list_to_map foldr].
    repeat (apply elem_of_cons in Hin as [->|Hin]; [simplify_map_eq; reflexivity|]).
    apply elem_of_nil in Hin. destruct Hin. }
  split; [apply Hlookup; unfold temp_labels;
          repeat first [apply list_elem_of_here | apply list_elem_of_further]|].
  split; [apply Hlookup; unfold temp_labels;
          repeat first [apply list_elem_of_here | apply list_elem_of_further]|].
  split; [apply Hlookup; unfold temp_labels;
          repeat first [apply list_elem_of_here | apply list_elem_of_further]|].
  split; [apply Hlookup; unfold temp_labels;
          repeat first [apply list_elem_of_here | apply list_elem_of_further]|].
  rewrite !Nat2Z.inj_add.
  rewrite (Hcount _ _ _ Hcool), (Hcount _ _ _ Hmoderate), (Hcount _ _ _ Hhot),
    (Hcount _ _ _ Hextreme).
  split; [reflexivity|]. split; [reflexivity|]. split; [reflexivity|].
  split; [reflexivity|]. split.
  - rewrite (count_rows_split (in_bin (-5) 50) (in_bin (-5) 40) (in_bin 40 50) tmax);
      [|intros c; apply in_bin_split; discriminate..].
    rewrite (count_rows_split (in_bin (-5) 40) (in_bin (-5) 30) (in_bin 30 40) tmax);
      [|intros c; apply in_bin_split; discriminate..].
    rewrite (count_rows_split (in_bin (-5) 30) (in_bin (-5) 20) (in_bin 20 30) tmax);
      [|intros c; apply in_bin_split; discriminate..].
    reflexivity.
  - unfold heatwave_row.
    apply (count_rows_split (exceeds 40) (in_bin 40 50) (exceeds 50) tmax);
      intros c; apply exceeds_split; discriminate.
Qed.

Lemma temp_counts_partition_witness :
  ∃ (counts : gmap string nat) (cool moderate hot extreme : nat),
    temp_counts six_days = Ok counts
    ∧ counts !! "Cool (<20°C)" = Some cool
    ∧ counts !! "Moderate (20-30°C)" = Some moderate
    ∧ counts !! "Hot (30-40°C)" = Some hot
    ∧ counts !! "Extreme (>40°C)" = Some extreme
    ∧ Z.of_nat cool = 1%Z
    ∧ Z.of_nat moderate = 1%Z
    ∧ Z.of_nat hot = 1%Z
    ∧ Z.of_nat extreme = 1%Z
    ∧ Z.of_nat (cool + moderate + hot + extreme) = 4%Z
    ∧ 2%Z = (Z.of_nat extreme + 1)%Z.
Proof.
  exact (temp_counts_partition six_days
           [Some (-8)%Q; Some 15%Q; Some 25%Q; Some 40%Q; Some 45%Q; Some 52%Q] eq_refl).
Defined.

(** ** Location selection *)

Lemma get_user_location_found (requests_get : string → result Response)
    (res : Response) (kv : gmap string json) (latitude longitude : json) :
  requests_get "https://ipapi.co/json/" = Ok res →
  status_code res = 200%Z →
  resp_json res = Ok (JObj kv) →
  kv !! "latitude" = Some latitude →
  kv !! "longitude" = Some longitude →
  get_user_location requests_get
  = Ok (latitude, longitude, default (JStr "Unknown") (kv !! "city")).
Proof.
  intros Hget Hstatus Hbody Hlat Hlon. unfold get_user_location.
  rewrite Hget. cbn [mbind result_bind]. rewrite Hstatus, Hbody.
  cbn [Z.eqb Pos.eqb mbind result_bind getitem]. rewrite Hlat, Hlon. reflexivity.
Qed.

(** X9. Location selection, when the box "use my current location" is
    ticked and the service answers with status 200 and both coordinates.
    The detected coordinates are used only when both are truthy: a detected
    latitude or longitude of 0 (the equator, the prime meridian) is dropped,
    the warning "Could not detect location" is shown and the coordinates of
    the two fields are used, with the region as typed.  When the coordinates
    are used and the answer has no city, the region of the run is "Unknown",
    not the region typed. *)
Theorem select_location_truthiness (requests_get : string → result Response)
    (py_str : json → string) (region : string) (number_input_lat number_input_lon : Q)
    (res : Response) (kv : gmap string json) (latitude longitude : json) :
  requests_get "https://ipapi.co/json/" = Ok res →
  status_code res = 200%Z →
  resp_json res = Ok (JObj kv) →
  kv !! "latitude" = Some latitude →
  kv !! "longitude" = Some longitude →
  let selected :=
    select_location requests_get py_str region true number_input_lat number_input_lon in
  (truthy latitude = false ∨ truthy longitude = false →
   selected
   = Ok (JNum number_input_lat, JNum number_input_lon, JStr region,
         [st_warning "Could not detect location automatically. Please enter manually."]))
  ∧ (truthy latitude = true → truthy longitude = true →
     ∃ run_region : json,
       selected
       = Ok (latitude, longitude, run_region,
             [st_success ("Detected location → "
                          +:+ py_str (default (JStr "Unknown") (kv !! "city"))
                          +:+ " (" +:+ py_str latitude +:+ ", " +:+ py_str longitude
                          +:+ ")")])
       ∧ (kv !! "city" = None → run_region = JStr "Unknown")
       ∧ (∀ city, kv !! "city" = Some city → truthy city = true → run_region = city)
       ∧ (∀ city, kv !! "city" = Some city → truthy city = false →
          run_region = JStr region)).
Proof.
  intros Hget Hstatus Hbody Hlat Hlon selected. subst selected.
  unfold select_location.
  rewrite (get_user_location_found _ _ _ _ _ Hget Hstatus Hbody Hlat Hlon).
  cbn [mbind result_bind]. split.
  - intros [H|H]; rewrite H; [|rewrite andb_false_r]; reflexivity.
  - intros Ht1 Ht2. rewrite Ht1, Ht2. cbn [andb]. eexists. split; [reflexivity|].
    split; [|split].
    + intros ->. reflexivity.
    + intros city -> Hcity. cbn [default from_option id]. rewrite Hcity. reflexivity.
    + intros city -> Hcity. cbn [default from_option id]. rewrite Hcity. reflexivity.
Qed.

Lemma select_location_truthiness_witness :
  select_location (λ _, Ok located_on_equator) str_abridged "My Farm" true
    (286139 # 10000) (77209 # 1000)
  = Ok (JNum (286139 # 10000), JNum (77209 # 1000), JStr "My Farm",
        [st_warning "Could not detect location automatically. Please enter manually."])
  ∧ ∃ run_region : json,
      select_location (λ _, Ok located_without_city) str_abridged "My Farm" true
        (286139 # 10000) (77209 # 1000)
      = Ok (JNum (286139 # 10000), JNum (77209 # 1000), run_region,
            [st_success "Detected location → Unknown (..., ...)"])
      ∧ run_region = JStr "Unknown".
Proof.
  split.
  - apply (proj1 (select_location_truthiness (λ _, Ok located_on_equator) str_abridged
                    "My Farm" (286139 # 10000) (77209 # 1000) located_on_equator
                    {[ "latitude" := JNum 0; "longitude" := JNum (3682 # 100);
                       "city" := JStr "Nanyuki" ]}
                    (JNum 0) (JNum (3682 # 100))
                    eq_refl eq_refl eq_refl eq_refl eq_refl)).
    left. reflexivity.
  - destruct (proj2 (select_location_truthiness (λ _, Ok located_without_city)
                       str_abridged "My Farm" (286139 # 10000) (77209 # 1000)
                       located_without_city
                       {[ "latitude" := JNum (286139 # 10000);
                          "longitude" := JNum (77209 # 1000) ]}
                       (JNum (286139 # 10000)) (JNum (77209 # 1000))
                       eq_refl eq_refl eq_refl eq_refl eq_refl) eq_refl eq_refl)
      as (run_region & Hselected & Hunknown & _).
    exists run_region. split; [exact Hselected | exact (Hunknown eq_refl)].
Defined.

(** ** The flood risk follows the largest reading *)

Lemma risk_message_high (m : number) :
  risk_message m = high_risk_message ↔ above 5000 m.
Proof.
  unfold risk_message. rewrite <- (number_lt_above 5000).
  destruct (number_lt (Int 5000) m); [tauto|].
  destruct (number_lt (Int 2000) m); split; discriminate.
Qed.

Lemma above_weaken (x y : Q) (m : number) : (x <= y)%Q → above y m → above x m.
Proof.
  unfold above, float_above. destruct (exact m) as [q| |[|]]; intros Hxy Hm;
    first [lra | assumption].
Qed.

Lemma risk_message_no_risk (m : number) :
  risk_message m = no_risk_message ↔ ¬ above 2000 m.
Proof.
  unfold risk_message. rewrite <- (number_lt_above 2000).
  destruct (number_lt (Int 5000) m) eqn:H5; [|destruct (number_lt (Int 2000) m) eqn:H2].
  - apply (number_lt_above 5000) in H5.
    apply (above_weaken 2000) in H5; [|discriminate].
    apply (number_lt_above 2000) in H5. rewrite H5. split; [discriminate | tauto].
  - split; [discriminate | tauto].
  - split; [discriminate | reflexivity].
Qed.

(** Among numbers other than NaN, a number that is not less than one above
    a level is above it. *)
Lemma above_not_less (x : Q) (m m' : number) :
  exact m' ≠ NaN → above x m → ¬ less m' m → above x m'.
Proof.
  unfold above, less, float_above.
  destruct (exact m) as [q| |[|]], (exact m') as [q'| |[|]];
    intros Hnan Hm Hle;
    first [ apply Qnot_lt_le in Hle; apply Qlt_le_trans with q; assumption
          | intuition congruence ].
Qed.

(** Among numbers other than NaN, not being less is transitive. *)
Lemma not_less_trans (x y z : number) :
  exact y ≠ NaN → ¬ less y x → ¬ less z y → ¬ less z x.
Proof.
  intros Hy Hxy Hyz Hzx. apply Hyz. apply less_not_less with x; assumption.
Qed.

Lemma max_list_dominated (n n' : number) (ns ns' : list number) :
  Forall (λ y, exact y ≠ NaN) (n' :: ns') →
  Forall (λ x, Exists (λ y, ¬ less y x) (n' :: ns')) (n :: ns) →
  ¬ less (max_list n' ns') (max_list n ns).
Proof.
  intros Hnan Hdom. rewrite Forall_forall in Hdom, Hnan.
  pose proof (Hdom _ (max_list_elem n ns)) as Hex.
  apply Exists_exists in Hex as (y & Hy & Hle).
  apply not_less_trans with y; [apply Hnan, Hy | exact Hle|].
  pose proof (max_list_upper n' ns') as Hupper. rewrite Forall_forall in Hupper.
  apply Hupper, Hy.
Qed.

(** X10. The flood risk of the report depends on the readings only through
    the largest one.  Take two usable discharge series, whose statistics
    compute and whose maximum prints, and in which no reading is NaN.  When
    every reading of the first is at most some reading of the second (the
    second holds more readings, or higher ones), the risk of the second is
    at least that of the first: high stays high, and "no significant risk"
    for the second means the same for the first.  Two series that dominate
    each other, such as the same readings in another order, get the same
    message. *)
Theorem flood_risk_monotone {F : Floats} (flood_data flood_data' : json)
    (l l' : list json) (n n' : number) (ns ns' : list number)
    (avg avg' : float64) (m m' : number) (max_text max_text' : string) :
  discharge_series flood_data = Some l →
  numbers_of_list l = Ok (n :: ns) →
  flood_stats flood_data = Ok (avg, m) →
  format_number_1f m = Ok max_text →
  discharge_series flood_data' = Some l' →
  numbers_of_list l' = Ok (n' :: ns') →
  flood_stats flood_data' = Ok (avg', m') →
  format_number_1f m' = Ok max_text' →
  Forall (λ x, exact x ≠ NaN) (n :: ns) →
  Forall (λ y, exact y ≠ NaN) (n' :: ns') →
  Forall (λ x, Exists (λ y, ¬ less y x) (n' :: ns')) (n :: ns) →
  flood_section flood_data = Ok (flood_risk_lines avg max_text (risk_message m))
  ∧ flood_section flood_data' = Ok (flood_risk_lines avg' max_text' (risk_message m'))
  ∧ ¬ less m' m
  ∧ (risk_message m = high_risk_message → risk_message m' = high_risk_message)
  ∧ (risk_message m' = no_risk_message → risk_message m = no_risk_message)
  ∧ (Forall (λ y, Exists (λ x, ¬ less x y) (n :: ns)) (n' :: ns') →
     risk_message m = risk_message m').
Proof.
  intros Hseries Hnum Hstats Htext Hseries' Hnum' Hstats' Htext' Hnan Hnan' Hdom.
  pose proof (flood_stats_max _ _ _ _ _ _ Hseries Hnum Hstats) as Hm.
  pose proof (flood_stats_max _ _ _ _ _ _ Hseries' Hnum' Hstats') as Hm'.
  pose proof (max_list_dominated _ _ _ _ Hnan' Hdom) as Hle.
  rewrite <- Hm, <- Hm' in Hle.
  assert (Hm_nan : exact m ≠ NaN).
  { rewrite Forall_forall in Hnan. apply Hnan. rewrite Hm. apply max_list_elem. }
  assert (Hm'_nan : exact m' ≠ NaN).
  { rewrite Forall_forall in Hnan'. apply Hnan'. rewrite Hm'. apply max_list_elem. }
  assert (Hmono : ∀ x, above x m → above x m').
  { intros x Hx. apply above_not_less with m; assumption. }
  split; [apply (flood_section_usable _ _ _ _ _ Hseries Hstats Htext)|].
  split; [apply (flood_section_usable _ _ _ _ _ Hseries' Hstats' Htext')|].
  split; [exact Hle|]. split; [|split].
  - rewrite !risk_message_high. apply Hmono.
  - rewrite !risk_message_no_risk. intros Hno Hx. apply Hno, Hmono, Hx.
  - intros Hdom'.
    pose proof (max_list_dominated _ _ _ _ Hnan Hdom') as Hle'.
    rewrite <- Hm, <- Hm' in Hle'.
    assert (Hmono' : ∀ x, above x m' → above x m).
    { intros x Hx. apply above_not_less with m'; assumption. }
    unfold risk_message.
    destruct (number_lt (Int 5000) m) eqn:A, (number_lt (Int 5000) m') eqn:A',
             (number_lt (Int 2000) m) eqn:B, (number_lt (Int 2000) m') eqn:B';
      try reflexivity; exfalso;
      repeat match goal with
             | H : number_lt (Int _) _ = true |- _ => apply number_lt_above in H
             | H : number_lt (Int _) _ = false |- _ =>
                 apply not_true_iff_false in H; rewrite number_lt_above in H
             end;
      auto.
Qed.

Lemma flood_risk_monotone_witness :
  flood_section (F := left_to_right) (discharge_payload [JNum 5200; JInt 100])
  = Ok [ "🌊 **Flood Risk Report:**";
         "- Avg River Discharge: 2650.0 m³/s";
         "- Max River Discharge: 5200.0 m³/s";
         high_risk_message; "" ]
  ∧ flood_section (F := left_to_right)
      (discharge_payload [JInt 100; JNum 200; JNum 6000; JInt 5200])
    = Ok [ "🌊 **Flood Risk Report:**";
           "- Avg River Discharge: 2875.0 m³/s";
           "- Max River Discharge: 6000.0 m³/s";
           high_risk_message; "" ].
Proof.
  edestruct (flood_risk_monotone (F := left_to_right)
               (discharge_payload [JNum 5200; JInt 100])
               (discharge_payload [JInt 100; JNum 200; JNum 6000; JInt 5200])
               [JNum 5200; JInt 100] [JInt 100; JNum 200; JNum 6000; JInt 5200])
    as (H1 & H2 & _ & Hhigh & _);
    [ apply discharge_series_payload | vm_compute; reflexivity
    | vm_compute; reflexivity | vm_compute; reflexivity
    | apply discharge_series_payload | vm_compute; reflexivity
    | vm_compute; reflexivity | vm_compute; reflexivity
    | repeat constructor; discriminate
    | repeat constructor; discriminate
    | | ].
  - constructor; [|constructor; [|constructor]].
    + apply Exists_cons_tl, Exists_cons_tl, Exists_cons_tl, Exists_cons_hd.
      vm_compute. discriminate.
    + apply Exists_cons_hd. vm_compute. discriminate.
  - rewrite H1, H2. rewrite Hhigh by (vm_compute; reflexivity).
    split; vm_compute; reflexivity.
Defined.

(** ** The flood frame *)

Lemma sum_items_raises (l : list json) (total : option Z) (e : exn) :
  sum_items total l = Raise e → ∃ msg, e = TypeError msg ∨ e = OverflowError msg.
Proof.
  revert total. induction l as [|x l IH]; intros total; cbn [sum_items]; [discriminate|].
  destruct (as_number x) as [[z'|f]|], total as [z|]; eauto.
  - unfold float_of_int. destruct (round_binary64 _); cbn [mbind result_bind]; eauto.
    intros [= <-]. eauto.
  - unfold float_of_int. destruct (round_binary64 _); cbn [mbind result_bind]; eauto.
    intros [= <-]. eauto.
  - intros [= <-]. eauto.
  - intros [= <-]. eauto.
Qed.

Lemma py_sum_raises {F : Floats} (j : json) (e : exn) :
  py_sum j = Raise e → ∃ msg, e = TypeError msg ∨ e = OverflowError msg.
Proof.
  destruct j as [| | | | | |s|l|kv]; cbn [py_sum];
    try (intros [= <-]; eauto; fail).
  - destruct (String.eqb s ""); [discriminate | intros [= <-]; eauto].
  - destruct (sum_items (Some 0%Z) l) as [[z|]|e'] eqn:Hsum; cbn [mbind result_bind];
      [discriminate | discriminate |].
    intros [= <-]. apply (sum_items_raises _ _ _ Hsum).
  - destruct (bool_decide (kv = ∅)); [discriminate | intros [= <-]; eauto].
Qed.

Lemma getitem_ok (j : json) (key : string) (v : json) :
  getitem j key = Ok v → ∃ kv, j = JObj kv ∧ kv !! key = Some v.
Proof.
  destruct j as [| | | | | | | |kv]; cbn [getitem]; try discriminate.
  destruct (kv !! key) as [v'|] eqn:Hkey; [|discriminate].
  intros [= ->]. eauto.
Qed.

Lemma numbers_of_list_raises (l : list json) (e : exn) :
  numbers_of_list l = Raise e → ∃ msg, e = TypeError msg.
Proof.
  induction l as [|x l IH]; cbn [numbers_of_list]; [discriminate|].
  destruct (as_number x); [|intros [= <-]; eauto].
  destruct (numbers_of_list l); cbn [mbind result_bind]; [discriminate|].
  intros [= <-]. apply IH. reflexivity.
Qed.

Lemma iter_numbers_raises (j : json) (e : exn) :
  iter_numbers j = Raise e → ∃ msg, e = TypeError msg.
Proof.
  destruct j as [| | | | | |s|l|kv]; cbn [iter_numbers];
    try (intros [= <-]; eauto; fail).
  - destruct (String.eqb s ""); [discriminate | intros [= <-]; eauto].
  - apply numbers_of_list_raises.
  - destruct (bool_decide (kv = ∅)); [discriminate | intros [= <-]; eauto].
Qed.

(** The statistics raise no [KeyError] once "daily" holds
    "river_discharge". *)
Lemma flood_stats_no_key_error {F : Floats} (flood_data daily vals : json)
    (e : exn) (key : string) :
  getitem flood_data "daily" = Ok daily →
  getitem daily "river_discharge" = Ok vals →
  flood_stats flood_data = Raise e → e ≠ KeyError key.
Proof.
  intros Hdaily Hvals. unfold flood_stats. rewrite Hdaily. cbn [mbind result_bind].
  rewrite Hvals. cbn [mbind result_bind].
  destruct (py_sum vals) as [total|e'] eqn:Hsum; cbn [mbind result_bind].
  2: { intros [= <-]. destruct (py_sum_raises _ _ Hsum) as [msg [-> | ->]]; discriminate. }
  destruct (py_len vals) as [count|e'] eqn:Hlen; cbn [mbind result_bind].
  2: { intros [= <-].
       destruct vals; cbn [py_len] in Hlen; try discriminate Hlen;
         injection Hlen as <-; discriminate. }
  destruct (py_div total count) as [avg|e'] eqn:Hdiv; cbn [mbind result_bind].
  2: { intros [= <-]. unfold py_div in Hdiv.
       destruct count; [injection Hdiv as <-; discriminate|].
       destruct total as [z|f]; [|discriminate].
       destruct (round_binary64 _); try discriminate. injection Hdiv as <-. discriminate. }
  unfold py_max.
  destruct (iter_numbers vals) as [[|x ns]|e'] eqn:Hnum; cbn [mbind result_bind].
  - intros [= <-]. discriminate.
  - discriminate.
  - intros [= <-]. destruct (iter_numbers_raises _ _ Hnum) as [msg ->]. discriminate.
Qed.

(** X11. The frame of the discharge chart and the flood section of the
    report read the same answer.  Whenever the script has built the frame,
    its two columns have the length of the index, the answer holds no
    "error", and the report has a flood section.  The section is the risk
    lines; or the line "Data unavailable" alone, when the statistics of the
    readings raise; or the title and the average followed by that line,
    when the maximum is an int that cannot be printed.  The readings are
    never unusable because a key is missing.  An answer whose discharge
    array and time array differ in length makes the constructor raise
    [ValueError]: the frame is not built. *)
Theorem flood_df_built {F : Floats} (to_datetime : list value → result (list value))
    (flood_data : json) :
  (∀ df : DataFrame value,
     flood_df to_datetime flood_data = Ok (Some df) →
     wf_frame df
     ∧ is_Some (columns df !! "date")
     ∧ is_Some (columns df !! "river_discharge")
     ∧ contains "error" flood_data = Ok false
     ∧ (∃ lines : list string,
          flood_section flood_data = Ok lines
          ∧ ((∃ (avg : float64) (m : number) (max_text : string),
                flood_stats flood_data = Ok (avg, m)
                ∧ format_number_1f m = Ok max_text
                ∧ lines = flood_risk_lines avg max_text (risk_message m))
             ∨ ((∃ e : exn, flood_stats flood_data = Raise e)
                ∧ lines = [flood_unavailable_line])
             ∨ (∃ (avg : float64) (z : Z) (msg : string),
                  flood_stats flood_data = Ok (avg, Int z)
                  ∧ float_of_int z = Raise (OverflowError msg)
                  ∧ lines = flood_broken_lines avg)))
     ∧ (∀ (e : exn) (key : string), flood_stats flood_data = Raise e → e ≠ KeyError key))
  ∧ (∀ (kv daily : gmap string json) (time river_discharge : list json),
       flood_data = JObj kv →
       kv !! "error" = None →
       kv !! "daily" = Some (JObj daily) →
       daily !! "time" = Some (JArr time) →
       daily !! "river_discharge" = Some (JArr river_discharge) →
       length river_discharge ≠ length time →
       flood_df to_datetime flood_data
       = Raise (ValueError "All arrays must be of the same length")).
Proof.
  split.
  - intros df. unfold flood_df.
    destruct (contains "error" flood_data) as [[|]|] eqn:Herror;
      cbn [mbind result_bind];
      [destruct (getitem flood_data "error"); discriminate | | discriminate].
    destruct (getitem flood_data "daily") as [daily|] eqn:Hdaily;
      cbn [mbind result_bind]; [|discriminate].
    destruct (getitem daily "time") as [time|]; cbn [mbind result_bind]; [|discriminate].
    destruct (getitem daily "river_discharge") as [vals|] eqn:Hvals;
      cbn [mbind result_bind]; [|discriminate].
    destruct (pd_DataFrame _) as [df0|] eqn:Hframe; cbn [mbind result_bind];
      [|discriminate].
    destruct (column df0 "date") as [date|]; cbn [mbind result_bind]; [|discriminate].
    destruct (to_datetime date) as [date'|]; cbn [mbind result_bind]; [|discriminate].
    intros [= <-].
    assert (Hcol : is_Some (columns df0 !! "river_discharge")).
    { revert Hframe. unfold pd_DataFrame.
      destruct (raw_lengths _) as [|n lengths];
        [destruct (dict_indexes _); [discriminate|]
        |destruct (negb _); [discriminate|]; destruct (dict_indexes _); [|discriminate]];
        intros [= <-]; unfold frame_of; cbn [foldl columns fst snd];
        eexists; simplify_map_eq; reflexivity. }
    split; [apply setitem_wf, (pd_DataFrame_wf _ _ Hframe)|].
    split; [unfold setitem; cbn [columns]; rewrite lookup_insert_eq; eauto|].
    split; [unfold setitem; cbn [columns];
            rewrite lookup_insert_ne by discriminate; exact Hcol|].
    split; [reflexivity|].
    split; [|intros e key; apply (flood_stats_no_key_error _ _ _ _ _ Hdaily Hvals)].
    destruct (getitem_ok _ _ _ Hdaily) as (kv & -> & Hkv).
    unfold flood_section, py_and. cbn [mbind result_bind contains].
    rewrite (truthy_dict_with _ _ _ Hkv), bool_decide_eq_true_2 by eauto.
    eexists. split; [reflexivity|]. unfold flood_try_lines.
    destruct (flood_stats (JObj kv)) as [[avg m]|e]; [|right; left; eauto].
    destruct (format_number_1f m) as [max_text|e] eqn:Htext; [left; eauto 10|].
    right. right. destruct m as [z|f]; [|discriminate Htext].
    exists avg, z. cbn [format_number_1f] in Htext. unfold float_of_int in *.
    destruct (round_binary64 (inject_Z z)); try discriminate Htext.
    eexists. split; [reflexivity|]. split; reflexivity.
  - intros kv daily time river_discharge -> Herror Hdaily Htime Hvals Hlen.
    unfold flood_df. cbn [contains mbind result_bind getitem].
    rewrite Herror, (bool_decide_eq_false_2 (is_Some None))
      by (intros [? ?]; discriminate).
    rewrite Hdaily. cbn [mbind result_bind getitem]. rewrite Htime, Hvals.
    cbn [mbind result_bind]. unfold pd_DataFrame, raw_lengths.
    cbn [omap list_omap snd forallb].
    destruct (length time =? length river_discharge)%nat eqn:Hsame; [|reflexivity].
    apply Nat.eqb_eq in Hsame. congruence.
Qed.

Lemma flood_df_built_witness :
  (∃ df : DataFrame value,
     flood_df to_datetime_iso flood_three_days = Ok (Some df)
     ∧ wf_frame df
     ∧ contains "error" flood_three_days = Ok false
     ∧ flood_section (F := left_to_right) flood_three_days
       = Ok [ "🌊 **Flood Risk Report:**";
              "- Avg River Discharge: 1833.3 m³/s";
              "- Max River Discharge: 5200.0 m³/s";
              high_risk_message; "" ])
  ∧ (∃ df : DataFrame value,
       flood_df to_datetime_iso flood_two_huge = Ok (Some df)
       ∧ flood_section (F := left_to_right) flood_two_huge
         = Ok [ "🌊 **Flood Risk Report:**";
                "- Avg River Discharge: 0.0 m³/s";
                flood_unavailable_line ])
  ∧ flood_df to_datetime_iso (JObj {[ "daily" := JObj flood_short_discharge ]})
    = Raise (ValueError "All arrays must be of the same length").
Proof.
  split; [|split].
  - assert (∃ df, flood_df to_datetime_iso flood_three_days = Ok (Some df)) as [df Hdf]
      by (vm_compute; eexists; reflexivity).
    exists df. split; [exact Hdf|].
    destruct (proj1 (flood_df_built (F := left_to_right) to_datetime_iso flood_three_days)
                df Hdf)
      as (Hwf & _ & _ & Herror & (lines & -> & Hlines) & _).
    split; [exact Hwf|]. split; [exact Herror|].
    destruct Hlines as [(avg & m & max_text & Hstats & Htext & ->)
                       |[[[e Hstats] _]|(avg & z & msg & Hstats & _)]].
    + vm_compute in Hstats. injection Hstats as <- <-.
      vm_compute in Htext. injection Htext as <-. vm_compute. reflexivity.
    + vm_compute in Hstats. discriminate Hstats.
    + vm_compute in Hstats. discriminate Hstats.
  - assert (∃ df, flood_df to_datetime_iso flood_two_huge = Ok (Some df)) as [df Hdf]
      by (vm_compute; eexists; reflexivity).
    exists df. split; [exact Hdf|].
    destruct (proj1 (flood_df_built (F := left_to_right) to_datetime_iso flood_two_huge)
                df Hdf)
      as (_ & _ & _ & _ & (lines & -> & Hlines) & _).
    destruct Hlines as [(avg & m & max_text & Hstats & Htext & _)
                       |[[[e Hstats] _]|(avg & z & msg & Hstats & _ & ->)]].
    + vm_compute in Hstats. injection Hstats as <- <-.
      vm_compute in Htext. discriminate Htext.
    + vm_compute in Hstats. discriminate Hstats.
    + vm_compute in Hstats. injection Hstats as <- <-. vm_compute. reflexivity.
  - apply (proj2 (flood_df_built (F := left_to_right) to_datetime_iso
                    (JObj {[ "daily" := JObj flood_short_discharge ]}))
             {[ "daily" := JObj flood_short_discharge ]} flood_short_discharge
             [JStr "2023-01-01"; JStr "2023-01-02"; JStr "2023-01-03"]
             [JNum 100; JNum 200]);
      first [ reflexivity | vm_compute; reflexivity | discriminate ].
Defined.

(** ** A table without readings *)

Lemma omap_id_all_nan (col : list cell) :
  Forall (λ c, c = None) col → omap id col = [].
Proof.
  induction 1 as [|c col -> _ IH]; [reflexivity|]. cbn [omap list_omap id]. exact IH.
Qed.

Lemma count_rows_all_nan (P : cell → Prop) `{∀ c, Decision (P c)} (col : list cell) :
  ¬ P None → Forall (λ c, c = None) col → count_rows P col = 0%Z.
Proof.
  intros Hnone Hcol. unfold count_rows.
  induction Hcol as [|c col -> _ IH]; [reflexivity|].
  rewrite filter_cons, decide_False by exact Hnone. exact IH.
Qed.

(** X12. For a historical table that has rows but no reading at all (every
    tmax and every rain is missing), nothing fails: the classifier counts 0
    three times, and the report shows the average temperature as "nan", the
    total rainfall as "0.0", recommends "Wheat" and gives no advice. *)
Theorem report_without_readings {F : Floats} (region start_date end_date : string)
    (weather_df : DataFrame cell) (tmax rain : list cell)
    (forecast_df : option (DataFrame cell)) (flood_data : json)
    (forecast flood : list string) :
  empty weather_df = false →
  columns weather_df !! "tmax" = Some tmax →
  columns weather_df !! "rain" = Some rain →
  Forall (λ c, c = None) tmax →
  Forall (λ c, c = None) rain →
  forecast_section forecast_df = Ok forecast →
  flood_section flood_data = Ok flood →
  analyze_extremes (Some weather_df) = Ok (events_dict 0 0 0)
  ∧ generate_report region start_date end_date (Some weather_df) forecast_df
      (events_dict 0 0 0) flood_data
    = Ok (String.concat nl
            (header_section region start_date end_date
             ++ [ "📊 **Weather Summary (History):**";
                  "- Avg Temp: nan °C";
                  "- Total Rainfall: 0.0 mm" +:+ nl ]
             ++ forecast
             ++ extremes_section (events_dict 0 0 0)
             ++ flood
             ++ [crop_line "Wheat"])).
Proof.
  intros Hempty Htmax Hrain Hnan_tmax Hnan_rain Hforecast Hflood. split.
  - rewrite (analyze_extremes_present _ _ _ Hempty Htmax Hrain).
    unfold heatwave_row, drought_row, heavy_rain_row.
    rewrite !count_rows_all_nan by (assumption || intros []). reflexivity.
  - rewrite generate_report_sections. unfold report_sections, history_section.
    rewrite (summary_section_rows _ _ _ _ Hempty Htmax Hrain).
    rewrite (crop_section_rows _ _ _ Hempty Htmax Hrain), Hforecast, Hflood.
    rewrite advice_section_zero.
    unfold history_lines, rec_crop.
    rewrite (series_mean_no_number _ (omap_id_all_nan _ Hnan_tmax)).
    rewrite (series_mean_no_number _ (omap_id_all_nan _ Hnan_rain)).
    rewrite (series_sum_whole _ [] (omap_id_all_nan _ Hnan_rain)) by reflexivity.
    cbn [mbind result_bind]. rewrite !app_nil_r. reflexivity.
Qed.

Lemma report_without_readings_witness :
  analyze_extremes (Some no_readings) = Ok (events_dict 0 0 0)
  ∧ generate_report (F := left_to_right)
      "Delta Farm" "2023-01-01" "2023-01-02" (Some no_readings) None
      (events_dict 0 0 0) JNull
    = Ok (String.concat nl
            (header_section "Delta Farm" "2023-01-01" "2023-01-02"
             ++ [ "📊 **Weather Summary (History):**";
                  "- Avg Temp: nan °C";
                  "- Total Rainfall: 0.0 mm" +:+ nl ]
             ++ []
             ++ extremes_section (events_dict 0 0 0)
             ++ []
             ++ [crop_line "Wheat"])).
Proof.
  apply (report_without_readings (F := left_to_right)
           "Delta Farm" "2023-01-01" "2023-01-02" no_readings
           [None; None] [None; None] None JNull [] []);
    first [ reflexivity | repeat constructor ].
Defined.
